(** * Transaction coordinator and v11 log reader of the box subsystem

    A shallow embedding of [txn.cc] (transaction begin / replace /
    commit / rollback) and of [box/lua/xlog_v11.c] (directory scan, row
    reader and cursor of the v11 log format), with the properties of the
    durability contract proved over it. *)

From Stdlib Require Import ZArith List Lia Bool String Ascii Strings.Byte.
From Stdlib Require Import Sorted.
From Stdlib Require DecimalString DecimalN DecimalPos.
From stdpp Require Import base tactics option list functions.

Local Open Scope Z_scope.

(** ** Transaction coordinator (txn.cc) *)

Module Txn.

(** [enum dup_replace_mode] *)
Inductive dup_replace_mode := DUP_INSERT | DUP_REPLACE | DUP_REPLACE_OR_INSERT.

(** [enum wal_mode] of [recovery_state] *)
Inductive wal_mode_t := WAL_NONE | WAL_WRITE | WAL_FSYNC.

(** Failed [assert]s of the translation unit, one constructor each. *)
Inductive assertion :=
| A_not_in_txn          (* assert(! in_txn())                    txn_begin   *)
| A_old_or_new          (* assert(old_tuple || new_tuple)        txn_replace *)
| A_txn_is_current      (* assert(txn == in_txn())    txn_commit, txn_finish *)
| A_row_present.        (* assert(wal_mode == WAL_NONE || txn->row != NULL)  *)

(** Exceptions thrown with [tnt_raise]; [ER_ENGINE] stands for whatever
    client error the engine's replace throws. *)
Inductive error :=
| ER_WAL_IO
| ER_ENGINE (code : Z).

(** How a call ends: normally, by a C++ exception, by a failed assertion
    (the process aborts), or by dereferencing a pointer that does not
    point to a live object. *)
Inductive result (A : Type) :=
| Ok (a : A)
| Raise (e : error)
| AssertFailed (a : assertion)
| Fault.
Arguments Ok {A} a.
Arguments Raise {A} e.
Arguments AssertFailed {A} a.
Arguments Fault {A}.

(** A trigger is an opaque callback; running it is recorded, its body is
    outside the coordinator. *)
Definition trigger := nat.
Definition port := nat.
Definition iovec := list byte.

(** The fields of [struct iproto_header] that txn.cc touches; the rest
    stay zero after [region_alloc0]. *)
Record iproto_header := mk_row {
  row_type : Z;
  row_bodycnt : Z;
  row_body : list iovec
}.

Record space := mk_space {
  space_id : Z;
  space_temporary : bool;
  on_replace : list trigger;
  run_triggers : bool
}.

Definition txn_ptr := nat.

(** [struct request], with what [request_encode()] writes for it. *)
Record request := mk_request {
  req_type : Z;
  req_header : option iproto_header;
  req_encoded : list iovec
}.

(** [struct txn]; tuples are compared by address. *)
Record txn (tuple : Type) := mk_txn {
  old_tuple : option tuple;
  new_tuple : option tuple;
  txn_space : option space;
  txn_row : option iproto_header;
  on_commit : list trigger;
  on_rollback : list trigger
}.
Arguments mk_txn {tuple}.
Arguments old_tuple {tuple}.
Arguments new_tuple {tuple}.
Arguments txn_space {tuple}.
Arguments txn_row {tuple}.
Arguments on_commit {tuple}.
Arguments on_rollback {tuple}.

(** Objects living in the fiber's [gc] region. A pointer into the region
    is the index of the object. *)
Inductive region_obj (tuple : Type) :=
| ObjTxn (t : txn tuple)
| ObjRow (r : iproto_header).
Arguments ObjTxn {tuple}.
Arguments ObjRow {tuple}.

(** Externally visible effects, in the order they happen. *)
Inductive event (tuple : Type) :=
| EvSpaceReplace (s : space) (old new : option tuple) (mode : dup_replace_mode)
| EvTrigger (t : trigger) (arg : txn_ptr)
| EvWalWrite (row : option iproto_header)
| EvWarnTooLong (type : Z)
| EvPortAddTuple (p : port) (t : tuple)
| EvTupleRef (t : tuple) (delta : Z)
| EvEngineTxnFinish (s : space)
| EvFiberGc.
Arguments EvSpaceReplace {tuple}.
Arguments EvTrigger {tuple}.
Arguments EvWalWrite {tuple}.
Arguments EvWarnTooLong {tuple}.
Arguments EvPortAddTuple {tuple}.
Arguments EvTupleRef {tuple}.
Arguments EvEngineTxnFinish {tuple}.
Arguments EvFiberGc {tuple}.

(** The collaborators of txn.cc: the storage engine behind
    [space_replace] and [engine->factory->txnFinish], and the recovery
    subsystem behind [wal_write], with the event loop clock [ev_now].
    [ev_tstamp] values stay abstract; [too_long start stop] is
    [stop - start > too_long_threshold]. *)
Class Collaborators (tuple : Type) := {
  engine_state : Type;
  wal_state : Type;
  tstamp : Type;
  space_replace :
    engine_state -> space -> option tuple -> option tuple ->
    dup_replace_mode -> engine_state * (error + option tuple);
  engine_txn_finish : engine_state -> txn tuple -> engine_state;
  wal_write : wal_state -> option iproto_header -> wal_state * Z;
  ev_now : wal_state -> tstamp;
  too_long : tstamp -> tstamp -> bool
}.

Record world (tuple : Type) `{Collaborators tuple} := mk_world {
  in_txn : option txn_ptr;          (* fiber-local current transaction *)
  gc : list (region_obj tuple);     (* fiber()->gc *)
  engine : engine_state;
  refs : tuple -> Z;                (* tuple reference counters *)
  wal : wal_state;                  (* recovery_state and the loop clock *)
  wal_mode : wal_mode_t;            (* recovery_state->wal_mode *)
  trace : list (event tuple)
}.
Arguments mk_world {tuple _}.
Arguments in_txn {tuple _}.
Arguments gc {tuple _}.
Arguments engine {tuple _}.
Arguments refs {tuple _}.
Arguments wal {tuple _}.
Arguments wal_mode {tuple _}.
Arguments trace {tuple _}.

Section Coordinator.

Context {tuple : Type} `{EqDecision tuple} `{Collaborators tuple}.

Local Abbreviation world := (world tuple).
Local Abbreviation txn := (txn tuple).
Local Abbreviation event := (event tuple).
Local Abbreviation region_obj := (region_obj tuple).

(** *** A state and failure monad for the coordinator *)

Definition M (A : Type) := world -> result A * world.

Definition ret {A} (a : A) : M A := fun w => (Ok a, w).
Definition bind {A B} (m : M A) (k : A -> M B) : M B :=
  fun w =>
    match m w with
    | (Ok a, w') => k a w'
    | (Raise e, w') => (Raise e, w')
    | (AssertFailed a, w') => (AssertFailed a, w')
    | (Fault, w') => (Fault, w')
    end.
Definition tnt_raise {A} (e : error) : M A := fun w => (Raise e, w).
Definition assert (b : bool) (a : assertion) : M unit :=
  fun w => if b then (Ok tt, w) else (AssertFailed a, w).
Definition fault {A} : M A := fun w => (Fault, w).
Definition gets {A} (f : world -> A) : M A := fun w => (Ok (f w), w).
Definition modify (f : world -> world) : M unit := fun w => (Ok tt, f w).
Definition when (b : bool) (m : M unit) : M unit := if b then m else ret tt.

Local Notation "x <- c1 ;; c2" := (bind c1 (fun x => c2))
  (at level 100, c1 at next level, right associativity).
Local Notation "c1 ;;; c2" := (bind c1 (fun _ => c2))
  (at level 100, right associativity).

Definition set_in_txn (p : option txn_ptr) (w : world) : world :=
  mk_world p (gc w) (engine w) (refs w) (wal w) (wal_mode w) (trace w).
Definition set_gc (g : list region_obj) (w : world) : world :=
  mk_world (in_txn w) g (engine w) (refs w) (wal w) (wal_mode w) (trace w).
Definition set_engine (e : engine_state) (w : world) : world :=
  mk_world (in_txn w) (gc w) e (refs w) (wal w) (wal_mode w) (trace w).
Definition set_refs (r : tuple -> Z) (w : world) : world :=
  mk_world (in_txn w) (gc w) (engine w) r (wal w) (wal_mode w) (trace w).
Definition set_wal (s : wal_state) (w : world) : world :=
  mk_world (in_txn w) (gc w) (engine w) (refs w) s (wal_mode w) (trace w).
Definition add_event (e : event) (w : world) : world :=
  mk_world (in_txn w) (gc w) (engine w) (refs w) (wal w) (wal_mode w)
           (trace w ++ [e]).

Definition emit (e : event) : M unit := modify (add_event e).

(** [region_alloc0(&fiber()->gc, size)]: a fresh object at the end. *)
Definition region_alloc0 (o : region_obj) : M nat :=
  fun w => (Ok (length (gc w)), set_gc (gc w ++ [o]) w).

(** Reading and writing [*txn]. *)
Definition load (p : txn_ptr) : M txn :=
  fun w => match gc w !! p with
           | Some (ObjTxn t) => (Ok t, w)
           | _ => (Fault, w)
           end.
Definition store (p : txn_ptr) (t : txn) : M unit :=
  fun w => match gc w !! p with
           | Some (ObjTxn _) => (Ok tt, set_gc (<[p := ObjTxn t]> (gc w)) w)
           | _ => (Fault, w)
           end.

(** [tuple_ref(tuple, count)] *)
Definition tuple_ref (t : tuple) (count : Z) : M unit :=
  modify (fun w => add_event (EvTupleRef t count)
                     (set_refs (<[t := refs w t + count]> (refs w)) w)).

(** [trigger_run(list, txn)] *)
Fixpoint trigger_run (l : list trigger) (arg : txn_ptr) : M unit :=
  match l with
  | [] => ret tt
  | t :: l' => emit (EvTrigger t arg) ;;; trigger_run l' arg
  end.

(** [fiber_gc()] *)
Definition fiber_gc : M unit :=
  modify (fun w => add_event EvFiberGc (set_gc [] w)).

Definition is_some {A} (o : option A) : bool :=
  match o with Some _ => true | None => false end.

(** *** The functions of txn.cc *)

Definition port_send_tuple (pt : port) (p : txn_ptr) : M unit :=
  t <- load p ;;
  match new_tuple t with
  | Some tuple => emit (EvPortAddTuple pt tuple)
  | None =>
      match old_tuple t with
      | Some tuple => emit (EvPortAddTuple pt tuple)
      | None => ret tt
      end
  end.

Definition txn_add_redo (p : txn_ptr) (rq : request) : M unit :=
  t <- load p ;;
  store p (mk_txn (old_tuple t) (new_tuple t) (txn_space t) (req_header rq)
                  (on_commit t) (on_rollback t)) ;;;
  mode <- gets wal_mode ;;
  match mode, req_header rq with
  | WAL_NONE, _ => ret tt
  | _, Some _ => ret tt
  | _, None =>
      let row := mk_row (req_type rq) (Z.of_nat (length (req_encoded rq)))
                        (req_encoded rq) in
      _ <- region_alloc0 (ObjRow row) ;;
      t <- load p ;;
      store p (mk_txn (old_tuple t) (new_tuple t) (txn_space t) (Some row)
                      (on_commit t) (on_rollback t))
  end.

Definition call_space_replace (s : space) (old new : option tuple)
    (mode : dup_replace_mode) : M (option tuple) :=
  fun w =>
    let '(e', r) := space_replace (engine w) s old new mode in
    let w' := add_event (EvSpaceReplace s old new mode) (set_engine e' w) in
    match r with
    | inl err => (Raise err, w')
    | inr displaced => (Ok displaced, w')
    end.

Definition txn_replace (p : txn_ptr) (s : space) (old new : option tuple)
    (mode : dup_replace_mode) : M unit :=
  assert (is_some old || is_some new) A_old_or_new ;;;
  displaced <- call_space_replace s old new mode ;;
  t <- load p ;;
  store p (mk_txn displaced (new_tuple t) (txn_space t) (txn_row t)
                  (on_commit t) (on_rollback t)) ;;;
  match new with
  | Some n =>
      t <- load p ;;
      store p (mk_txn (old_tuple t) (Some n) (txn_space t) (txn_row t)
                      (on_commit t) (on_rollback t)) ;;;
      tuple_ref n 1
  | None => ret tt
  end ;;;
  t <- load p ;;
  store p (mk_txn (old_tuple t) (new_tuple t) (Some s) (txn_row t)
                  (on_commit t) (on_rollback t)) ;;;
  when (negb (match on_replace s with [] => true | _ => false end)
        && run_triggers s)
       (trigger_run (on_replace s) p).

Definition zero_txn : txn := mk_txn None None None None [] [].

Definition txn_begin : M txn_ptr :=
  cur <- gets in_txn ;;
  assert (negb (is_some cur)) A_not_in_txn ;;;
  p <- region_alloc0 (ObjTxn zero_txn) ;;
  (* rlist_create(&txn->on_commit); rlist_create(&txn->on_rollback); *)
  t <- load p ;;
  store p (mk_txn (old_tuple t) (new_tuple t) (txn_space t) (txn_row t)
                  [] []) ;;;
  modify (set_in_txn (Some p)) ;;;
  ret p.

Definition ptr_eqb (p : txn_ptr) (cur : option txn_ptr) : bool :=
  match cur with Some q => Nat.eqb p q | None => false end.

Definition txn_finish (p : txn_ptr) : M unit :=
  cur <- gets in_txn ;;
  assert (ptr_eqb p cur) A_txn_is_current ;;;
  t <- load p ;;
  match old_tuple t with
  | Some o => tuple_ref o (-1)
  | None => ret tt
  end ;;;
  match txn_space t with
  | Some s =>
      modify (fun w => add_event (EvEngineTxnFinish s)
                         (set_engine (engine_txn_finish (engine w) t) w))
  | None => ret tt
  end ;;;
  fiber_gc ;;;
  modify (set_in_txn None).

(** [space_is_temporary(txn->space)] reads through the pointer. *)
Definition space_is_temporary (s : option space) : M bool :=
  match s with
  | Some sp => ret (space_temporary sp)
  | None => fault
  end.

Definition txn_changed (t : txn) : bool :=
  is_some (old_tuple t) || is_some (new_tuple t).

Definition is_wal_none (m : wal_mode_t) : bool :=
  match m with WAL_NONE => true | _ => false end.

Definition wal_step (t : txn) : M unit :=
  mode <- gets wal_mode ;;
  assert (is_wal_none mode || is_some (txn_row t)) A_row_present ;;;
  start <- gets (fun w => ev_now (wal w)) ;;
  res <- (fun w => let '(s', r) := wal_write (wal w) (txn_row t) in
                   (Ok r, add_event (EvWalWrite (txn_row t)) (set_wal s' w))) ;;
  stop <- gets (fun w => ev_now (wal w)) ;;
  match too_long start stop, txn_row t with
  | true, Some row => emit (EvWarnTooLong (row_type row))
  | _, _ => ret tt
  end ;;;
  if Z.eqb res 0 then ret tt else tnt_raise ER_WAL_IO.

Definition txn_commit (p : txn_ptr) (pt : port) : M unit :=
  cur <- gets in_txn ;;
  assert (ptr_eqb p cur) A_txn_is_current ;;;
  t <- load p ;;
  logged <- (if txn_changed t
             then tmp <- space_is_temporary (txn_space t) ;; ret (negb tmp)
             else ret false) ;;
  when logged (wal_step t) ;;;
  trigger_run (on_commit t) p ;;;
  port_send_tuple pt p ;;;
  txn_finish p.

Definition txn_rollback : M unit :=
  cur <- gets in_txn ;;
  match cur with
  | None => ret tt
  | Some p =>
      t <- load p ;;
      when (txn_changed t)
           (match txn_space t with
            | Some s =>
                _ <- call_space_replace s (new_tuple t) (old_tuple t) DUP_INSERT ;;
                trigger_run (on_rollback t) p ;;;
                match new_tuple t with
                | Some n => tuple_ref n (-1)
                | None => ret tt
                end
            | None => fault
            end) ;;;
      fiber_gc ;;;
      modify (set_in_txn None)
  end.

End Coordinator.
(** *** Vocabulary of the commit and rollback protocol *)

Section Protocol.

Context {tuple : Type} `{EqDecision tuple} `{Collaborators tuple}.

(** The tuple [port_send_tuple] hands to the port. *)
Definition visible_tuple (t : txn tuple) : option tuple :=
  match new_tuple t with
  | Some n => Some n
  | None => old_tuple t
  end.

(** The guard of the logging block of [txn_commit]. *)
Definition commit_logged (t : txn tuple) : bool :=
  txn_changed t &&
  negb (match txn_space t with
        | Some s => space_temporary s
        | None => false
        end).

Definition trigger_events (l : list trigger) (p : txn_ptr) : list (event tuple) :=
  map (fun t => EvTrigger t p) l.

Definition port_events (pt : port) (t : txn tuple) : list (event tuple) :=
  match visible_tuple t with
  | Some v => [EvPortAddTuple pt v]
  | None => []
  end.

Definition finish_events (t : txn tuple) : list (event tuple) :=
  match old_tuple t with
  | Some o => [EvTupleRef o (-1)]
  | None => []
  end ++
  match txn_space t with
  | Some s => [EvEngineTxnFinish s]
  | None => []
  end ++ [EvFiberGc].

(** What the logging block adds to the trace: the appender call, then
    the too-long warning when the clock says so. *)
Definition wal_events (w : world tuple) (t : txn tuple) : list (event tuple) :=
  EvWalWrite (txn_row t) ::
  match too_long (ev_now (wal w))
                 (ev_now (fst (wal_write (wal w) (txn_row t)))),
        txn_row t with
  | true, Some row => [EvWarnTooLong (row_type row)]
  | _, _ => []
  end.

Definition is_wal_write (e : event tuple) : bool :=
  match e with EvWalWrite _ => true | _ => false end.
Definition is_trigger (e : event tuple) : bool :=
  match e with EvTrigger _ _ => true | _ => false end.
Definition is_port_add (e : event tuple) : bool :=
  match e with EvPortAddTuple _ _ => true | _ => false end.
Definition is_finish (e : event tuple) : bool :=
  match e with
  | EvEngineTxnFinish _ | EvFiberGc => true
  | _ => false
  end.

(** The engine's side of the rollback contract: a forced-insert replace
    of the displaced tuple for the new one brings the engine back, a
    replace that displaced nothing and inserted nothing changed nothing,
    and a replace that throws leaves the engine as it was. *)
Definition engine_undo_law : Prop :=
  forall e s old new mode e' d,
    space_replace e s old new mode = (e', inr d) ->
    if is_some d || is_some new
    then exists d', space_replace e' s new d DUP_INSERT = (e, inr d')
    else e' = e.

Definition engine_raise_law : Prop :=
  forall e s old new mode e' err,
    space_replace e s old new mode = (e', inl err) -> e' = e.

(** [*txn] after a successful [txn_replace] that displaced [d]. *)
Definition replaced_txn (t : txn tuple) (s : space) (d new : option tuple) : txn tuple :=
  mk_txn d (match new with Some n => Some n | None => new_tuple t end)
         (Some s) (txn_row t) (on_commit t) (on_rollback t).

(** What the [on_replace] triggers of the space add to the trace. *)
Definition replace_triggers (s : space) (p : txn_ptr) : list (event tuple) :=
  if negb (match on_replace s with [] => true | _ => false end) && run_triggers s
  then trigger_events (on_replace s) p else [].

(** What [txn_rollback] does for a changed tuple, before freeing. *)
Definition rollback_events (t : txn tuple) (p : txn_ptr) : list (event tuple) :=
  match txn_space t with
  | Some s =>
      EvSpaceReplace s (new_tuple t) (old_tuple t) DUP_INSERT ::
      trigger_events (on_rollback t) p ++
      match new_tuple t with Some n => [EvTupleRef n (-1)] | None => [] end
  | None => []
  end.

(** Engine and counters after [txn_finish]. *)
Definition finished_engine (w : world tuple) (t : txn tuple) : engine_state :=
  match txn_space t with
  | Some _ => engine_txn_finish (engine w) t
  | None => engine w
  end.

Definition finished_refs (w : world tuple) (t : txn tuple) : tuple -> Z :=
  match old_tuple t with
  | Some o => <[o := refs w o + -1]> (refs w)
  | None => refs w
  end.

(** The world after the logging block of [txn_commit] has run. *)
Definition logged_world (w : world tuple) (t : txn tuple) : world tuple :=
  mk_world (in_txn w) (gc w) (engine w) (refs w)
           (fst (wal_write (wal w) (txn_row t))) (wal_mode w)
           (trace w ++ wal_events w t).

(** [*txn] after [txn->row = row]. *)
Definition with_row (t : txn tuple) (row : option iproto_header) : txn tuple :=
  mk_txn (old_tuple t) (new_tuple t) (txn_space t) row (on_commit t)
         (on_rollback t).

End Protocol.

(** *** A reference engine and log for running the coordinator

    One slot per engine: the space holds at most one tuple, with the
    duplicate check of an index replace. The log keeps the rows written
    and fails every write once its disk is marked full. *)

Definition slot_replace (e : option nat) (s : space) (old new : option nat)
    (mode : dup_replace_mode) : option nat * (error + option nat) :=
  match new with
  | None =>
      match old, e with
      | Some o, Some x => if Nat.eqb o x then (None, inr (Some o)) else (e, inr None)
      | _, _ => (e, inr None)
      end
  | Some n =>
      match e with
      | None =>
          match mode with
          | DUP_REPLACE => (e, inl (ER_ENGINE 4))      (* tuple not found *)
          | _ => (Some n, inr None)
          end
      | Some x =>
          let same := match old with
                      | Some o => Nat.eqb o x
                      | None => false
                      end in
          let forced := match mode with DUP_INSERT => true | _ => false end in
          if negb same && (is_some old || forced)
          then (e, inl (ER_ENGINE 3))                  (* tuple found *)
          else (Some n, inr (Some x))
      end
  end.

#[export] Instance slot_collaborators : Collaborators nat := {
  engine_state := option nat;
  wal_state := bool * list (option iproto_header);
  tstamp := Z;
  space_replace := slot_replace;
  engine_txn_finish := fun e _ => e;
  wal_write := fun '(full, rows) row =>
                 if full then ((full, rows), -1) else ((full, rows ++ [row]), 0);
  ev_now := fun '(_, rows) => Z.of_nat (length rows);
  too_long := fun start stop => stop - start >? 5
}.

Definition slot_world (full : bool) (mode : wal_mode_t) : world nat :=
  mk_world None [] None (fun _ => 0) (full, []) mode [].

Definition plain_space : space := mk_space 512 false [7%nat] true.
Definition temp_space : space := mk_space 513 true [] true.

(** A transaction ready to commit, and a run against a full disk. *)

Definition demo_row : iproto_header := mk_row 13 1 [[x01; x02]].

Definition demo_txn : txn nat :=
  mk_txn None (Some 5%nat) (Some plain_space) (Some demo_row) [1%nat; 2%nat] [3%nat].

Definition demo_world (full : bool) : world nat :=
  mk_world (Some 0%nat) [ObjTxn demo_txn] (Some 5%nat) (fun _ => 1) (full, [])
           WAL_WRITE [].

Definition demo_request : request := mk_request 13 None [[x01; x02]].

Definition failing_w0 : world nat := slot_world true WAL_WRITE.

Definition failing_w1 : world nat := snd (txn_begin failing_w0).

Definition failing_w2 : world nat :=
  snd (txn_replace 0%nat plain_space None (Some 5%nat) DUP_INSERT failing_w1).

Definition failing_w3 : world nat :=
  snd (txn_add_redo 0%nat demo_request failing_w2).

Definition failing_w4 : world nat := snd (txn_commit 0%nat 9%nat failing_w3).


End Txn.

(** ** The v11 log format (box/lua/xlog_v11.c) *)

Module Xlog.

(** [log_magic_t] is [uint32_t]. *)
Definition row_marker_v11 : Z := 0xba0babed.
Definition eof_marker_v11 : Z := 0x10adab1e.

(** *** Bytes and little-endian integers, as [fread] into a packed struct
    reads them on the little-endian hosts the format is defined for. *)

Definition byte_val (b : byte) : Z := Z.of_N (Byte.to_N b).

Definition byte_of_Z (z : Z) : byte :=
  match Byte.of_N (Z.to_N (z mod 256)) with
  | Some b => b
  | None => x00
  end.

Fixpoint le_decode (bs : list byte) : Z :=
  match bs with
  | [] => 0
  | b :: rest => byte_val b + 256 * le_decode rest
  end.

Fixpoint le_encode (n : nat) (v : Z) : list byte :=
  match n with
  | O => []
  | S n' => byte_of_Z v :: le_encode n' (v / 256)
  end.

(** *** stdio on a file whose contents do not change while a cursor
    reads it. The stream's end-of-file indicator is not kept: a read that
    sets it leaves the position at or past the end of the contents,
    where every later read fails with or without it, and [fseeko] clears
    it. *)

Record FILE := mk_FILE {
  f_data : list byte;
  f_pos : Z
}.

Definition f_size (f : FILE) : Z := Z.of_nat (length (f_data f)).
Definition ftello (f : FILE) : Z := f_pos f.
Definition fseeko (f : FILE) (off : Z) : FILE := mk_FILE (f_data f) off.

(** [fread(ptr, size, 1, f) == 1], with the bytes read. A zero [size]
    reads nothing and returns 0; a short read consumes what is left. *)
Definition fread (size : Z) (f : FILE) : option (list byte) * FILE :=
  if (0 <? size) && (f_pos f + size <=? f_size f) then
    (Some (take (Z.to_nat size) (drop (Z.to_nat (f_pos f)) (f_data f))),
     mk_FILE (f_data f) (f_pos f + size))
  else if size =? 0 then (None, f)
  else (None, mk_FILE (f_data f) (Z.max (f_pos f) (f_size f))).

(** [fgetc(f)], [None] being [EOF]. *)
Definition fgetc (f : FILE) : option Z * FILE :=
  match drop (Z.to_nat (f_pos f)) (f_data f) with
  | c :: _ => (Some (byte_val c), mk_FILE (f_data f) (f_pos f + 1))
  | [] => (None, f)
  end.

(** *** crc32_calc *)

(** Modelled from the spec: [crc32_calc] of crc32.h is not among the
    sources; the spec names the checksum as CRC32-Castagnoli. Bitwise,
    reflected polynomial 0x82F63B78, the running value passed in and out
    as it is. *)
Definition crc32c_bit (c : Z) : Z :=
  if Z.testbit c 0 then Z.lxor (Z.shiftr c 1) 0x82F63B78 else Z.shiftr c 1.

Definition crc32c_byte (crc : Z) (b : byte) : Z :=
  Nat.iter 8 crc32c_bit (Z.lxor crc (byte_val b)).

Definition crc32_calc (crc : Z) (buf : list byte) : Z :=
  fold_left crc32c_byte buf crc.

(** *** struct header_v11 (packed, 28 bytes) *)

Record header_v11 := mk_header {
  header_crc32c : Z;   (* uint32_t, offset 0  *)
  lsn : Z;             (* int64_t,  offset 4  *)
  tm : Z;              (* double,   offset 12, kept as its 64 bits *)
  len : Z;             (* uint32_t, offset 20 *)
  data_crc32c : Z      (* uint32_t, offset 24 *)
}.

Definition sizeof_header_v11 : Z := 28.
Definition offsetof_lsn : nat := 4.

Definition to_int64 (u : Z) : Z :=
  if u <? 2 ^ 63 then u else u - 2 ^ 64.

Definition decode_header (m : list byte) : header_v11 :=
  mk_header (le_decode (take 4 m))
            (to_int64 (le_decode (take 8 (drop 4 m))))
            (le_decode (take 8 (drop 12 m)))
            (le_decode (take 4 (drop 20 m)))
            (le_decode (take 4 (drop 24 m))).

(** The two checksums [row_reader_v11] computes. *)
Definition header_crc (m : list byte) : Z := crc32_calc 0 (drop offsetof_lsn m).
Definition data_crc (body : list byte) : Z := crc32_calc 0 body.

(** What [row_reader_v11] returns: the static [ROW_EOF], [NULL], or the
    row it filled in the fiber region: the header copied by [memcpy] and
    the body read after it. *)
Inductive row_result :=
| ROW_EOF
| ROW_NULL
| Row (row : list byte).

(** [say_warn], [say_error] and [say_debug] lines of the cursor. *)
Inductive say :=
| SayDebugEofLookingForMagic
| SayWarnSkipped (bytes : Z) (after : Z)
| SayDebugMagicFound (at_offset : Z)
| SayWarnFailedToReadRow
| SayErrorCantReadEofMarker
| SayErrorEofMarkerCorrupt (magic : Z).

Record xlog := mk_xlog {
  xl_f : FILE;
  xl_rows : Z
}.

Record xlog_cursor := mk_cursor {
  log : xlog;
  row_count : Z;
  good_offset : Z;
  eof_read : bool
}.

Section Reader.

(** Whether [region_alloc(&fiber()->gc, size)] returns memory. *)
Variable region_can_alloc : Z -> bool.

(** [row_reader_v11]: what it returns and the stream as it leaves it.
    Its out-parameter is added in [row_reader_v11_rowlen] below. *)
Definition row_reader_v11 (f : FILE) : row_result * FILE :=
  match fread sizeof_header_v11 f with
  | (None, f1) => (ROW_EOF, f1)
  | (Some mbytes, f1) =>
      let m := decode_header mbytes in
      (* header crc32c calculated on <lsn, tm, len, data_crc32c> *)
      let header_crc := header_crc mbytes in
      (* #if 0: m.header_crc32c != header_crc is not tested *)
      if negb (region_can_alloc (sizeof_header_v11 + len m)) then (ROW_NULL, f1)
      else
        match fread (len m) f1 with
        | (None, f2) => (ROW_EOF, f2)
        | (Some body, f2) =>
            let data_crc := data_crc body in
            (* #if 0: m.data_crc32c != data_crc is not tested *)
            (Row (mbytes ++ body), f2)
        end
  end.

(** [*rowlen = m.len + sizeof(m)]: the sum is stored in a [uint32_t]. *)
Definition rowlen_v11 (m : header_v11) : Z :=
  (len m + sizeof_header_v11) mod 2 ^ 32.

(** [row_reader_v11] with its out-parameter: [rowlen] is what [*rowlen]
    holds before the call, the second component what it holds after. The
    assignment is the last statement before [return row]. *)
Definition row_reader_v11_rowlen (f : FILE) (rowlen : Z)
    : row_result * Z * FILE :=
  match fread sizeof_header_v11 f with
  | (None, f1) => (ROW_EOF, rowlen, f1)
  | (Some mbytes, f1) =>
      let m := decode_header mbytes in
      let header_crc := header_crc mbytes in
      if negb (region_can_alloc (sizeof_header_v11 + len m))
      then (ROW_NULL, rowlen, f1)
      else
        match fread (len m) f1 with
        | (None, f2) => (ROW_EOF, rowlen, f2)
        | (Some body, f2) =>
            let data_crc := data_crc body in
            (Row (mbytes ++ body), rowlen_v11 m, f2)
        end
  end.

Definition xlog_cursor_v11_open (l : xlog) : xlog_cursor :=
  mk_cursor l 0 (ftello (xl_f l)) false.

Definition xlog_cursor_v11_close (i : xlog_cursor) : xlog :=
  mk_xlog (fseeko (xl_f (log i)) (good_offset i))
          (xl_rows (log i) + row_count i).

(** [magic = magic >> 8 | ((log_magic_t) c & 0xff) << (sizeof(magic)*8 - 8)] *)
Definition slide (magic c : Z) : Z :=
  Z.lor (Z.shiftr magic 8) (Z.shiftl (Z.land c 0xff) 24).

(** The [while (magic != row_marker_v11)] loop: [rest] is what the
    successive [fgetc] calls deliver, [pos] the file position. The result
    says whether the marker was found and where the position then is. *)
Fixpoint scan_marker (magic : Z) (rest : list byte) (pos : Z) : bool * Z :=
  if magic =? row_marker_v11 then (true, pos)
  else
    match rest with
    | [] => (false, pos)
    | c :: rest' => scan_marker (slide magic (byte_val c)) rest' (pos + 1)
    end.

Definition with_file (i : xlog_cursor) (f : FILE) : xlog_cursor :=
  mk_cursor (mk_xlog f (xl_rows (log i))) (row_count i) (good_offset i)
            (eof_read i).

Definition next_return := (option (list byte) * xlog_cursor * list say)%type.

(** The code after the [eof:] label. *)
Definition cursor_eof (i : xlog_cursor) (f : FILE) (msgs : list say)
    : next_return :=
  if ftello f =? good_offset i + 4 then
    let f1 := fseeko f (good_offset i) in
    match fread 4 f1 with
    | (None, f2) => (None, with_file i f2, msgs ++ [SayErrorCantReadEofMarker])
    | (Some mg, f2) =>
        let magic := le_decode mg in
        if magic =? eof_marker_v11 then
          (None,
           mk_cursor (mk_xlog f2 (xl_rows (log i))) (row_count i) (ftello f2) true,
           msgs)
        else if negb (magic =? row_marker_v11) then
          (None, with_file i f2, msgs ++ [SayErrorEofMarkerCorrupt magic])
        else (None, with_file i f2, msgs)
    end
  else (None, with_file i f, msgs).

(** From [fread(&magic, ...)] to the end of the [while] loop of
    [xlog_cursor_v11_next]: the file positioned just after the marker, or
    the file as the failed read left it. *)
Definition find_marker (f0 : FILE) (msgs : list say)
    : FILE * list say + FILE :=
  match fread 4 f0 with
  | (None, f1) => inl (f1, msgs)
  | (Some mg, f1) =>
      match scan_marker (le_decode mg)
                        (drop (Z.to_nat (f_pos f1)) (f_data f1)) (f_pos f1) with
      | (false, p) => inl (fseeko f1 p, msgs ++ [SayDebugEofLookingForMagic])
      | (true, p) => inr (fseeko f1 p)
      end
  end.

(** The messages once the marker is found at [marker_offset]. *)
Definition found_msgs (i : xlog_cursor) (marker_offset : Z) : list say :=
  (if good_offset i =? marker_offset then []
   else [SayWarnSkipped (marker_offset - good_offset i) (good_offset i)]) ++
  [SayDebugMagicFound marker_offset].

(** The code from the [restart:] label on; one unit of [fuel] per pass
    through the label, [None] when it runs out. *)
Fixpoint next_restart (fuel : nat) (i : xlog_cursor) (f : FILE)
    (marker_offset : Z) (msgs : list say) : option next_return :=
  match fuel with
  | O => None
  | S fuel' =>
      let f0 := if 0 <? marker_offset then fseeko f (marker_offset + 1) else f in
      match find_marker f0 msgs with
      | inl (f1, msgs0) => Some (cursor_eof i f1 msgs0)
      | inr f2 =>
          let marker_offset' := ftello f2 - 4 in
          let msgs1 := msgs ++ found_msgs i marker_offset' in
          match row_reader_v11 f2 with
          | (ROW_EOF, f3) => Some (cursor_eof i f3 msgs1)
          | (ROW_NULL, f3) =>
              next_restart fuel' i f3 marker_offset'
                           (msgs1 ++ [SayWarnFailedToReadRow])
          | (Row row, f3) =>
              Some (Some row,
                    mk_cursor (mk_xlog f3 (xl_rows (log i)))
                              (row_count i + 1) (ftello f3) (eof_read i),
                    msgs1)
          end
      end
  end.

(** [xlog_cursor_v11_next]; [assert(i->eof_read == false)] is its
    precondition, [region_free_after] only bounds the region's size, and
    [rowlen] is handed to [row_reader_v11] as it is.
    Every pass through [restart:] starts later in the file than the one
    before, so one unit of fuel per byte is enough. *)
Definition xlog_cursor_v11_next (i : xlog_cursor) : option next_return :=
  next_restart (S (length (f_data (xl_f (log i))))) i (xl_f (log i)) 0 [].

(** One call of the cursor by its owner, who keeps to the assertion. *)
Inductive cursor_step : xlog_cursor -> xlog_cursor -> Prop :=
| step_next i row i' msgs :
    eof_read i = false ->
    xlog_cursor_v11_next i = Some (row, i', msgs) ->
    cursor_step i i'.

(** The sequences of calls on a cursor. *)

Inductive cursor_run : xlog_cursor -> xlog_cursor -> Prop :=
| run_nil i : cursor_run i i
| run_step i j k : cursor_run i j -> cursor_step j k -> cursor_run i k.

(** Calling the cursor until it returns no row, at most [n] times: the
    rows, the messages, and the cursor as the last call left it. *)
Fixpoint cursor_read (n : nat) (i : xlog_cursor)
    : option (list (list byte) * list say * xlog_cursor) :=
  match n with
  | O => Some ([], [], i)
  | S n' =>
      match xlog_cursor_v11_next i with
      | None => None
      | Some (None, i', msgs) => Some ([], msgs, i')
      | Some (Some row, i', msgs) =>
          match cursor_read n' i' with
          | Some (rows, msgs', j) => Some (row :: rows, msgs ++ msgs', j)
          | None => None
          end
      end
  end.

End Reader.
(** *** The writer's side of the format *)

(** Modelled from the spec: the Appender is not among the sources. It
    emits [ROW_MARKER], then the framed header with both checksums
    computed from the payload, then the body; a sealed file ends with
    [EOF_MARKER]. *)
Record redo_row := mk_redo {
  r_lsn : Z;
  r_tm : Z;
  r_body : list byte
}.

Definition frame_header (r : redo_row) : list byte :=
  let covered :=
    le_encode 8 (r_lsn r) ++ le_encode 8 (r_tm r) ++
    le_encode 4 (Z.of_nat (length (r_body r))) ++
    le_encode 4 (crc32_calc 0 (r_body r)) in
  le_encode 4 (crc32_calc 0 covered) ++ covered.

Definition frame_row (r : redo_row) : list byte :=
  le_encode 4 row_marker_v11 ++ frame_header r ++ r_body r.

Definition seal (sealed : bool) : list byte :=
  if sealed then le_encode 4 eof_marker_v11 else [].

Definition written_log (meta : list byte) (rows : list redo_row)
    (sealed : bool) : list byte :=
  meta ++ concat (map frame_row rows) ++ seal sealed.

(** *** Vocabulary of the cursor's properties, and concrete files *)

(** The marker starts at offset [m] of [data]. *)
Definition marker_at (data : list byte) (m : Z) : Prop :=
  0 <= m /\ m + 4 <= Z.of_nat (length data) /\
  le_decode (take 4 (drop (Z.to_nat m) data)) = row_marker_v11.

Definition eof_marker_at (data : list byte) (m : Z) : Prop :=
  0 <= m /\ m + 4 <= Z.of_nat (length data) /\
  le_decode (take 4 (drop (Z.to_nat m) data)) = eof_marker_v11.

Definition cursor_file (i : xlog_cursor) : FILE := xl_f (log i).

(** What one call of the cursor can do to it, the scan having started at
    offset [start]. *)
Inductive next_outcome (i : xlog_cursor) (start : Z)
  : option (list byte) -> xlog_cursor -> Prop :=
| outcome_no_row i' :
    good_offset i' = good_offset i -> eof_read i' = eof_read i ->
    row_count i' = row_count i ->
    next_outcome i start None i'
| outcome_sealed i' :
    eof_marker_at (f_data (cursor_file i)) (good_offset i) ->
    good_offset i' = good_offset i + 4 -> eof_read i' = true ->
    row_count i' = row_count i ->
    next_outcome i start None i'
| outcome_row row m i' :
    start <= m -> marker_at (f_data (cursor_file i)) m ->
    row = take (length row) (drop (Z.to_nat (m + 4)) (f_data (cursor_file i))) ->
    good_offset i' = m + 4 + Z.of_nat (length row) ->
    good_offset i' <= f_size (cursor_file i) ->
    row_count i' = row_count i + 1 -> eof_read i' = eof_read i ->
    next_outcome i start (Some row) i'.

(** The cursor's invariant: the file position is never before
    [good_offset]. *)
Definition cursor_inv (i : xlog_cursor) : Prop :=
  0 <= good_offset i <= f_pos (cursor_file i).

Definition restart_pos (f : FILE) (marker_offset : Z) : Z :=
  if 0 <? marker_offset then marker_offset + 1 else f_pos f.

(** A row the cursor can take in: a body that is not empty ([fread] of
    zero bytes returns 0, which the reader takes for a short read), that
    fits the 32-bit length field, and for which the region has memory. *)
Definition row_readable (region_can_alloc : Z -> bool) (r : redo_row) : Prop :=
  r_body r <> [] /\
  Z.of_nat (length (r_body r)) < 2 ^ 32 /\
  region_can_alloc (28 + Z.of_nat (length (r_body r))) = true.

(** The row as the cursor returns it: header and body, no marker. *)
Definition row_bytes (r : redo_row) : list byte := frame_header r ++ r_body r.

Definition always_alloc (size : Z) : bool := true.

(** "XLOG\n0.11\n\n" *)
Definition demo_meta : list byte :=
  [x58; x4c; x4f; x47; x0a; x30; x2e; x31; x31; x0a; x0a].

Definition demo_r1 : redo_row := mk_redo 5 77 [x0d; x00; x01; x02; x03].

Definition demo_r2 : redo_row := mk_redo 6 78 [x0d; x00; x0a].

Definition demo_log (sealed : bool) : xlog :=
  mk_xlog (mk_FILE (written_log demo_meta [demo_r1; demo_r2] sealed)
                   (Z.of_nat (length demo_meta))) 0.

(** A record whose two stored checksums are zero. *)
Definition bad_crc_record : list byte :=
  le_encode 4 0 ++ le_encode 8 7 ++ le_encode 8 0 ++ le_encode 4 3 ++
  le_encode 4 0 ++ [x01; x02; x03].

(** A record announcing 200 body bytes, cut short by the next record. *)
Definition short_body_log : xlog :=
  mk_xlog (mk_FILE (demo_meta ++ le_encode 4 row_marker_v11 ++
                    le_encode 4 0 ++ le_encode 8 5 ++ le_encode 8 0 ++
                    le_encode 4 200 ++ le_encode 4 0 ++ frame_row demo_r2)
                   (Z.of_nat (length demo_meta))) 0.

(** Thirty-five corrupted bytes between two records, with the marker
    bytes among them. *)
Definition marker_junk : list byte :=
  [x00; x00] ++ le_encode 4 row_marker_v11 ++ le_encode 4 0 ++ le_encode 8 0 ++
  le_encode 8 0 ++ le_encode 4 1 ++ le_encode 4 0 ++ [xff].

Definition marker_junk_log : xlog :=
  mk_xlog (mk_FILE (demo_meta ++ frame_row demo_r1 ++ marker_junk ++
                    frame_row demo_r2)
                   (Z.of_nat (length demo_meta))) 0.

(** Three corrupted bytes between two records. *)
Definition plain_junk : list byte := [x00; xed; xab].

Definition plain_junk_cursor : xlog_cursor :=
  mk_cursor (mk_xlog (mk_FILE ((demo_meta ++ frame_row demo_r1) ++ plain_junk ++
                               frame_row demo_r2 ++ [])
                              (Z.of_nat (length (demo_meta ++ frame_row demo_r1)))) 0)
            1 (Z.of_nat (length (demo_meta ++ frame_row demo_r1))) false.

End Xlog.

(** ** Directory scan (box/lua/xlog_v11.c) *)

Module Xdir.

Inductive xdir_type := SNAP | XLOG.

(** [struct xdir_v11], with the fields of its base [struct xdir] that
    this file uses. [sig] is [None] for [NULL]. *)
Record xdir_v11 := mk_xdir {
  dirname : string;
  filename_ext : string;
  dir_type : xdir_type;
  mode : Z;
  sig : option (list Z);
  sig_count : Z
}.

Definition PATH_MAX : nat := 4096.

Definition xdir_v11_create_ (name : string) (type : xdir_type) : xdir_v11 :=
  mk_xdir (substring 0 (PATH_MAX - 1) name)
          (match type with SNAP => ".snap" | XLOG => ".xlog" end)%string
          type 432 None 0. (* mode 0660 *)

Definition xdir_v11_destroy (d : xdir_v11) : xdir_v11 :=
  mk_xdir (dirname d) (filename_ext d) (dir_type d) (mode d) None 0.

Definition LLONG_MAX : Z := 2 ^ 63 - 1.
Definition LLONG_MIN : Z := - 2 ^ 63.

Definition cmp_i64 (a b : Z) : Z :=
  if a =? b then 0 else if a >? b then 1 else -1.

(** [qsort] with a comparison function, as an insertion sort. *)
Fixpoint qsort_insert (cmp : Z -> Z -> Z) (x : Z) (l : list Z) : list Z :=
  match l with
  | [] => [x]
  | y :: l' => if (cmp x y <=? 0)%Z then x :: l else y :: qsort_insert cmp x l'
  end.

Definition qsort (cmp : Z -> Z -> Z) (l : list Z) : list Z :=
  fold_right (qsort_insert cmp) [] l.

(** [strchr(s, c)]: the offset of the first [c] in [s]. *)
Fixpoint strchr (s : string) (c : ascii) : option nat :=
  match s with
  | EmptyString => None
  | String a s' =>
      if Ascii.eqb a c then Some O
      else match strchr s' c with
           | Some n => Some (S n)
           | None => None
           end
  end.

(** The string a [char *] at offset [n] of [s] points to. *)
Fixpoint str_from (n : nat) (s : string) : string :=
  match n, s with
  | O, _ => s
  | S n', String _ s' => str_from n' s'
  | S _, EmptyString => EmptyString
  end.

(** [strtoll(nptr, &endptr, 10)] of the C library: white space, an
    optional sign, decimal digits; the value is clamped to the [long
    long] range; with no digit at all the value is 0 and [endptr] is
    [nptr]. The result is the value and the offset of [endptr]. *)
Definition isspace (a : ascii) : bool :=
  let n := nat_of_ascii a in
  Nat.eqb n 32 || (Nat.leb 9 n && Nat.leb n 13).

Definition digit_val (a : ascii) : option Z :=
  let n := nat_of_ascii a in
  if Nat.leb 48 n && Nat.leb n 57 then Some (Z.of_nat (n - 48)) else None.

Fixpoint skip_space (s : string) : nat * string :=
  match s with
  | String a s' =>
      if isspace a then let '(n, r) := skip_space s' in (S n, r) else (O, s)
  | EmptyString => (O, s)
  end.

Fixpoint read_digits (s : string) (acc : Z) (count : nat) : Z * nat :=
  match s with
  | String a s' =>
      match digit_val a with
      | Some d => read_digits s' (10 * acc + d)%Z (S count)
      | None => (acc, count)
      end
  | EmptyString => (acc, count)
  end.

Definition clamp_llong (v : Z) : Z :=
  if (v >? LLONG_MAX)%Z then LLONG_MAX
  else if (v <? LLONG_MIN)%Z then LLONG_MIN else v.

Definition strtoll (s : string) : Z * nat :=
  let '(nsp, s1) := skip_space s in
  let '(negative, nsign, s2) :=
    match s1 with
    | String "-"%char r => (true, 1%nat, r)
    | String "+"%char r => (false, 1%nat, r)
    | _ => (false, O, s1)
    end in
  let '(v, nd) := read_digits s2 0%Z O in
  match nd with
  | O => (0%Z, O)
  | _ => (clamp_llong (if negative then (- v)%Z else v), (nsp + nsign + nd)%nat)
  end.

(** How [xdir_v11_scan] ends: [-1] with a diagnostic, [0] with the
    directory object updated, or, when [free(derived)] has released the
    directory object itself, with stores into freed memory. *)
Inductive scan_error :=
| ErrReadingDirectory
| ErrReallocSignatures.

Inductive scan_result :=
| ScanFailed (e : scan_error) (warnings : list string)
| ScanDone (d : xdir_v11) (warnings : list string)
| ScanFreedDir (stored_count : Z) (stored_sig : option (list Z))
               (warnings : list string).

Section Scan.

(** Whether [realloc(signatures, size)] returns memory. *)
Variable realloc_can_alloc : Z -> bool.

(** The body of the [readdir] loop for the entries still to come.
    [signatures] holds the [s_count] registered values, [None] while the
    array is [NULL]. *)
Fixpoint scan_entries (ext : string) (entries : list string)
    (signatures : option (list Z)) (s_count s_capacity : Z)
    (warnings : list string)
    : scan_error * list string + option (list Z) * Z * list string :=
  match entries with
  | [] => inr (signatures, s_count, warnings)
  | d_name :: entries' =>
      match strchr d_name "."%char with
      | None => scan_entries ext entries' signatures s_count s_capacity warnings
      | Some e =>
          if negb (String.eqb (str_from e d_name) ext) then
            scan_entries ext entries' signatures s_count s_capacity warnings
          else
            let '(signature, dot) := strtoll d_name in
            if negb (Nat.eqb e dot) || (signature =? LLONG_MAX)%Z
               || (signature =? LLONG_MIN)%Z then
              scan_entries ext entries' signatures s_count s_capacity
                           (warnings ++ [d_name])
            else
              let add cap :=
                scan_entries ext entries'
                  (Some (match signatures with
                         | Some a => a ++ [signature]
                         | None => [signature]
                         end))
                  (s_count + 1)%Z cap warnings in
              if (s_count =? s_capacity)%Z then
                let cap := if (s_capacity >? 0)%Z then (2 * s_capacity)%Z
                           else 16%Z in
                if realloc_can_alloc (8 * cap)%Z then add cap
                else inl (ErrReallocSignatures, warnings)
              else add s_capacity
      end
  end.

(** [xdir_v11_scan]; [listing] is what [opendir]/[readdir] deliver,
    [None] when [opendir] fails. *)
Definition xdir_v11_scan (d : xdir_v11) (listing : option (list string))
    : scan_result :=
  match listing with
  | None => ScanFailed ErrReadingDirectory []
  | Some entries =>
      match scan_entries (filename_ext d) entries None 0 0 [] with
      | inl (e, warnings) => ScanFailed e warnings
      | inr (signatures, s_count, warnings) =>
          let sorted :=
            match signatures with
            | Some a => Some (qsort cmp_i64 a)
            | None => None
            end in
          match sig d with
          | Some _ =>
              (* if (derived->sig) free(derived); *)
              ScanFreedDir s_count sorted warnings
          | None =>
              ScanDone (mk_xdir (dirname d) (filename_ext d) (dir_type d)
                                (mode d) sorted s_count)
                       warnings
          end
      end
  end.

End Scan.
End Xdir.

(** ** Further vocabulary and concrete inputs *)

Module TxnExt.
Import Txn.

Section Vocabulary.
Context {tuple : Type} `{EqDecision tuple} `{Collaborators tuple}.

(** The row [txn_add_redo] leaves in [txn->row]. *)
Definition redo_row_of (mode : wal_mode_t) (rq : request) : option iproto_header :=
  match req_header rq with
  | Some h => Some h
  | None =>
      if is_wal_none mode then None
      else Some (mk_row (req_type rq) (Z.of_nat (length (req_encoded rq)))
                        (req_encoded rq))
  end.

(** [*txn] at [txn_commit], after [txn_begin], a [txn_replace] that
    displaced [d] and [txn_add_redo]. *)
Definition ready_txn (mode : wal_mode_t) (s : space) (d new : option tuple)
    (rq : request) : txn tuple :=
  with_row (replaced_txn zero_txn s d new) (redo_row_of mode rq).

Definition is_engine_finish (e : event tuple) : bool :=
  match e with EvEngineTxnFinish _ => true | _ => false end.

(** 1 when [o] is the tuple [x], else 0. *)
Definition holds (o : option tuple) (x : tuple) : Z :=
  match o with
  | Some y => if decide (y = x) then 1 else 0
  | None => 0
  end.

End Vocabulary.
End TxnExt.

Module XlogExt.
Import Xlog.

(** Lines of the [say] log that are not debug lines. *)
Definition is_debug (m : say) : bool :=
  match m with
  | SayDebugEofLookingForMagic | SayDebugMagicFound _ => true
  | _ => false
  end.

(** A header announcing an empty body. *)
Definition empty_body_header (lsn tm : Z) : list byte :=
  le_encode 4 0 ++ le_encode 8 lsn ++ le_encode 8 tm ++ le_encode 4 0 ++
  le_encode 4 0.

(** The file of a log after another process has appended [more]. *)
Definition grown (l : xlog) (more : list byte) : xlog :=
  mk_xlog (mk_FILE (f_data (xl_f l) ++ more) (f_pos (xl_f l))) (xl_rows l).

(** The bytes a list of returned rows takes in the file, each with its
    marker. *)
Definition framed_size (rows : list (list byte)) : Z :=
  fold_right (fun r acc => 4 + Z.of_nat (length r) + acc) 0 rows.

(** Concrete files: a record with an empty body before a good one, a
    sealed log with no rows, and a log cut after ten bytes of its first
    record. *)
Definition empty_body_cursor : xlog_cursor :=
  xlog_cursor_v11_open
    (mk_xlog (mk_FILE (demo_meta ++ le_encode 4 row_marker_v11 ++
                       empty_body_header 5 77 ++ frame_row demo_r2)
                      (Z.of_nat (length demo_meta))) 0).

Definition sealed_empty_cursor : xlog_cursor :=
  xlog_cursor_v11_open
    (mk_xlog (mk_FILE (demo_meta ++ seal true) (Z.of_nat (length demo_meta))) 0).

(** No marker starts at any of the [n] offsets from [lo] on. *)
Definition marker_here (data : list byte) (k : nat) : bool :=
  le_decode (take 4 (drop k data)) =? row_marker_v11.

Definition marker_free (data : list byte) (lo n : nat) : bool :=
  forallb (fun k => negb (marker_here data k)) (seq lo n).

(** An allocator that refuses the 33 bytes of [demo_r1] and grants the
    31 of [demo_r2]. *)
Definition small_alloc (size : Z) : bool := size <? 32.

Definition cut_cursor : xlog_cursor :=
  xlog_cursor_v11_open
    (mk_xlog (mk_FILE (demo_meta ++ take 10 (frame_row demo_r1))
                      (Z.of_nat (length demo_meta))) 0).

End XlogExt.

(** ** The file header (xlog_v11_read_meta, xlog_v11_open_stream) *)

Module XlogMeta.
Import Xlog Xdir.

(** [const char v11[] = "0.11\n"], and the two file type lines. *)
Definition v11 : list byte := [x30; x2e; x31; x31; x0a].
Definition xlog_filetype : list byte := [x58; x4c; x4f; x47; x0a].
Definition snap_filetype : list byte := [x53; x4e; x41; x50; x0a].

(** *** fgets, strcmp *)

(** What [fgets] stores of [rest] when it may store [n] characters: up
    to and including the first newline. *)
Fixpoint gets_line (n : nat) (rest : list byte) : list byte :=
  match n, rest with
  | S n', c :: rest' =>
      if Byte.eqb c x0a then [c] else c :: gets_line n' rest'
  | _, _ => []
  end.

(** [fgets(s, size, f)]: at most [size - 1] characters; [None] is
    [NULL], the end of the file with nothing read. *)
Definition fgets (size : nat) (f : FILE) : option (list byte) * FILE :=
  match gets_line (size - 1) (drop (Z.to_nat (f_pos f)) (f_data f)) with
  | [] => (None, f)
  | line => (Some line, mk_FILE (f_data f) (f_pos f + Z.of_nat (length line)))
  end.

(** The C string in a buffer: what precedes the first NUL. *)
Fixpoint c_str (buf : list byte) : list byte :=
  match buf with
  | [] => []
  | c :: buf' => if Byte.eqb c x00 then [] else c :: c_str buf'
  end.

Fixpoint bytes_eqb (a b : list byte) : bool :=
  match a, b with
  | [], [] => true
  | x :: a', y :: b' => Byte.eqb x y && bytes_eqb a' b'
  | _, _ => false
  end.

(** [strcmp(a, b) == 0] *)
Definition strcmp_eq (a b : list byte) : bool := bytes_eqb (c_str a) (c_str b).

(** *** xlog_v11_read_meta *)

Record xlog_meta := mk_meta {
  meta_type : xdir_type;
  meta_version : list byte
}.

(** The three [ER_INVALID_XLOG] diagnostics. *)
Inductive meta_error :=
| MetaFailedToRead
| MetaUnknownVersion (version : list byte)
| MetaUnknownFiletype (filetype : list byte).

(** The [for (;;)] loop over the key/value lines, one unit of [fuel] per
    line; [true] when the blank line was met, [false] when the file
    ended first. *)
Fixpoint skip_meta_lines (fuel : nat) (f : FILE) : option (bool * FILE) :=
  match fuel with
  | O => None
  | S fuel' =>
      match fgets 256 f with
      | (None, f1) => Some (false, f1)
      | (Some buf, f1) =>
          if strcmp_eq buf [x0a] || strcmp_eq buf [x0d; x0a]
          then Some (true, f1)
          else skip_meta_lines fuel' f1
      end
  end.

(** [xlog_v11_read_meta]: [inr] is 0 with the metadata, [inl] is -1 with
    the diagnostic set; the stream is returned as the call leaves it.
    Every line read is at least one byte, so one unit of fuel per byte
    of the file is enough. *)
Definition xlog_v11_read_meta (type : xdir_type) (stream : FILE)
    : option ((meta_error + xlog_meta) * FILE) :=
  match fgets 32 stream with
  | (None, f1) => Some (inl MetaFailedToRead, f1)
  | (Some filetype, f1) =>
      match fgets 32 f1 with
      | (None, f2) => Some (inl MetaFailedToRead, f2)
      | (Some version, f2) =>
          if negb (strcmp_eq version v11) then
            Some (inl (MetaUnknownVersion version), f2)
          else
            let check (t : xdir_type) :=
              match skip_meta_lines (S (length (f_data f2))) f2 with
              | None => None
              | Some (false, f3) => Some (inl MetaFailedToRead, f3)
              | Some (true, f3) => Some (inr (mk_meta t version), f3)
              end in
            if strcmp_eq xlog_filetype filetype &&
               match type with XLOG => true | SNAP => false end
            then check XLOG
            else if strcmp_eq snap_filetype filetype &&
                    match type with SNAP => true | XLOG => false end
            then check SNAP
            else Some (inl (MetaUnknownFiletype filetype), f2)
      end
  end.

(** *** xlog_v11_open_stream *)

(** [struct xlog] with the fields [xlog_v11_open_stream] fills in. *)
Record xlog_v11 := mk_xlog_v11 {
  xl_base : xlog;
  xl_filename : string;
  xl_dir : xdir_v11
}.

Inductive open_error :=
| OpenFailedToOpen
| OpenNoMemory
| OpenInvalid (e : meta_error).

(** A [NULL] result: the diagnostic, and whether [fclose(file)] was
    called. *)
Record open_failure := mk_open_failure {
  open_why : open_error;
  open_closed : bool
}.

(** [xlog_v11_open_stream]; [file] is [None] when [fopen] returned
    [NULL], [calloc_ok] says whether [calloc] returns memory. *)
Definition xlog_v11_open_stream (calloc_ok : bool) (dir : xdir_v11)
    (file : option FILE) (filename : string)
    : option (open_failure + xlog_v11) :=
  match file with
  | None => Some (inl (mk_open_failure OpenFailedToOpen false))
  | Some f =>
      if negb calloc_ok then Some (inl (mk_open_failure OpenNoMemory true))
      else
        match xlog_v11_read_meta (dir_type dir) f with
        | None => None
        | Some (inl e, _) => Some (inl (mk_open_failure (OpenInvalid e) true))
        | Some (inr _, f') =>
            Some (inr (mk_xlog_v11 (mk_xlog f' 0)
                                   (substring 0 (PATH_MAX - 1) filename) dir))
        end
  end.

(** *** Vocabulary of the header's properties *)

Definition filetype_line (type : xdir_type) : list byte :=
  match type with XLOG => xlog_filetype | SNAP => snap_filetype end.

(** A key/value line without its newline: not empty, not a lone
    carriage return, and short enough for the 256-byte buffer. *)
Definition meta_body (b : list byte) : Prop :=
  (x0a ∉ b) /\ b <> [] /\ b <> [x0d] /\ (length b < 255)%nat.

Definition blank_line (l : list byte) : Prop := l = [x0a] \/ l = [x0d; x0a].

(** A v11 file header: type, version, key/value lines, blank line. *)
Definition meta_bytes (type : xdir_type) (kv : list (list byte))
    (blank : list byte) : list byte :=
  filetype_line type ++ v11 ++
  concat (map (fun b => b ++ [x0a]) kv) ++ blank.

(** Concrete headers: one key/value line ["a=b"], and a line of 255
    letters. *)
Definition demo_kv : list (list byte) := [[x61; x3d; x62]].

Definition long_line : list byte := replicate 255 x61.

(** What follows the long line in the file: another key/value line and
    the blank line. *)
Definition demo_kv_rest : list byte := [x61; x3d; x62; x0a; x0a].

End XlogMeta.

(** ** Directory entries *)

Module XdirExt.
Import Xdir.

(** [xdir_v11_create]: the server's UUID is not used. *)
Definition xdir_v11_create (name : string) (type : xdir_type)
    (server_uuid : list byte) : xdir_v11 :=
  xdir_v11_create_ name type.

(** What the body of the [readdir] loop decides for one entry: it is
    passed over in silence, passed over with a warning, or registered
    with its signature. *)
Inductive entry_kind :=
| Ignored
| Warned
| Registered (signature : Z).

Definition classify (ext d_name : string) : entry_kind :=
  match strchr d_name "."%char with
  | None => Ignored
  | Some e =>
      if negb (String.eqb (str_from e d_name) ext) then Ignored
      else
        let '(signature, dot) := strtoll d_name in
        if negb (Nat.eqb e dot) || (signature =? LLONG_MAX)
           || (signature =? LLONG_MIN)
        then Warned else Registered signature
  end.

Definition registered (ext : string) (entries : list string) : list Z :=
  omap (fun e => match classify ext e with
                 | Registered s => Some s
                 | _ => None
                 end) entries.

Definition warned (ext : string) (entries : list string) : list string :=
  List.filter (fun e => match classify ext e with
                        | Warned => true
                        | _ => false
                        end) entries.

(** The array after [acc] has been appended. *)
Definition extend (signatures : option (list Z)) (acc : list Z)
    : option (list Z) :=
  match acc with
  | [] => signatures
  | _ => Some (default [] signatures ++ acc)
  end.

(** [n] zeros. *)
Fixpoint zeros (n : nat) : string :=
  match n with
  | O => EmptyString
  | S n' => String "0"%char (zeros n')
  end.

(** The name of the file with signature [n]: its decimal digits after
    [pad] zeros, then the extension. *)
Definition signature_name (pad : nat) (n : N) (ext : string) : string :=
  (zeros pad ++
   DecimalString.NilEmpty.string_of_uint (N.to_uint n) ++ ext)%string.

(** Every character of [ws] is white space. *)
Fixpoint all_space (ws : string) : bool :=
  match ws with
  | EmptyString => true
  | String a ws' => isspace a && all_space ws'
  end.

(** A name with white space and a sign before the digits. *)
Definition signed_name (ws : string) (negative : bool) (pad : nat) (n : N)
    (ext : string) : string :=
  (ws ++ String (if negative then "-" else "+")%char
               (zeros pad ++
                DecimalString.NilEmpty.string_of_uint (N.to_uint n) ++ ext))%string.

(** An allocator with no memory left. *)
Definition never_alloc (size : Z) : bool := false.

(** A directory listing: two logs, a snapshot, a name that is no number
    and one with two dots. *)
Definition demo_listing : list string :=
  ["."; ".."; "00000000000000000005.xlog"; "00000000000000000003.snap";
   "abc.xlog"; "1.2.xlog"; "00000000000000000001.xlog"]%string.

End XdirExt.

(** * Properties *)

(** ** Transaction coordinator *)

Module TxnSpec.
Import Txn.

Section Facts.

Context {tuple : Type} `{EqDecision tuple} `{Collaborators tuple}.

Local Abbreviation world := (world tuple).
Local Abbreviation txn := (txn tuple).

Lemma load_ok (w : world) p t :
  gc w !! p = Some (ObjTxn t) -> load p w = (Ok t, w).
Proof. unfold load. intros ->. reflexivity. Qed.

Lemma trigger_run_ok l p (w : world) :
  trigger_run l p w =
  (Ok tt, mk_world (in_txn w) (gc w) (engine w) (refs w) (wal w) (wal_mode w)
                   (trace w ++ trigger_events l p)).
Proof.
  revert w. induction l as [|t l IH]; intros w; simpl.
  - unfold ret. rewrite app_nil_r. destruct w; reflexivity.
  - unfold bind, emit, modify. rewrite IH. simpl.
    rewrite <- app_assoc. reflexivity.
Qed.

Lemma txn_begin_ok (w : world) :
  in_txn w = None ->
  txn_begin w =
  (Ok (length (gc w)),
   mk_world (Some (length (gc w))) (gc w ++ [ObjTxn zero_txn]) (engine w)
            (refs w) (wal w) (wal_mode w) (trace w)).
Proof.
  intros Hcur. destruct w as [cur g e r wl wm tr]. simpl in *. subst cur.
  unfold txn_begin, bind, gets, assert, region_alloc0, load, store, modify, ret.
  simpl. rewrite !list_lookup_middle by reflexivity. simpl.
  rewrite list_lookup_middle by reflexivity.
  unfold set_in_txn, set_gc. simpl. do 2 f_equal.
  rewrite insert_app_r_alt by lia. rewrite Nat.sub_diag. reflexivity.
Qed.

Lemma assign_ok {B} (w : world) p t (f : txn -> txn) (k : unit -> M B) :
  gc w !! p = Some (ObjTxn t) ->
  bind (load p) (fun t0 => bind (store p (f t0)) k) w =
  k tt (set_gc (<[p := ObjTxn (f t)]> (gc w)) w).
Proof.
  intros Hgc. unfold bind, load, store. rewrite Hgc. cbn. rewrite Hgc.
  reflexivity.
Qed.

Lemma assign_last_ok (w : world) p t (f : txn -> txn) :
  gc w !! p = Some (ObjTxn t) ->
  bind (load p) (fun t0 => store p (f t0)) w =
  (Ok tt, set_gc (<[p := ObjTxn (f t)]> (gc w)) w).
Proof.
  intros Hgc. unfold bind, load, store. rewrite Hgc. cbn. rewrite Hgc.
  reflexivity.
Qed.

Lemma when_triggers_ok (b : bool) l p (w : world) :
  when b (trigger_run l p) w =
  (Ok tt, mk_world (in_txn w) (gc w) (engine w) (refs w) (wal w) (wal_mode w)
                   (trace w ++ if b then trigger_events l p else [])).
Proof.
  destruct b; simpl.
  - apply trigger_run_ok.
  - unfold ret. rewrite app_nil_r. destruct w; reflexivity.
Qed.

Lemma txn_replace_ok (w : world) p t s old new mode e' d :
  gc w !! p = Some (ObjTxn t) ->
  is_some old || is_some new = true ->
  space_replace (engine w) s old new mode = (e', inr d) ->
  txn_replace p s old new mode w =
  (Ok tt,
   mk_world (in_txn w) (<[p := ObjTxn (replaced_txn t s d new)]> (gc w)) e'
            (match new with
             | Some n => <[n := refs w n + 1]> (refs w)
             | None => refs w
             end)
            (wal w) (wal_mode w)
            (trace w ++ EvSpaceReplace s old new mode ::
               match new with Some n => [EvTupleRef n 1] | None => [] end ++
               replace_triggers s p)).
Proof.
  intros Hgc Hnn Hsr. pose proof (lookup_lt_Some _ _ _ Hgc) as Hlt.
  unfold txn_replace. unfold bind at 1. unfold assert. rewrite Hnn.
  unfold bind at 1. unfold call_space_replace. rewrite Hsr.
  rewrite (assign_ok _ p t) by exact Hgc.
  destruct new as [n|].
  - unfold bind at 1.
    erewrite (assign_ok _ p)
      by (cbn [gc set_gc]; apply list_lookup_insert_eq; exact Hlt).
    unfold tuple_ref, modify.
    erewrite (assign_ok _ p)
      by (cbn [gc set_gc add_event set_refs];
          apply list_lookup_insert_eq; rewrite length_insert; exact Hlt).
    rewrite when_triggers_ok. unfold replace_triggers, replaced_txn.
    cbn. rewrite !list_insert_insert_eq, <- !app_assoc. reflexivity.
  - unfold bind at 1. unfold ret.
    erewrite (assign_ok _ p)
      by (cbn [gc set_gc]; apply list_lookup_insert_eq; exact Hlt).
    rewrite when_triggers_ok. unfold replace_triggers, replaced_txn.
    cbn. rewrite !list_insert_insert_eq, <- !app_assoc. reflexivity.
Qed.

Lemma txn_replace_raise (w : world) p s old new mode e' err :
  is_some old || is_some new = true ->
  space_replace (engine w) s old new mode = (e', inl err) ->
  txn_replace p s old new mode w =
  (Raise err,
   mk_world (in_txn w) (gc w) e' (refs w) (wal w) (wal_mode w)
            (trace w ++ [EvSpaceReplace s old new mode])).
Proof.
  intros Hnn Hsr. destruct w as [cur g e r wl wm tr]. simpl in *.
  unfold txn_replace, bind, assert, call_space_replace.
  rewrite Hnn. simpl. rewrite Hsr. reflexivity.
Qed.

Lemma txn_rollback_idle (w : world) :
  in_txn w = None -> txn_rollback w = (Ok tt, w).
Proof.
  intros Hcur. unfold txn_rollback, bind, gets. rewrite Hcur. reflexivity.
Qed.

Lemma txn_rollback_unchanged (w : world) p t :
  in_txn w = Some p -> gc w !! p = Some (ObjTxn t) ->
  txn_changed t = false ->
  txn_rollback w =
  (Ok tt, mk_world None [] (engine w) (refs w) (wal w) (wal_mode w)
                   (trace w ++ [EvFiberGc])).
Proof.
  intros Hcur Hgc Hch. destruct w as [cur g e r wl wm tr]. simpl in *.
  subst cur.
  unfold txn_rollback, bind, gets, load, when, fiber_gc, modify, ret. simpl.
  rewrite Hgc, Hch. reflexivity.
Qed.

Lemma txn_rollback_changed (w : world) p t s e' d :
  in_txn w = Some p -> gc w !! p = Some (ObjTxn t) ->
  txn_changed t = true -> txn_space t = Some s ->
  space_replace (engine w) s (new_tuple t) (old_tuple t) DUP_INSERT = (e', inr d) ->
  txn_rollback w =
  (Ok tt,
   mk_world None [] e'
            (match new_tuple t with
             | Some n => <[n := refs w n + -1]> (refs w)
             | None => refs w
             end)
            (wal w) (wal_mode w)
            (trace w ++ rollback_events t p ++ [EvFiberGc])).
Proof.
  intros Hcur Hgc Hch Hsp Hsr. destruct w as [cur g e r wl wm tr]. simpl in *.
  subst cur.
  unfold txn_rollback, bind, gets, load, when, fiber_gc, modify, ret,
    call_space_replace, rollback_events. simpl.
  rewrite Hgc, Hch, Hsp. simpl. rewrite Hsr. simpl.
  rewrite trigger_run_ok. simpl.
  destruct (new_tuple t); simpl; unfold tuple_ref, modify, set_gc, add_event,
    set_refs, set_in_txn; simpl;
    rewrite <- ?app_assoc; simpl; rewrite <- ?app_assoc; reflexivity.
Qed.

Lemma port_send_tuple_ok (w : world) pt p t :
  gc w !! p = Some (ObjTxn t) ->
  port_send_tuple pt p w =
  (Ok tt, mk_world (in_txn w) (gc w) (engine w) (refs w) (wal w) (wal_mode w)
                   (trace w ++ port_events pt t)).
Proof.
  intros Hgc. unfold port_send_tuple, port_events, visible_tuple, bind, load.
  rewrite Hgc. destruct w as [cur g e r wl wm tr].
  destruct (new_tuple t), (old_tuple t); simpl; rewrite ?app_nil_r; reflexivity.
Qed.

Ltac world_eq :=
  cbv beta iota delta [set_in_txn set_gc add_event set_refs set_engine set_wal
                       in_txn gc engine refs wal wal_mode trace fst snd];
  try reflexivity;
  try (apply (f_equal (pair _)); f_equal; rewrite <- ?app_assoc; reflexivity).

Lemma txn_finish_ok (w : world) p t :
  in_txn w = Some p -> gc w !! p = Some (ObjTxn t) ->
  txn_finish p w =
  (Ok tt, mk_world None [] (finished_engine w t) (finished_refs w t)
                   (wal w) (wal_mode w) (trace w ++ finish_events t)).
Proof.
  intros Hcur Hgc. unfold txn_finish.
  unfold bind at 1. unfold gets.
  unfold bind at 1. unfold assert, ptr_eqb. rewrite Hcur, Nat.eqb_refl.
  unfold bind at 1. rewrite (load_ok _ _ _ Hgc).
  unfold finish_events, finished_engine, finished_refs, tuple_ref, fiber_gc,
    modify, ret, bind.
  destruct (old_tuple t), (txn_space t); world_eq.
Qed.

Lemma wal_step_cases (w : world) t :
  is_wal_none (wal_mode w) || is_some (txn_row t) = true ->
  wal_step t w =
  (if snd (wal_write (wal w) (txn_row t)) =? 0 then Ok tt else Raise ER_WAL_IO,
   logged_world w t).
Proof.
  intros Hrow. unfold wal_step.
  unfold bind at 1. unfold gets.
  unfold bind at 1. unfold assert. rewrite Hrow.
  unfold bind at 1. unfold bind at 1.
  unfold logged_world, wal_events.
  destruct (wal_write (wal w) (txn_row t)) as [wl' res].
  unfold bind at 1. cbn [wal set_wal add_event fst snd].
  unfold bind, emit, modify, tnt_raise, ret.
  destruct (too_long (ev_now (wal w)) (ev_now wl')), (txn_row t) as [row|];
    destruct (res =? 0); world_eq.
Qed.

Lemma txn_commit_cases (w : world) p pt t :
  in_txn w = Some p -> gc w !! p = Some (ObjTxn t) ->
  (txn_changed t = true -> is_some (txn_space t) = true) ->
  (commit_logged t = true ->
   is_wal_none (wal_mode w) || is_some (txn_row t) = true) ->
  txn_commit p pt w =
  if commit_logged t then
    if snd (wal_write (wal w) (txn_row t)) =? 0 then
      (Ok tt,
       mk_world None [] (finished_engine w t) (finished_refs w t)
                (fst (wal_write (wal w) (txn_row t))) (wal_mode w)
                (trace w ++ wal_events w t ++ trigger_events (on_commit t) p ++
                 port_events pt t ++ finish_events t))
    else (Raise ER_WAL_IO, logged_world w t)
  else
    (Ok tt,
     mk_world None [] (finished_engine w t) (finished_refs w t)
              (wal w) (wal_mode w)
              (trace w ++ trigger_events (on_commit t) p ++
               port_events pt t ++ finish_events t)).
Proof.
  intros Hcur Hgc Hsp Hrow.
  assert (Htail : forall w0 : world,
    in_txn w0 = Some p -> gc w0 !! p = Some (ObjTxn t) ->
    bind (trigger_run (on_commit t) p)
         (fun _ => bind (port_send_tuple pt p) (fun _ => txn_finish p)) w0 =
    (Ok tt, mk_world None [] (finished_engine w0 t) (finished_refs w0 t)
                     (wal w0) (wal_mode w0)
                     (trace w0 ++ trigger_events (on_commit t) p ++
                      port_events pt t ++ finish_events t))).
  { intros w0 Hc0 Hg0. unfold bind at 1. rewrite trigger_run_ok.
    unfold bind. rewrite (port_send_tuple_ok _ pt p t) by exact Hg0.
    rewrite (txn_finish_ok _ p t) by (simpl; assumption).
    simpl. rewrite <- !app_assoc. reflexivity. }
  unfold txn_commit. unfold bind at 1. unfold gets.
  unfold bind at 1. unfold assert, ptr_eqb. rewrite Hcur, Nat.eqb_refl.
  unfold bind at 1. rewrite (load_ok _ _ _ Hgc).
  unfold bind at 1. unfold commit_logged in *.
  destruct (txn_changed t) eqn:Hch.
  - specialize (Hsp eq_refl). destruct (txn_space t) as [s|] eqn:Hs; [|discriminate].
    unfold bind at 1. unfold space_is_temporary, ret.
    destruct (space_temporary s); simpl.
    + unfold bind at 1. unfold ret. apply Htail; assumption.
    + unfold bind at 1. rewrite wal_step_cases by (apply Hrow; reflexivity).
      destruct (snd (wal_write (wal w) (txn_row t)) =? 0); [|reflexivity].
      rewrite Htail by (simpl; assumption). unfold logged_world, finished_engine,
        finished_refs. simpl. rewrite <- !app_assoc. reflexivity.
  - unfold ret. simpl. unfold bind at 1. unfold ret. apply Htail; assumption.
Qed.

Lemma txn_replace_assert (w : world) p s old new mode :
  is_some old || is_some new = false ->
  txn_replace p s old new mode w = (AssertFailed A_old_or_new, w).
Proof.
  intros Hnn. unfold txn_replace. unfold bind at 1. unfold assert.
  rewrite Hnn. reflexivity.
Qed.

Lemma txn_add_redo_ok (w : world) p t rq :
  gc w !! p = Some (ObjTxn t) ->
  exists row g',
    txn_add_redo p rq w =
    (Ok tt, mk_world (in_txn w) g' (engine w) (refs w) (wal w) (wal_mode w)
                     (trace w)) /\
    g' !! p = Some (ObjTxn (with_row t row)) /\
    is_wal_none (wal_mode w) || is_some row = true.
Proof.
  destruct w as [cur g e r wl wm tr].
  cbn [in_txn gc engine refs wal wal_mode trace]. intros Hgc.
  pose proof (lookup_lt_Some _ _ _ Hgc) as Hlt.
  unfold txn_add_redo. rewrite (assign_ok _ p t) by exact Hgc.
  unfold bind at 1. unfold gets. cbn [wal_mode set_gc gc].
  assert (Hg1 : <[p:=ObjTxn (with_row t (req_header rq))]> g !! p =
                Some (ObjTxn (with_row t (req_header rq))))
    by (apply list_lookup_insert_eq; exact Hlt).
  assert (Halloc : forall row0,
    exists row g',
      bind (region_alloc0 (ObjRow row0))
        (fun _ => bind (load p)
           (fun t0 => store p (mk_txn (old_tuple t0) (new_tuple t0) (txn_space t0)
                                      (Some row0) (on_commit t0) (on_rollback t0))))
        (set_gc (<[p:=ObjTxn (with_row t (req_header rq))]> g)
                (mk_world cur g e r wl wm tr)) =
      (Ok tt, mk_world cur g' e r wl wm tr) /\
      g' !! p = Some (ObjTxn (with_row t row)) /\ is_some row = true).
  { intros row0. unfold bind at 1. unfold region_alloc0. cbn [gc set_gc].
    erewrite (assign_last_ok _ p)
      by (cbn [gc set_gc];
          rewrite lookup_app_l by (rewrite length_insert; exact Hlt);
          exact Hg1).
    exists (Some row0). eexists. split; [world_eq|]. split; [|reflexivity].
    cbn [old_tuple new_tuple txn_space on_commit on_rollback with_row].
    apply list_lookup_insert_eq. rewrite length_app, length_insert. lia. }
  destruct wm; cbn [is_wal_none orb].
  - exists (req_header rq). eexists. split; [unfold ret; world_eq|]. auto.
  - destruct (req_header rq) as [h|] eqn:Hh.
    + exists (Some h). eexists. split; [unfold ret; world_eq|]. auto.
    + destruct (Halloc (mk_row (req_type rq)
                          (Z.of_nat (length (req_encoded rq))) (req_encoded rq)))
        as (row & g' & Heq & Hg' & Hrow).
      exists row, g'. auto.
  - destruct (req_header rq) as [h|] eqn:Hh.
    + exists (Some h). eexists. split; [unfold ret; world_eq|]. auto.
    + destruct (Halloc (mk_row (req_type rq)
                          (Z.of_nat (length (req_encoded rq))) (req_encoded rq)))
        as (row & g' & Heq & Hg' & Hrow).
      exists row, g'. auto.
Qed.

Lemma refs_restored (r : tuple -> Z) n x :
  (<[n := (<[n := r n + 1]> r) n + -1]> (<[n := r n + 1]> r)) x = r x.
Proof.
  destruct (decide (n = x)) as [->|Hne].
  - rewrite !fn_lookup_insert. lia.
  - rewrite !fn_lookup_insert_ne by exact Hne. reflexivity.
Qed.

Ltac pair_inj H Hr Hw :=
  pose proof (f_equal fst H) as Hr; pose proof (f_equal snd H) as Hw;
  cbn [fst snd] in Hr, Hw; clear H.

Ltac name_world H w :=
  match type of H with _ = (_, ?W) => set (w := W) in * end.

Lemma no_wal_write_in_triggers l p :
  existsb is_wal_write (trigger_events l p : list (event tuple)) = false.
Proof. induction l; simpl; auto. Qed.

Lemma no_wal_write_after_log pt p (t : txn) :
  existsb is_wal_write
    (trigger_events (on_commit t) p ++ port_events pt t ++ finish_events t) = false.
Proof.
  rewrite !existsb_app, no_wal_write_in_triggers.
  unfold port_events, finish_events.
  destruct (visible_tuple t), (old_tuple t), (txn_space t); reflexivity.
Qed.

Lemma wal_events_are_log_only (w : world) (t : txn) :
  forallb (fun e => negb (is_trigger e || is_port_add e || is_finish e))
          (wal_events w t) = true.
Proof.
  unfold wal_events.
  destruct (too_long _ _), (txn_row t); reflexivity.
Qed.

(** C9: [txn_begin] with a transaction already installed in the
    fiber's slot fails on [assert(! in_txn())] and changes nothing
    (this assertion is the code's TxnAlreadyActive). With the slot empty
    it allocates a zeroed transaction at a fresh address of the fiber's
    region, with empty [on_commit] and [on_rollback] lists, installs its
    address in the slot and returns it. *)
Theorem txn_begin_spec (w : world) :
  match in_txn w with
  | Some _ => txn_begin w = (AssertFailed A_not_in_txn, w)
  | None =>
      let p := length (gc w) in
      txn_begin w =
      (Ok p, mk_world (Some p) (gc w ++ [ObjTxn zero_txn]) (engine w) (refs w)
                      (wal w) (wal_mode w) (trace w)) /\
      gc w !! p = None /\
      (gc w ++ [ObjTxn zero_txn]) !! p =
        Some (ObjTxn (mk_txn None None None None [] []))
  end.
Proof.
  destruct (in_txn w) as [q|] eqn:Hcur.
  - unfold txn_begin. unfold bind at 1. unfold gets. unfold bind at 1.
    unfold assert. rewrite Hcur. reflexivity.
  - cbv zeta. split; [apply txn_begin_ok; exact Hcur|]. split.
    + apply lookup_ge_None. lia.
    + apply list_lookup_middle. reflexivity.
Qed.

(** C1: for the current transaction, once the assertions of
    [txn_commit] hold, [wal_write] is called if and only if a tuple was
    changed and the space is not temporary. The commit is refused
    exactly when that call is made and returns non-zero: [ER_WAL_IO] is
    raised right after the call (and its too-long warning), with no
    trigger, no tuple sent and the transaction still current. In every
    other case the commit succeeds and its effects come in this order:
    the [wal_write] call (with its too-long warning) when one is made,
    the [on_commit] triggers, the visible tuple ([new_tuple] if present,
    else [old_tuple]) given to the port, then the effects of
    [txn_finish], which leaves the slot empty and the region released. *)
Theorem txn_commit_order (w : world) p pt t :
  in_txn w = Some p -> gc w !! p = Some (ObjTxn t) ->
  (txn_changed t = true -> is_some (txn_space t) = true) ->
  (commit_logged t = true ->
   is_wal_none (wal_mode w) || is_some (txn_row t) = true) ->
  let refused :=
    commit_logged t && negb (snd (wal_write (wal w) (txn_row t)) =? 0) in
  exists w' added,
    txn_commit p pt w = (if refused then Raise ER_WAL_IO else Ok tt, w') /\
    trace w' = trace w ++ added /\
    existsb is_wal_write added = commit_logged t /\
    added = (if commit_logged t then wal_events w t else []) ++
            (if refused then []
             else trigger_events (on_commit t) p ++ port_events pt t ++
                  finish_events t) /\
    (if refused then in_txn w' = Some p /\ gc w' = gc w
     else in_txn w' = None /\ gc w' = []).
Proof.
  intros Hcur Hgc Hsp Hrow. cbv zeta.
  rewrite (txn_commit_cases w p pt t Hcur Hgc Hsp Hrow).
  destruct (commit_logged t).
  - destruct (snd (wal_write (wal w) (txn_row t)) =? 0); cbn [andb negb].
    + eexists _, _. split; [reflexivity|]. cbn [trace in_txn gc].
      split; [reflexivity|]. split; [|split; [reflexivity|split; reflexivity]].
      rewrite existsb_app, no_wal_write_after_log, orb_false_r. reflexivity.
    + eexists _, _. split; [reflexivity|]. cbn [trace logged_world in_txn gc].
      split; [reflexivity|]. split; [reflexivity|].
      split; [rewrite app_nil_r; reflexivity|]. split; [exact Hcur|reflexivity].
  - cbn [andb]. eexists _, _. split; [reflexivity|]. cbn [trace in_txn gc app].
    split; [reflexivity|]. split; [apply no_wal_write_after_log|].
    split; [reflexivity|split; reflexivity].
Qed.

(** C3: [txn_rollback] does nothing when the slot is empty. With a
    transaction installed and a tuple changed it calls
    [space_replace(space, new_tuple, old_tuple, DUP_INSERT)], runs the
    [on_rollback] triggers and drops the reference taken on [new_tuple];
    changed or not, it ends with the region released and the slot empty.
    With an engine whose forced-insert replace undoes a replace,
    [txn_begin(); txn_replace(...); txn_rollback()] leaves the engine as
    it was before [txn_begin()], whether the replace went through or
    threw, and every reference counter as it was. *)
Theorem txn_rollback_spec :
  (forall w : world, in_txn w = None -> txn_rollback w = (Ok tt, w)) /\
  (forall (w : world) p t,
     in_txn w = Some p -> gc w !! p = Some (ObjTxn t) ->
     if txn_changed t then
       forall s e' d,
         txn_space t = Some s ->
         space_replace (engine w) s (new_tuple t) (old_tuple t) DUP_INSERT
           = (e', inr d) ->
         txn_rollback w =
         (Ok tt,
          mk_world None [] e'
                   (match new_tuple t with
                    | Some n => <[n := refs w n + -1]> (refs w)
                    | None => refs w
                    end)
                   (wal w) (wal_mode w)
                   (trace w ++ rollback_events t p ++ [EvFiberGc]))
     else
       txn_rollback w =
       (Ok tt, mk_world None [] (engine w) (refs w) (wal w) (wal_mode w)
                        (trace w ++ [EvFiberGc]))) /\
  (engine_undo_law -> engine_raise_law ->
   forall (w : world) s old new mode,
     in_txn w = None -> is_some old || is_some new = true ->
     exists p w1 r w2 w3,
       txn_begin w = (Ok p, w1) /\
       txn_replace p s old new mode w1 = (r, w2) /\
       txn_rollback w2 = (Ok tt, w3) /\
       engine w3 = engine w /\ in_txn w3 = None /\ gc w3 = [] /\
       forall x, refs w3 x = refs w x).
Proof.
  split; [exact txn_rollback_idle|]. split.
  - intros w p t Hcur Hgc. destruct (txn_changed t) eqn:Hch.
    + intros s e' d Hs Hsr. eapply txn_rollback_changed; eassumption.
    + apply (txn_rollback_unchanged w p t); assumption.
  - intros Hundo Hraise w s old new mode Hcur Hnn.
    pose proof (txn_begin_ok w Hcur) as Hb. name_world Hb w1.
    assert (Hg1 : gc w1 !! length (gc w) = Some (ObjTxn zero_txn))
      by (apply list_lookup_middle; reflexivity).
    exists (length (gc w)), w1.
    destruct (space_replace (engine w) s old new mode) as [e' [err|d]] eqn:Hsr.
    + pose proof (txn_replace_raise w1 (length (gc w)) s old new mode e' err
                    Hnn Hsr) as Hr. name_world Hr w2.
      pose proof (txn_rollback_unchanged w2 (length (gc w)) zero_txn
                    eq_refl Hg1 eq_refl) as Hk. name_world Hk w3.
      exists (Raise err), w2, w3. repeat (split; [assumption|]).
      repeat split. eapply Hraise; eassumption.
    + pose proof (txn_replace_ok w1 (length (gc w)) zero_txn s old new mode e' d
                    Hg1 Hnn Hsr) as Hr. name_world Hr w2.
      assert (Hg2 : gc w2 !! length (gc w) =
                    Some (ObjTxn (replaced_txn zero_txn s d new))).
      { apply list_lookup_insert_eq. unfold w1. cbn [gc].
        rewrite length_app. simpl. lia. }
      assert (Hnew : new_tuple (replaced_txn zero_txn s d new) = new)
        by (destruct new; reflexivity).
      pose proof (Hundo _ _ _ _ _ _ _ Hsr) as Hu.
      destruct (is_some d || is_some new) eqn:Hch.
      * destruct Hu as [d' Hu].
        assert (Hch' : txn_changed (replaced_txn zero_txn s d new) = true)
          by (unfold txn_changed; rewrite Hnew; exact Hch).
        rewrite <- Hnew in Hu at 1.
        pose proof (txn_rollback_changed w2 (length (gc w)) _ s (engine w) d'
                      eq_refl Hg2 Hch' eq_refl Hu) as Hk. name_world Hk w3.
        exists (Ok tt), w2, w3. repeat (split; [assumption|]).
        repeat split. intros x. unfold w3. cbn [refs]. rewrite Hnew.
        destruct new as [n|]; [|reflexivity]. apply refs_restored.
      * assert (Hch' : txn_changed (replaced_txn zero_txn s d new) = false)
          by (unfold txn_changed; rewrite Hnew; exact Hch).
        pose proof (txn_rollback_unchanged w2 (length (gc w)) _
                      eq_refl Hg2 Hch') as Hk. name_world Hk w3.
        exists (Ok tt), w2, w3. repeat (split; [assumption|]).
        repeat split.
        intros x. destruct new; [|reflexivity].
        rewrite orb_true_r in Hch. discriminate.
Qed.

(** C8: when [wal_write] returns non-zero, [txn_commit] throws
    [ER_WAL_IO] having done nothing but the [wal_write] call and its
    warning: no trigger, nothing given to the port, no [txn_finish]; the
    transaction stays installed, with the engine and the reference
    counters untouched. In a run [txn_begin(); txn_replace(...);
    txn_add_redo(...); txn_commit(...)] whose commit throws, the
    transaction is still installed and the caller's [txn_rollback()]
    brings the engine back to its state before [txn_begin()]. *)
Theorem txn_commit_wal_failure :
  (forall (w : world) p pt t,
     in_txn w = Some p -> gc w !! p = Some (ObjTxn t) ->
     (txn_changed t = true -> is_some (txn_space t) = true) ->
     commit_logged t = true ->
     is_wal_none (wal_mode w) || is_some (txn_row t) = true ->
     snd (wal_write (wal w) (txn_row t)) <> 0 ->
     txn_commit p pt w = (Raise ER_WAL_IO, logged_world w t) /\
     forallb (fun e => negb (is_trigger e || is_port_add e || is_finish e))
             (wal_events w t) = true) /\
  (engine_undo_law ->
   forall (w : world) s old new mode rq pt p w1 w2 w3 w4,
     in_txn w = None ->
     txn_begin w = (Ok p, w1) ->
     txn_replace p s old new mode w1 = (Ok tt, w2) ->
     txn_add_redo p rq w2 = (Ok tt, w3) ->
     txn_commit p pt w3 = (Raise ER_WAL_IO, w4) ->
     in_txn w4 = Some p /\
     exists w5,
       txn_rollback w4 = (Ok tt, w5) /\
       engine w5 = engine w /\ in_txn w5 = None /\ gc w5 = []).
Proof.
  split.
  - intros w p pt t Hcur Hgc Hsp Hlog Hrow Hres.
    rewrite (txn_commit_cases w p pt t Hcur Hgc Hsp (fun _ => Hrow)), Hlog.
    apply Z.eqb_neq in Hres. rewrite Hres.
    split; [reflexivity|apply wal_events_are_log_only].
  - intros Hundo w s old new mode rq pt p w1 w2 w3 w4 Hcur Hb Hr Ha Hc.
    rewrite (txn_begin_ok w Hcur) in Hb. pair_inj Hb Hp Hw1.
    injection Hp as Hp.
    assert (Hg1 : gc w1 !! p = Some (ObjTxn zero_txn))
      by (rewrite <- Hw1, <- Hp; apply list_lookup_middle; reflexivity).
    assert (He1 : engine w1 = engine w) by (rewrite <- Hw1; reflexivity).
    assert (Hc1 : in_txn w1 = Some p) by (rewrite <- Hw1, Hp; reflexivity).
    clear Hw1.
    destruct (is_some old || is_some new) eqn:Hnn;
      [|rewrite (txn_replace_assert w1 p s old new mode Hnn) in Hr; discriminate].
    destruct (space_replace (engine w1) s old new mode) as [e' [err|d]] eqn:Hsr;
      [rewrite (txn_replace_raise w1 p s old new mode e' err Hnn Hsr) in Hr;
       discriminate|].
    rewrite (txn_replace_ok w1 p zero_txn s old new mode e' d Hg1 Hnn Hsr) in Hr.
    pair_inj Hr Hr' Hw2. clear Hr'.
    set (t2 := replaced_txn zero_txn s d new) in *.
    assert (Hg2 : gc w2 !! p = Some (ObjTxn t2)).
    { rewrite <- Hw2. cbn [gc]. apply list_lookup_insert_eq.
      eapply lookup_lt_Some; exact Hg1. }
    assert (He2 : engine w2 = e') by (rewrite <- Hw2; reflexivity).
    assert (Hc2 : in_txn w2 = Some p) by (rewrite <- Hw2; exact Hc1).
    clear Hw2.
    destruct (txn_add_redo_ok w2 p t2 rq Hg2) as (row & g3 & Ha' & Hg3 & Hrow).
    rewrite Ha' in Ha. pair_inj Ha Hr' Hw3. clear Hr' Ha'.
    set (t3 := with_row t2 row) in *.
    assert (Hcur3 : in_txn w3 = Some p) by (rewrite <- Hw3; exact Hc2).
    assert (Hgc3 : gc w3 !! p = Some (ObjTxn t3)) by (rewrite <- Hw3; exact Hg3).
    assert (Hrow3 : is_wal_none (wal_mode w3) || is_some (txn_row t3) = true)
      by (rewrite <- Hw3; exact Hrow).
    assert (He3 : engine w3 = e') by (rewrite <- Hw3; exact He2).
    clear Hw3.
    rewrite (txn_commit_cases w3 p pt t3 Hcur3 Hgc3 (fun _ => eq_refl)
               (fun _ => Hrow3)) in Hc.
    destruct (commit_logged t3) eqn:Hlog; [|discriminate].
    destruct (snd (wal_write (wal w3) (txn_row t3)) =? 0); [discriminate|].
    pair_inj Hc Hr' Hw4. clear Hr'. rewrite <- Hw4.
    split; [exact Hcur3|].
    assert (Hnew : new_tuple t3 = new) by (destruct new; reflexivity).
    assert (Hch : txn_changed t3 = true)
      by (unfold commit_logged in Hlog; apply andb_true_iff in Hlog as [Hch _];
          exact Hch).
    pose proof (Hundo _ _ _ _ _ _ _ Hsr) as Hu.
    assert (Hdn : is_some d || is_some new = true)
      by (unfold txn_changed in Hch; rewrite Hnew in Hch; exact Hch).
    rewrite Hdn in Hu. destruct Hu as [d' Hu].
    rewrite <- Hnew in Hu at 1. rewrite <- He3 in Hu.
    pose proof (txn_rollback_changed (logged_world w3 t3) p t3 s (engine w1) d'
                  Hcur3 Hgc3 Hch eq_refl Hu) as Hk.
    eexists. split; [exact Hk|]. cbn [engine in_txn gc].
    repeat split. exact He1.
Qed.

End Facts.
Lemma slot_engine_undo : @engine_undo_law nat slot_collaborators.
Proof.
  intros e s old new mode e' d Hsr. cbn in *. unfold slot_replace in *.
  destruct new as [n|], e as [x|], old as [o|], mode; simpl in *;
    repeat match goal with
           | H : context [Nat.eqb ?a ?b] |- _ => destruct (Nat.eqb_spec a b); subst; simpl in H
           | H : (_, _) = (_, _) |- _ => inversion H; subst; clear H
           end; simpl; rewrite ?Nat.eqb_refl; simpl; try discriminate; eauto.
Qed.

Lemma slot_engine_raise : @engine_raise_law nat slot_collaborators.
Proof.
  intros e s old new mode e' err Hsr. cbn in *. unfold slot_replace in *.
  destruct new as [n|], e as [x|], old as [o|], mode; simpl in *;
    repeat match goal with
           | H : context [Nat.eqb ?a ?b] |- _ => destruct (Nat.eqb_spec a b); subst; simpl in H
           | H : (_, _) = (_, _) |- _ => inversion H; subst; clear H
           end; try discriminate; reflexivity.
Qed.

Lemma txn_commit_order_witness :
  exists w' added,
    txn_commit 0%nat 9%nat (demo_world false) = (Ok tt, w') /\
    trace w' = trace (demo_world false) ++ added /\
    added = wal_events (demo_world false) demo_txn ++
            trigger_events (on_commit demo_txn) 0%nat ++
            port_events 9%nat demo_txn ++ finish_events demo_txn /\
    in_txn w' = None /\ gc w' = [].
Proof.
  destruct (txn_commit_order (demo_world false) 0%nat 9%nat demo_txn
              eq_refl eq_refl (fun _ => eq_refl) (fun _ => eq_refl))
    as (w' & added & H1 & H2 & _ & H3 & H4 & H5).
  exists w', added. split; [exact H1|]. split; [exact H2|].
  split; [exact H3|]. split; [exact H4|exact H5].
Defined.

Lemma txn_rollback_spec_witness :
  exists p w1 r w2 w3,
    txn_begin (slot_world false WAL_WRITE) = (Ok p, w1) /\
    txn_replace p plain_space None (Some 5%nat) DUP_REPLACE_OR_INSERT w1 = (r, w2) /\
    txn_rollback w2 = (Ok tt, w3) /\
    engine w3 = engine (slot_world false WAL_WRITE) /\
    in_txn w3 = None /\ gc w3 = [] /\
    forall x, refs w3 x = refs (slot_world false WAL_WRITE) x.
Proof.
  apply (proj2 (proj2 txn_rollback_spec) slot_engine_undo slot_engine_raise
               (slot_world false WAL_WRITE) plain_space None (Some 5%nat)
               DUP_REPLACE_OR_INSERT); vm_compute; reflexivity.
Defined.

Lemma txn_commit_wal_failure_witness :
  txn_commit 0%nat 9%nat failing_w3 = (Raise ER_WAL_IO, failing_w4) /\
  in_txn failing_w4 = Some 0%nat /\
  exists w5,
    txn_rollback failing_w4 = (Ok tt, w5) /\
    engine w5 = engine failing_w0 /\ in_txn w5 = None /\ gc w5 = [].
Proof.
  split; [vm_compute; reflexivity|].
  apply (proj2 txn_commit_wal_failure slot_engine_undo
               failing_w0 plain_space None (Some 5%nat)
               DUP_INSERT demo_request 9%nat 0%nat failing_w1 failing_w2
               failing_w3 failing_w4);
    vm_compute; reflexivity.
Defined.

End TxnSpec.

(** ** The v11 cursor *)

Module XlogSpec.
Import Xlog.

(** *** Bytes and little-endian integers *)

Lemma byte_val_range b : 0 <= byte_val b < 256.
Proof.
  unfold byte_val. pose proof (Byte.to_N_bounded b). lia.
Qed.

Lemma byte_val_of_Z z : byte_val (byte_of_Z z) = z mod 256.
Proof.
  unfold byte_val, byte_of_Z.
  assert (Hr : 0 <= z mod 256 < 256) by (apply Z.mod_pos_bound; lia).
  destruct (Byte.of_N (Z.to_N (z mod 256))) as [b|] eqn:Hb.
  - apply Byte.to_of_N in Hb. rewrite Hb. lia.
  - apply Byte.of_N_None_iff in Hb. lia.
Qed.

Lemma byte_of_Z_val b : byte_of_Z (byte_val b) = b.
Proof.
  unfold byte_of_Z, byte_val. pose proof (Byte.to_N_bounded b).
  rewrite Z.mod_small by lia. rewrite N2Z.id, Byte.of_to_N. reflexivity.
Qed.

Lemma length_le_encode n v : length (le_encode n v) = n.
Proof. revert v. induction n; intros; simpl; auto. Qed.

Lemma le_decode_encode n v :
  le_decode (le_encode n v) = v mod 256 ^ Z.of_nat n.
Proof.
  revert v. induction n as [|n IH]; intros v.
  - simpl. rewrite Z.mod_1_r. reflexivity.
  - cbn [le_encode le_decode]. rewrite IH, byte_val_of_Z.
    rewrite Nat2Z.inj_succ, Z.pow_succ_r by lia.
    assert (Hp : 0 < 256 ^ Z.of_nat n) by (apply Z.pow_pos_nonneg; lia).
    rewrite Z.rem_mul_r by lia. reflexivity.
Qed.

Lemma le_decode_range bs : 0 <= le_decode bs < 256 ^ Z.of_nat (length bs).
Proof.
  induction bs as [|b bs IH].
  - simpl. lia.
  - cbn [le_decode length]. rewrite Nat2Z.inj_succ, Z.pow_succ_r by lia.
    pose proof (byte_val_range b). lia.
Qed.

Lemma le_encode_decode bs : le_encode (length bs) (le_decode bs) = bs.
Proof.
  induction bs as [|b bs IH]; [reflexivity|].
  cbn [le_decode length le_encode]. pose proof (byte_val_range b).
  f_equal.
  - unfold byte_of_Z.
    rewrite (Z.mul_comm 256), Z_mod_plus_full, Z.mod_small by lia.
    rewrite <- (Z.mod_small (byte_val b) 256) by lia. apply byte_of_Z_val.
  - rewrite (Z.mul_comm 256), Z_div_plus_full, Z.div_small by lia. exact IH.
Qed.

(** *** stdio *)

Lemma fread_data size f : f_data (snd (fread size f)) = f_data f.
Proof.
  unfold fread. destruct (_ && _); [reflexivity|].
  destruct (size =? 0); reflexivity.
Qed.

Lemma fread_some size f bs f' :
  fread size f = (Some bs, f') ->
  0 < size /\ f_pos f + size <= f_size f /\
  f' = mk_FILE (f_data f) (f_pos f + size) /\
  bs = take (Z.to_nat size) (drop (Z.to_nat (f_pos f)) (f_data f)).
Proof.
  unfold fread.
  destruct (Z.ltb_spec 0 size), (Z.leb_spec (f_pos f + size) (f_size f));
    simpl; try (destruct (size =? 0); discriminate).
  intros [= <- <-]. auto.
Qed.

Lemma fread_none size f f' :
  fread size f = (None, f') ->
  f_data f' = f_data f /\ f_pos f <= f_pos f' /\
  (0 < size -> f_size f < f_pos f + size /\ f_pos f' = Z.max (f_pos f) (f_size f)).
Proof.
  unfold fread.
  destruct (Z.ltb_spec 0 size), (Z.leb_spec (f_pos f + size) (f_size f));
    simpl; try discriminate;
    destruct (Z.eqb_spec size 0); intros [= <-]; simpl;
    repeat split; try lia.
Qed.

Lemma fread_at (pre bs post : list byte) :
  bs <> [] ->
  fread (Z.of_nat (length bs)) (mk_FILE (pre ++ bs ++ post) (Z.of_nat (length pre))) =
  (Some bs, mk_FILE (pre ++ bs ++ post) (Z.of_nat (length pre + length bs))).
Proof.
  intros Hne. unfold fread, f_size. cbn [f_data f_pos].
  assert (0 < length bs)%nat by (destruct bs; [congruence|simpl; lia]).
  rewrite !length_app.
  destruct (Z.ltb_spec 0 (Z.of_nat (length bs))); [|lia].
  destruct (Z.leb_spec (Z.of_nat (length pre) + Z.of_nat (length bs))
              (Z.of_nat (length pre + (length bs + length post)))); [|lia].
  simpl. rewrite !Nat2Z.id, drop_app_length, take_app_length.
  f_equal. f_equal. lia.
Qed.

(** *** The sliding window *)

Lemma lor_shiftl_add a c n :
  0 <= n -> 0 <= a < 2 ^ n -> Z.lor a (Z.shiftl c n) = a + c * 2 ^ n.
Proof.
  intros Hn Ha.
  assert (Hland : Z.land a (Z.shiftl c n) = 0).
  { apply Z.bits_inj'. intros k Hk. rewrite Z.land_spec, Z.bits_0.
    destruct (Z.lt_ge_cases k n) as [Hlt|Hge].
    - rewrite Z.shiftl_spec_low by exact Hlt. apply andb_false_r.
    - rewrite <- (Z.mod_small a (2 ^ n)) by exact Ha.
      rewrite Z.mod_pow2_bits_high by lia. reflexivity. }
  rewrite <- Z.lxor_lor by exact Hland.
  rewrite <- Z.add_nocarry_lxor by exact Hland.
  rewrite Z.shiftl_mul_pow2 by exact Hn. reflexivity.
Qed.

Lemma slide_decode b0 b1 b2 b3 c :
  slide (le_decode [b0; b1; b2; b3]) (byte_val c) = le_decode [b1; b2; b3; c].
Proof.
  unfold slide. cbn [le_decode].
  pose proof (byte_val_range b0). pose proof (byte_val_range b1).
  pose proof (byte_val_range b2). pose proof (byte_val_range b3).
  pose proof (byte_val_range c).
  change 255 with (Z.ones 8). rewrite Z.land_ones by lia.
  rewrite Z.shiftr_div_pow2 by lia.
  change (2 ^ 8) with 256. rewrite (Z.mod_small (byte_val c)) by lia.
  replace ((byte_val b0 + 256 * (byte_val b1 + 256 * (byte_val b2 +
             256 * (byte_val b3 + 256 * 0)))) / 256)
    with (byte_val b1 + 256 * (byte_val b2 + 256 * byte_val b3)).
  - rewrite lor_shiftl_add by lia. change (2 ^ 24) with 16777216. lia.
  - rewrite (Z.mul_comm 256 (byte_val b1 + _)), Z_div_plus_full by lia.
    rewrite Z.div_small by lia. lia.
Qed.

Lemma take4_drop (data : list byte) (k : nat) :
  (k + 4 <= length data)%nat ->
  exists b0 b1 b2 b3 rest,
    drop k data = b0 :: b1 :: b2 :: b3 :: rest /\ take 4 (drop k data) = [b0; b1; b2; b3].
Proof.
  intros Hk. pose proof (length_drop data k) as Hl.
  destruct (drop k data) as [|b0 [|b1 [|b2 [|b3 rest]]]]; simpl in Hl; try lia.
  exists b0, b1, b2, b3, rest. split; reflexivity.
Qed.

(** The loop finds the first marker at or after the window it starts
    with, and ends at the end of the file when there is none. *)
Lemma scan_marker_spec (data : list byte) (k : nat) :
  (k + 4 <= length data)%nat ->
  let res := scan_marker (le_decode (take 4 (drop k data))) (drop (k + 4) data)
                         (Z.of_nat (k + 4)) in
  (fst res = true ->
     marker_at data (snd res - 4) /\ Z.of_nat k <= snd res - 4 /\
     forall m, Z.of_nat k <= m < snd res - 4 -> ~ marker_at data m) /\
  (fst res = false ->
     snd res = Z.of_nat (length data) /\
     forall m, Z.of_nat k <= m -> ~ marker_at data m).
Proof.
  remember (length data - (k + 4))%nat as n eqn:Hn.
  revert k Hn. induction n as [|n IH]; intros k Hn Hk.
  - assert (Hd : drop (k + 4) data = []) by (apply drop_ge; lia).
    rewrite Hd. cbn [scan_marker].
    destruct (Z.eqb_spec (le_decode (take 4 (drop k data))) row_marker_v11) as [He|He];
      cbn [fst snd]; split; try discriminate; intros _.
    + replace (Z.of_nat (k + 4) - 4) with (Z.of_nat k) by lia.
      split; [|split; [lia|intros; lia]].
      unfold marker_at. rewrite Nat2Z.id. repeat split; lia.
    + split; [lia|]. intros m Hm [_ [Hm2 Hm3]].
      assert (m = Z.of_nat k) by lia. subst m. rewrite Nat2Z.id in Hm3. auto.
  - destruct (take4_drop data k Hk) as (b0 & b1 & b2 & b3 & rest & Hdk & Htk).
    assert (Hd4 : drop (k + 4) data = rest).
    { rewrite <- drop_drop, Hdk. reflexivity. }
    destruct rest as [|c rest'].
    { pose proof (length_drop data (k + 4)) as Hl. rewrite Hd4 in Hl.
      simpl in Hl. lia. }
    assert (Hk1 : (S k + 4 <= length data)%nat).
    { pose proof (length_drop data (k + 4)) as Hl. rewrite Hd4 in Hl.
      simpl in Hl. lia. }
    assert (Hdk1 : drop (S k) data = b1 :: b2 :: b3 :: c :: rest').
    { replace (S k) with (k + 1)%nat by lia. rewrite <- drop_drop, Hdk.
      reflexivity. }
    assert (Hd5 : drop (S k + 4) data = rest').
    { replace (S k + 4)%nat with ((k + 4) + 1)%nat by lia.
      rewrite <- drop_drop, Hd4. reflexivity. }
    specialize (IH (S k) ltac:(lia) Hk1).
    rewrite Hdk1, Hd5 in IH.
    change (take 4 (b1 :: b2 :: b3 :: c :: rest')) with [b1; b2; b3; c] in IH.
    rewrite Hd4, Htk. cbn [scan_marker].
    destruct (Z.eqb_spec (le_decode [b0; b1; b2; b3]) row_marker_v11) as [He|He].
    + cbn [fst snd]. split; [|discriminate]. intros _.
      replace (Z.of_nat (k + 4) - 4) with (Z.of_nat k) by lia.
      split; [|split; [lia|intros; lia]].
      unfold marker_at. rewrite Nat2Z.id, Htk. repeat split; lia.
    + rewrite slide_decode.
      replace (Z.of_nat (k + 4) + 1) with (Z.of_nat (S k + 4)) by lia.
      cbv zeta in IH. destruct IH as [IHt IHf].
      assert (Hnot : forall m, Z.of_nat k <= m < Z.of_nat (S k) -> ~ marker_at data m).
      { intros m Hm [_ [_ Hm3]]. assert (m = Z.of_nat k) by lia. subst m.
        rewrite Nat2Z.id, Htk in Hm3. auto. }
      split.
      * intros Hf. destruct (IHt Hf) as (Ha & Hb & Hc). split; [exact Ha|].
        split; [lia|]. intros m Hm.
        destruct (Z.lt_ge_cases m (Z.of_nat (S k))); [apply Hnot; lia|apply Hc; lia].
      * intros Hf. destruct (IHf Hf) as (Ha & Hb). split; [exact Ha|].
        intros m Hm.
        destruct (Z.lt_ge_cases m (Z.of_nat (S k))); [apply Hnot; lia|apply Hb; lia].
Qed.

Section ReaderFacts.

Variable region_can_alloc : Z -> bool.

Local Abbreviation row_reader_v11 := (row_reader_v11 region_can_alloc).
Local Abbreviation next_restart := (next_restart region_can_alloc).
Local Abbreviation xlog_cursor_v11_next := (xlog_cursor_v11_next region_can_alloc).

Lemma find_marker_found f0 msgs f2 :
  0 <= f_pos f0 ->
  find_marker f0 msgs = inr f2 ->
  f_data f2 = f_data f0 /\
  marker_at (f_data f0) (f_pos f2 - 4) /\
  f_pos f0 <= f_pos f2 - 4 /\
  forall m, f_pos f0 <= m < f_pos f2 - 4 -> ~ marker_at (f_data f0) m.
Proof.
  intros Hpos. unfold find_marker.
  destruct (fread 4 f0) as [[mg|] f1] eqn:Hr; [|discriminate].
  apply fread_some in Hr as (_ & Hsz & -> & ->). cbn [f_pos f_data].
  unfold f_size in Hsz.
  pose proof (scan_marker_spec (f_data f0) (Z.to_nat (f_pos f0)) ltac:(lia)) as Hs.
  cbv zeta in Hs.
  replace (Z.to_nat (f_pos f0 + 4)) with (Z.to_nat (f_pos f0) + 4)%nat by lia.
  replace (Z.of_nat (Z.to_nat (f_pos f0) + 4)) with (f_pos f0 + 4) in Hs by lia.
  change (Z.to_nat 4) with 4%nat.
  destruct (scan_marker _ _ _) as [[|] p]; [|discriminate].
  intros [= <-]. cbn [fst snd fseeko f_pos f_data] in *.
  destruct Hs as [(Ha & Hb & Hc) _]; [reflexivity|].
  split; [reflexivity|]. split; [exact Ha|]. split; [lia|].
  intros m Hm. apply Hc. lia.
Qed.

Lemma find_marker_eof f0 msgs f1 msgs' :
  0 <= f_pos f0 ->
  find_marker f0 msgs = inl (f1, msgs') ->
  f_data f1 = f_data f0 /\
  f_pos f1 = Z.max (f_pos f0) (f_size f0) /\
  forall m, f_pos f0 <= m -> ~ marker_at (f_data f0) m.
Proof.
  intros Hpos. unfold find_marker.
  destruct (fread 4 f0) as [[mg|] f1'] eqn:Hr.
  - apply fread_some in Hr as (_ & Hsz & -> & ->). cbn [f_pos f_data].
    unfold f_size in Hsz.
    pose proof (scan_marker_spec (f_data f0) (Z.to_nat (f_pos f0)) ltac:(lia)) as Hs.
    cbv zeta in Hs.
    replace (Z.to_nat (f_pos f0 + 4)) with (Z.to_nat (f_pos f0) + 4)%nat by lia.
    replace (Z.of_nat (Z.to_nat (f_pos f0) + 4)) with (f_pos f0 + 4) in Hs by lia.
    change (Z.to_nat 4) with 4%nat.
    destruct (scan_marker _ _ _) as [[|] p]; [discriminate|].
    intros [= <- <-]. cbn [fst snd fseeko f_pos f_data] in *.
    destruct Hs as [_ (Ha & Hb)]; [reflexivity|].
    split; [reflexivity|]. unfold f_size. split; [lia|].
    intros m Hm. apply Hb. lia.
  - intros [= <- <-]. apply fread_none in Hr as (Hd & Hp & Hmax).
    destruct (Hmax ltac:(lia)) as [Hshort Hpos1].
    split; [exact Hd|]. split; [exact Hpos1|].
    intros m Hm (_ & Hm2 & _). unfold f_size in Hshort. lia.
Qed.

Lemma row_reader_spec f :
  0 <= f_pos f ->
  match row_reader_v11 f with
  | (ROW_EOF, f') => f_data f' = f_data f /\ f_pos f <= f_pos f'
  | (ROW_NULL, f') =>
      f' = mk_FILE (f_data f) (f_pos f + 28) /\ f_pos f + 28 <= f_size f
  | (Row r, f') =>
      f' = mk_FILE (f_data f) (f_pos f + Z.of_nat (length r)) /\
      f_pos f + Z.of_nat (length r) <= f_size f /\
      (28 < length r)%nat /\
      r = take (length r) (drop (Z.to_nat (f_pos f)) (f_data f))
  end.
Proof.
  intros Hpos. unfold Xlog.row_reader_v11, sizeof_header_v11.
  destruct (fread 28 f) as [[m|] f1] eqn:Hh.
  - apply fread_some in Hh as (_ & Hsz & -> & Hm).
    destruct (region_can_alloc _); cbn [negb]; [|split; [reflexivity|exact Hsz]].
    destruct (fread (len (decode_header m)) _) as [[body|] f2] eqn:Hb.
    + apply fread_some in Hb as (Hlen & Hsz2 & -> & Hbody).
      unfold f_size in *. cbn [f_pos f_data] in *.
      assert (Hlm : length m = 28%nat).
      { subst m. rewrite length_take, length_drop. lia. }
      assert (Hlb : length body = Z.to_nat (len (decode_header m))).
      { subst body. rewrite length_take, length_drop. lia. }
      rewrite length_app, Hlm, Hlb.
      split; [f_equal; lia|]. split; [lia|]. split; [lia|].
      rewrite <- take_take_drop, drop_drop. rewrite Hm at 1. rewrite Hbody.
      change (Z.to_nat 28) with 28%nat. do 3 f_equal. lia.
    + apply fread_none in Hb as (Hd & Hp & _). cbn [f_pos f_data] in *.
      split; [exact Hd|lia].
  - apply fread_none in Hh as (Hd & Hp & _). auto.
Qed.

Lemma next_outcome_start i s s' row i' :
  s <= s' -> next_outcome i s' row i' -> next_outcome i s row i'.
Proof.
  intros Hs Ho.
  destruct Ho as [i' H1 H2 H3|i' H1 H2 H3 H4|row m i' H1 H2 H3 H4 H5 H6 H7].
  - apply outcome_no_row; assumption.
  - apply outcome_sealed; assumption.
  - apply (outcome_row i s row m i'); try assumption. lia.
Qed.

Lemma cursor_eof_spec i f msgs s :
  f_data f = f_data (cursor_file i) ->
  0 <= good_offset i -> good_offset i <= f_pos f ->
  let '(row, i', _) := cursor_eof i f msgs in
  next_outcome i s row i' /\
  f_data (cursor_file i') = f_data f /\
  good_offset i' <= f_pos (cursor_file i').
Proof.
  intros Hd Hg Hp. unfold cursor_eof, ftello.
  destruct (Z.eqb_spec (f_pos f) (good_offset i + 4)) as [He|He].
  - destruct (fread 4 (fseeko f (good_offset i))) as [[mg|] f2] eqn:Hr.
    + apply fread_some in Hr as (_ & Hsz & -> & ->).
      unfold f_size in Hsz. cbn [fseeko f_data f_pos] in *.
      destruct (Z.eqb_spec (le_decode (take (Z.to_nat 4)
                 (drop (Z.to_nat (good_offset i)) (f_data f)))) eof_marker_v11)
        as [Hm|Hm].
      * split; [|split; [reflexivity|cbn; lia]].
        apply outcome_sealed; try reflexivity.
        unfold eof_marker_at. rewrite <- Hd. auto.
      * destruct (negb _);
          (split; [apply outcome_no_row; reflexivity|split; [reflexivity|cbn; lia]]).
    + apply fread_none in Hr as (Hd2 & Hp2 & _). cbn [fseeko f_data f_pos] in *.
      split; [apply outcome_no_row; reflexivity|]. split; [exact Hd2|].
      cbn. lia.
  - split; [apply outcome_no_row; reflexivity|]. split; [reflexivity|].
    cbn. lia.
Qed.

Lemma next_restart_spec fuel : forall i f mo msgs row i' msgs',
  f_data f = f_data (cursor_file i) ->
  0 <= good_offset i -> good_offset i <= restart_pos f mo ->
  next_restart fuel i f mo msgs = Some (row, i', msgs') ->
  next_outcome i (restart_pos f mo) row i' /\
  f_data (cursor_file i') = f_data f /\
  good_offset i' <= f_pos (cursor_file i').
Proof.
  induction fuel as [|fuel IH]; intros i f mo msgs row i' msgs' Hd Hg Hs;
    [discriminate|].
  cbn [Xlog.next_restart].
  set (f0 := if 0 <? mo then fseeko f (mo + 1) else f).
  assert (Hd0 : f_data f0 = f_data f) by (unfold f0; destruct (0 <? mo); reflexivity).
  assert (Hp0 : f_pos f0 = restart_pos f mo)
    by (unfold f0, restart_pos; destruct (0 <? mo); reflexivity).
  destruct (find_marker f0 msgs) as [[f1 msgs0]|f2] eqn:Hfm.
  - apply find_marker_eof in Hfm as (Hd1 & Hp1 & _); [|lia].
    intros [= Heq].
    pose proof (cursor_eof_spec i f1 msgs0 (restart_pos f mo)
                  ltac:(congruence) Hg ltac:(lia)) as Hspec.
    rewrite Heq in Hspec. destruct Hspec as (Ho & Hd' & Hp').
    split; [exact Ho|]. split; [congruence|exact Hp'].
  - apply find_marker_found in Hfm as (Hd2 & Hma & Hle & _); [|lia].
    pose proof (row_reader_spec f2 ltac:(lia)) as Hrr.
    destruct (row_reader_v11 f2) as [[| |r] f3].
    + destruct Hrr as (Hd3 & Hp3). intros [= Heq].
      pose proof (cursor_eof_spec i f3 (msgs ++ found_msgs i (ftello f2 - 4))
                    (restart_pos f mo) ltac:(congruence) Hg ltac:(lia)) as Hspec.
      rewrite Heq in Hspec. destruct Hspec as (Ho & Hd' & Hp').
      split; [exact Ho|]. split; [congruence|exact Hp'].
    + destruct Hrr as (-> & Hsz). intros Hrec.
      assert (Hs' : restart_pos f mo <=
                    restart_pos (mk_FILE (f_data f2) (f_pos f2 + 28)) (ftello f2 - 4)).
      { unfold restart_pos at 2, ftello. cbn [f_pos].
        destruct (0 <? f_pos f2 - 4); lia. }
      apply IH in Hrec as (Ho & Hd' & Hp').
      * cbn [f_data] in Hd'. split; [|split; [congruence|exact Hp']].
        eapply next_outcome_start; [exact Hs'|exact Ho].
      * cbn [f_data]. congruence.
      * exact Hg.
      * lia.
    + destruct Hrr as (-> & Hsz & Hlen & Hr). intros [= <- <- <-].
      cbn [cursor_file log xl_f f_data f_pos good_offset ftello].
      split; [|split; [congruence|lia]].
      eapply (outcome_row i _ r (f_pos f2 - 4)); cbn [good_offset row_count eof_read];
        try reflexivity; try lia.
      * rewrite <- Hd, <- Hd0. exact Hma.
      * rewrite <- Hd, <- Hd0, <- Hd2.
        replace (f_pos f2 - 4 + 4) with (f_pos f2) by lia. exact Hr.
      * unfold f_size in *. rewrite <- Hd, <- Hd0, <- Hd2. lia.
Qed.

Lemma next_restart_total fuel : forall i f mo msgs,
  0 <= restart_pos f mo ->
  (Z.to_nat (f_size f - restart_pos f mo) < fuel)%nat ->
  is_Some (next_restart fuel i f mo msgs).
Proof.
  induction fuel as [|fuel IH]; intros i f mo msgs Hs Hfuel; [lia|].
  cbn [Xlog.next_restart].
  set (f0 := if 0 <? mo then fseeko f (mo + 1) else f).
  assert (Hd0 : f_data f0 = f_data f) by (unfold f0; destruct (0 <? mo); reflexivity).
  assert (Hp0 : f_pos f0 = restart_pos f mo)
    by (unfold f0, restart_pos; destruct (0 <? mo); reflexivity).
  destruct (find_marker f0 msgs) as [[f1 msgs0]|f2] eqn:Hfm; [eauto|].
  apply find_marker_found in Hfm as (Hd2 & Hma & Hle & _); [|lia].
  pose proof (row_reader_spec f2 ltac:(lia)) as Hrr.
  destruct (row_reader_v11 f2) as [[| |r] f3]; [eauto| |eauto].
  destruct Hrr as (-> & Hsz). apply IH.
  - unfold restart_pos, ftello. cbn [f_pos]. destruct (0 <? f_pos f2 - 4); lia.
  - unfold restart_pos, ftello, f_size in *. cbn [f_pos f_data] in *.
    rewrite Hd2, Hd0 in *. destruct (0 <? f_pos f2 - 4); lia.
Qed.

Lemma xlog_cursor_v11_next_total i :
  0 <= f_pos (cursor_file i) -> is_Some (xlog_cursor_v11_next i).
Proof.
  intros Hp. unfold Xlog.xlog_cursor_v11_next. apply next_restart_total.
  - unfold restart_pos. cbn. exact Hp.
  - unfold restart_pos, f_size, cursor_file in *. cbn. lia.
Qed.

Lemma xlog_cursor_v11_next_spec i row i' msgs :
  cursor_inv i ->
  xlog_cursor_v11_next i = Some (row, i', msgs) ->
  next_outcome i (f_pos (cursor_file i)) row i' /\
  f_data (cursor_file i') = f_data (cursor_file i) /\
  cursor_inv i'.
Proof.
  intros [Hg Hp] Hn. unfold Xlog.xlog_cursor_v11_next in Hn.
  apply next_restart_spec in Hn as (Ho & Hd & Hp'); try reflexivity; try lia.
  - split; [exact Ho|]. split; [exact Hd|]. split; [|exact Hp'].
    destruct Ho; unfold marker_at in *; lia.
  - unfold restart_pos. cbn. exact Hp.
Qed.

(** *** Reading what the writer wrote *)

Lemma length_frame_header r : length (frame_header r) = 28%nat.
Proof. unfold frame_header. rewrite !length_app, !length_le_encode. reflexivity. Qed.

Lemma length_frame_row r :
  length (frame_row r) = (32 + length (r_body r))%nat.
Proof.
  unfold frame_row. rewrite !length_app, length_frame_header, length_le_encode.
  lia.
Qed.

Lemma frame_header_len r :
  Z.of_nat (length (r_body r)) < 2 ^ 32 ->
  len (decode_header (frame_header r)) = Z.of_nat (length (r_body r)).
Proof.
  intros Hlt. unfold decode_header, len, frame_header.
  cbn [le_encode app drop take].
  change [byte_of_Z (Z.of_nat (length (r_body r)));
          byte_of_Z (Z.of_nat (length (r_body r)) / 256);
          byte_of_Z (Z.of_nat (length (r_body r)) / 256 / 256);
          byte_of_Z (Z.of_nat (length (r_body r)) / 256 / 256 / 256)]
    with (le_encode 4 (Z.of_nat (length (r_body r)))).
  rewrite le_decode_encode. apply Z.mod_small. change (256 ^ Z.of_nat 4) with (2 ^ 32).
  lia.
Qed.

Lemma marker_at_frame pre r post :
  marker_at (pre ++ frame_row r ++ post) (Z.of_nat (length pre)).
Proof.
  unfold marker_at. rewrite !length_app, length_frame_row.
  split; [lia|]. split; [lia|].
  rewrite Nat2Z.id, drop_app_length. unfold frame_row.
  rewrite <- !app_assoc.
  rewrite (take_app_length' (le_encode 4 row_marker_v11)) by reflexivity.
  reflexivity.
Qed.

Lemma file_eta f : f = mk_FILE (f_data f) (f_pos f).
Proof. destruct f; reflexivity. Qed.

Lemma row_reader_frame pre r post :
  r_body r <> [] ->
  Z.of_nat (length (r_body r)) < 2 ^ 32 ->
  region_can_alloc (28 + Z.of_nat (length (r_body r))) = true ->
  row_reader_v11
    (mk_FILE (pre ++ frame_row r ++ post) (Z.of_nat (length pre) + 4)) =
  (Row (frame_header r ++ r_body r),
   mk_FILE (pre ++ frame_row r ++ post)
           (Z.of_nat (length pre) + Z.of_nat (length (frame_row r)))).
Proof.
  intros Hne Hlt Halloc. unfold Xlog.row_reader_v11, sizeof_header_v11.
  unfold frame_row at 1 2. rewrite <- !app_assoc.
  replace (pre ++ le_encode 4 row_marker_v11 ++ frame_header r ++ r_body r ++ post)
    with ((pre ++ le_encode 4 row_marker_v11) ++ frame_header r ++ r_body r ++ post)
    by (rewrite <- app_assoc; reflexivity).
  replace (Z.of_nat (length pre) + 4)
    with (Z.of_nat (length (pre ++ le_encode 4 row_marker_v11)))
    by (rewrite length_app, length_le_encode; lia).
  change 28 with (Z.of_nat 28) at 1. rewrite <- (length_frame_header r) at 1.
  rewrite fread_at by (intros E; apply (f_equal length) in E;
                       rewrite length_frame_header in E; discriminate).
  rewrite frame_header_len, Halloc by exact Hlt. cbn [negb].
  replace ((pre ++ le_encode 4 row_marker_v11) ++ frame_header r ++ r_body r ++ post)
    with (((pre ++ le_encode 4 row_marker_v11) ++ frame_header r) ++ r_body r ++ post)
    by (rewrite <- !app_assoc; reflexivity).
  rewrite <- length_app. rewrite fread_at by exact Hne.
  f_equal. f_equal. rewrite !length_app, length_frame_row, length_frame_header,
    length_le_encode. lia.
Qed.

(** The cursor at [good_offset], [junk] before the next frame, no marker
    starting inside [junk]. *)
Lemma next_skips_to_frame i pre junk r post :
  f_data (cursor_file i) = pre ++ junk ++ frame_row r ++ post ->
  f_pos (cursor_file i) = Z.of_nat (length pre) ->
  good_offset i = Z.of_nat (length pre) ->
  (forall m, Z.of_nat (length pre) <= m < Z.of_nat (length pre + length junk) ->
             ~ marker_at (f_data (cursor_file i)) m) ->
  r_body r <> [] ->
  Z.of_nat (length (r_body r)) < 2 ^ 32 ->
  region_can_alloc (28 + Z.of_nat (length (r_body r))) = true ->
  xlog_cursor_v11_next i =
  Some (Some (frame_header r ++ r_body r),
        mk_cursor
          (mk_xlog (mk_FILE (f_data (cursor_file i))
                            (Z.of_nat (length pre + length junk +
                                       length (frame_row r))))
                   (xl_rows (log i)))
          (row_count i + 1)
          (Z.of_nat (length pre + length junk + length (frame_row r)))
          (eof_read i),
        found_msgs i (Z.of_nat (length pre + length junk))).
Proof.
  intros Hd Hp Hg Hjunk Hne Hlt Halloc.
  unfold Xlog.xlog_cursor_v11_next. cbn [Xlog.next_restart].
  change (0 <? 0) with false. cbv iota. fold (cursor_file i).
  assert (Hm : marker_at (f_data (cursor_file i))
                         (Z.of_nat (length pre + length junk))).
  { rewrite Hd, app_assoc, <- length_app. apply marker_at_frame. }
  destruct (find_marker (cursor_file i) []) as [[f1 msgs0]|f2] eqn:Hfm.
  { apply find_marker_eof in Hfm as (_ & _ & Hno); [|lia].
    exfalso. apply (Hno (Z.of_nat (length pre + length junk))); [lia|exact Hm]. }
  apply find_marker_found in Hfm as (Hd2 & Hma & Hle & Hfirst); [|lia].
  assert (Hpos2 : f_pos f2 = Z.of_nat (length pre + length junk) + 4).
  { destruct (Z.lt_trichotomy (f_pos f2 - 4) (Z.of_nat (length pre + length junk)))
      as [Hlt'|[Heq|Hgt]]; [|lia|].
    - exfalso. apply (Hjunk (f_pos f2 - 4)); [lia|exact Hma].
    - exfalso. apply (Hfirst (Z.of_nat (length pre + length junk))); [lia|exact Hm]. }
  rewrite (file_eta f2), Hd2, Hpos2, Hd.
  replace (pre ++ junk ++ frame_row r ++ post)
    with ((pre ++ junk) ++ frame_row r ++ post) by (rewrite <- app_assoc; reflexivity).
  rewrite <- length_app, row_reader_frame by assumption.
  unfold ftello. cbn [f_pos].
  replace (Z.of_nat (length (pre ++ junk)) + 4 - 4)
    with (Z.of_nat (length (pre ++ junk))) by lia.
  rewrite <- Nat2Z.inj_add. rewrite <- !length_app. reflexivity.
Qed.

Lemma next_at_end i pre sealed :
  f_data (cursor_file i) = pre ++ seal sealed ->
  f_pos (cursor_file i) = Z.of_nat (length pre) ->
  good_offset i = Z.of_nat (length pre) ->
  eof_read i = false ->
  exists msgs,
    xlog_cursor_v11_next i =
    Some (None,
          mk_cursor
            (mk_xlog (mk_FILE (f_data (cursor_file i))
                              (Z.of_nat (length (f_data (cursor_file i)))))
                     (xl_rows (log i)))
            (row_count i) (Z.of_nat (length (f_data (cursor_file i)))) sealed,
          msgs).
Proof.
  intros Hd Hp Hg He. unfold Xlog.xlog_cursor_v11_next. cbn [Xlog.next_restart].
  change (0 <? 0) with false. cbv iota. fold (cursor_file i).
  rewrite (file_eta (cursor_file i)), Hd, Hp. unfold find_marker.
  destruct sealed; cbn [seal].
  - pose proof (fread_at pre (le_encode 4 eof_marker_v11) []
                  ltac:(discriminate)) as Hr.
    change (Z.of_nat (length (le_encode 4 eof_marker_v11))) with 4 in Hr.
    rewrite app_nil_r in Hr. rewrite Hr.
    change (le_decode (le_encode 4 eof_marker_v11)) with eof_marker_v11.
    cbn [f_pos f_data].
    rewrite drop_ge by (rewrite length_app, length_le_encode; lia).
    cbn [scan_marker]. change (eof_marker_v11 =? row_marker_v11) with false.
    cbv iota. unfold cursor_eof, ftello, fseeko. cbn [f_pos f_data].
    rewrite Hg. replace (Z.of_nat (length pre + length (le_encode 4 eof_marker_v11)))
      with (Z.of_nat (length pre) + 4) by (rewrite length_le_encode; lia).
    rewrite Z.eqb_refl, Hr.
    change (le_decode (le_encode 4 eof_marker_v11)) with eof_marker_v11.
    rewrite Z.eqb_refl. eexists. unfold ftello. cbn [f_pos].
    rewrite length_app, length_le_encode. do 4 f_equal; lia.
  - rewrite app_nil_r. exists [].
    unfold fread, f_size. cbn [f_pos f_data].
    destruct (Z.leb_spec (Z.of_nat (length pre) + 4) (Z.of_nat (length pre))); [lia|].
    cbn. unfold cursor_eof, ftello. cbn [f_pos].
    rewrite Z.max_id, Hg.
    destruct (Z.eqb_spec (Z.of_nat (length pre)) (Z.of_nat (length pre) + 4)); [lia|].
    unfold with_file. rewrite Hg, He. reflexivity.
Qed.

Lemma cursor_read_written rows : forall pre i sealed,
  f_data (cursor_file i) = pre ++ concat (map frame_row rows) ++ seal sealed ->
  f_pos (cursor_file i) = Z.of_nat (length pre) ->
  good_offset i = Z.of_nat (length pre) ->
  eof_read i = false ->
  Forall (row_readable region_can_alloc) rows ->
  exists msgs j,
    cursor_read region_can_alloc (S (length rows)) i =
      Some (map row_bytes rows, msgs, j) /\
    eof_read j = sealed /\
    row_count j = row_count i + Z.of_nat (length rows) /\
    good_offset j = Z.of_nat (length (f_data (cursor_file i))) /\
    f_data (cursor_file j) = f_data (cursor_file i).
Proof.
  induction rows as [|r rows IH]; intros pre i sealed Hd Hp Hg He Hok.
  - cbn [map concat app] in Hd.
    destruct (next_at_end i pre sealed Hd Hp Hg He) as [msgs Hn].
    exists msgs. eexists. cbn [cursor_read length map]. rewrite Hn.
    split; [reflexivity|]. cbn. repeat split; lia.
  - apply Forall_cons_iff in Hok as [(Hne & Hlt & Halloc) Hok].
    cbn [map concat] in Hd. rewrite <- app_assoc in Hd.
    assert (Hd' : f_data (cursor_file i) =
                  pre ++ [] ++ frame_row r ++ concat (map frame_row rows) ++ seal sealed)
      by exact Hd.
    pose proof (next_skips_to_frame i pre [] r _ Hd' Hp Hg
                  ltac:(cbn [length]; intros; lia) Hne Hlt Halloc) as Hn.
    cbn [length] in Hn. rewrite Nat.add_0_r in Hn.
    match type of Hn with _ = Some (_, ?I, _) => set (i1 := I) in * end.
    destruct (IH (pre ++ frame_row r) i1 sealed) as (msgs & j & Hr & Hj1 & Hj2 & Hj3 & Hj4).
    + unfold i1. cbn [cursor_file log xl_f f_data]. rewrite Hd, <- app_assoc.
      reflexivity.
    + unfold i1. cbn [cursor_file log xl_f f_pos]. rewrite length_app. reflexivity.
    + unfold i1. cbn [good_offset]. rewrite length_app. reflexivity.
    + exact He.
    + exact Hok.
    + change (cursor_read region_can_alloc (S (length (r :: rows))) i)
        with (match xlog_cursor_v11_next i with
              | None => None
              | Some (None, i', msgs) => Some ([], msgs, i')
              | Some (Some row, i', msgs) =>
                  match cursor_read region_can_alloc (S (length rows)) i' with
                  | Some (rows0, msgs', j) => Some (row :: rows0, msgs ++ msgs', j)
                  | None => None
                  end
              end).
      rewrite Hn, Hr. eexists _, j. split; [reflexivity|].
      split; [exact Hj1|]. split; [|split; [exact Hj3|exact Hj4]].
      rewrite Hj2. unfold i1. cbn [row_count length]. lia.
Qed.

(** The three results of [row_reader_v11], by the file's size and the
    allocator. *)
Lemma row_reader_cases f :
  0 <= f_pos f ->
  match row_reader_v11 f with
  | (Row r, f') =>
      Z.of_nat (length r) = 28 + len (decode_header (take 28 r)) /\
      0 < len (decode_header (take 28 r)) /\
      region_can_alloc (28 + len (decode_header (take 28 r))) = true /\
      r = take (length r) (drop (Z.to_nat (f_pos f)) (f_data f)) /\
      f' = mk_FILE (f_data f) (f_pos f + Z.of_nat (length r)) /\
      f_pos f' <= f_size f
  | (ROW_NULL, f') =>
      f_pos f + 28 <= f_size f /\
      region_can_alloc
        (28 + len (decode_header
                     (take 28 (drop (Z.to_nat (f_pos f)) (f_data f))))) = false /\
      f' = mk_FILE (f_data f) (f_pos f + 28)
  | (ROW_EOF, f') =>
      f_data f' = f_data f /\
      (f_size f < f_pos f + 28 /\ f_pos f' = Z.max (f_pos f) (f_size f) \/
       f_pos f + 28 <= f_size f /\
       let n := len (decode_header
                       (take 28 (drop (Z.to_nat (f_pos f)) (f_data f)))) in
       (n = 0 /\ f_pos f' = f_pos f + 28 \/
        0 < n /\ f_size f < f_pos f + 28 + n /\ f_pos f' = f_size f))
  end.
Proof.
  intros Hpos. unfold Xlog.row_reader_v11, sizeof_header_v11.
  destruct (fread 28 f) as [[m|] f1] eqn:Hh.
  - apply fread_some in Hh as (_ & Hsz & -> & Hm).
    change (Z.to_nat 28) with 28%nat in Hm. rewrite <- Hm.
    assert (Hlm : length m = 28%nat).
    { subst m. rewrite length_take, length_drop. unfold f_size in Hsz. lia. }
    pose proof (le_decode_range (take 4 (drop 20 m))) as Hrange.
    assert (Hn0 : 0 <= len (decode_header m)) by (unfold decode_header, len; lia).
    destruct (region_can_alloc _) eqn:Ha; cbn [negb]; [|auto].
    destruct (fread (len (decode_header m)) _) as [[body|] f2] eqn:Hb.
    + apply fread_some in Hb as (Hlen & Hsz2 & -> & Hbody).
      unfold f_size in *. cbn [f_pos f_data] in *.
      assert (Hlb : length body = Z.to_nat (len (decode_header m))).
      { subst body. rewrite length_take, length_drop. lia. }
      rewrite take_app_length' by (symmetry; exact Hlm).
      rewrite length_app, Hlm, Hlb.
      split; [lia|]. split; [exact Hlen|]. split; [exact Ha|].
      split; [|split; [f_equal; lia|lia]].
      rewrite <- take_take_drop, drop_drop. rewrite Hm at 1. rewrite Hbody.
      do 3 f_equal. lia.
    + pose proof Hb as Hb'. apply fread_none in Hb as (Hd & Hp & Hmax).
      cbn [f_pos f_data] in *. split; [exact Hd|]. right. split; [exact Hsz|].
      cbv zeta. destruct (Z.eq_dec (len (decode_header m)) 0) as [Hz|Hnz].
      * left. split; [exact Hz|]. rewrite Hz in Hb'. unfold fread in Hb'.
        cbn in Hb'. injection Hb' as <-. reflexivity.
      * right. destruct (Hmax ltac:(lia)) as [Hshort Hpos']. unfold f_size in *.
        cbn [f_data f_pos] in *. split; [lia|]. split; [lia|]. lia.
  - apply fread_none in Hh as (Hd & Hp & Hmax).
    destruct (Hmax ltac:(lia)) as [Hshort Hpos'].
    split; [exact Hd|]. left. split; [lia|exact Hpos'].
Qed.

Lemma cursor_eof_none i f msgs : fst (fst (cursor_eof i f msgs)) = None.
Proof.
  unfold cursor_eof. destruct (_ =? _); [|reflexivity].
  destruct (fread _ _) as [[mg|] f2]; [|reflexivity].
  destruct (_ =? _); [reflexivity|]. destruct (negb _); reflexivity.
Qed.

(** A row the cursor returns is one [row_reader_v11] decoded in full,
    just after a marker at or after the place the scan started from. *)
Lemma next_restart_row fuel : forall i f mo msgs r i' msgs',
  0 <= restart_pos f mo ->
  next_restart fuel i f mo msgs = Some (Some r, i', msgs') ->
  exists m,
    restart_pos f mo <= m /\ marker_at (f_data f) m /\
    row_reader_v11 (mk_FILE (f_data f) (m + 4)) =
      (Row r, mk_FILE (f_data f) (good_offset i')) /\
    eof_read i' = eof_read i.
Proof.
  induction fuel as [|fuel IH]; intros i f mo msgs r i' msgs' Hs;
    [discriminate|].
  cbn [Xlog.next_restart].
  set (f0 := if 0 <? mo then fseeko f (mo + 1) else f).
  assert (Hd0 : f_data f0 = f_data f) by (unfold f0; destruct (0 <? mo); reflexivity).
  assert (Hp0 : f_pos f0 = restart_pos f mo)
    by (unfold f0, restart_pos; destruct (0 <? mo); reflexivity).
  destruct (find_marker f0 msgs) as [[f1 msgs0]|f2] eqn:Hfm.
  - intros [= Heq]. pose proof (cursor_eof_none i f1 msgs0) as Hn.
    rewrite Heq in Hn. discriminate.
  - apply find_marker_found in Hfm as (Hd2 & Hma & Hle & _); [|lia].
    pose proof (row_reader_spec f2 ltac:(lia)) as Hrr.
    destruct (row_reader_v11 f2) as [[| |r0] f3] eqn:Hrd.
    + intros [= Heq].
      pose proof (cursor_eof_none i f3 (msgs ++ found_msgs i (ftello f2 - 4))) as Hn.
      rewrite Heq in Hn. discriminate.
    + destruct Hrr as (-> & Hsz). intros Hrec.
      apply IH in Hrec as (m & Hm & Hmk & Hr & He).
      * exists m. cbn [f_data] in Hmk, Hr. rewrite Hd2, Hd0 in Hmk, Hr.
        split; [|split; [exact Hmk|split; [exact Hr|exact He]]].
        unfold restart_pos at 1, ftello in Hm. cbn [f_pos] in Hm.
        destruct (0 <? f_pos f2 - 4); lia.
      * unfold restart_pos, ftello. cbn [f_pos]. destruct (0 <? f_pos f2 - 4); lia.
    + destruct Hrr as (Hf3 & _). intros [= <- <- <-].
      exists (f_pos f2 - 4). cbn [good_offset eof_read].
      split; [lia|]. split; [rewrite <- Hd0; exact Hma|]. split; [|reflexivity].
      replace (f_pos f2 - 4 + 4) with (f_pos f2) by lia.
      rewrite <- Hd0, <- Hd2, <- file_eta, Hrd, Hf3. reflexivity.
Qed.

Lemma cursor_step_inv j k :
  cursor_inv j -> cursor_step region_can_alloc j k ->
  cursor_inv k /\ f_data (cursor_file k) = f_data (cursor_file j) /\
  good_offset j <= good_offset k.
Proof.
  intros Hinv Hstep. destruct Hstep as [i row i' msgs He Hn].
  apply xlog_cursor_v11_next_spec in Hn as (Ho & Hd & Hinv'); [|exact Hinv].
  split; [exact Hinv'|]. split; [exact Hd|]. destruct Hinv as [_ Hinv].
  destruct Ho as [i' H1 H2 H3|i' H1 H2 H3 H4|row m i' H1 H2 H3 H4 H5 H6 H7]; lia.
Qed.

Lemma cursor_run_inv i j :
  cursor_inv i -> cursor_run region_can_alloc i j ->
  cursor_inv j /\ f_data (cursor_file j) = f_data (cursor_file i) /\
  good_offset i <= good_offset j.
Proof.
  intros Hinv Hrun. induction Hrun as [i|i j k Hrun IH Hstep].
  - split; [exact Hinv|]. split; [reflexivity|lia].
  - destruct (IH Hinv) as (Hj & Hdj & Hle).
    destruct (cursor_step_inv j k Hj Hstep) as (Hk & Hdk & Hle').
    split; [exact Hk|]. split; [congruence|lia].
Qed.

(** C10: [xlog_cursor_v11_open] sets [good_offset] to the file
    position. Along every sequence of calls of [xlog_cursor_v11_next]
    from there, each made with [eof_read] false as the function asserts:
    the next call returns; [good_offset] never decreases; and a call
    changes it in two cases only. When the call returns a row,
    [good_offset] is the position just past that row, which
    [row_reader_v11] decoded in full (the header and its [len] body
    bytes) right after a marker at or after the old [good_offset], and
    [eof_read] stays false. When it returns no row, either [good_offset]
    and [eof_read] are as they were, or the EOF marker was read at the
    old [good_offset], which moves past its four bytes, and [eof_read]
    is set. *)
Theorem good_offset_monotone (l : xlog) :
  0 <= ftello (xl_f l) ->
  good_offset (xlog_cursor_v11_open l) = ftello (xl_f l) /\
  (forall j,
     cursor_run region_can_alloc (xlog_cursor_v11_open l) j ->
     eof_read j = false ->
     is_Some (xlog_cursor_v11_next j)) /\
  (forall j k,
     cursor_run region_can_alloc (xlog_cursor_v11_open l) j ->
     cursor_run region_can_alloc j k ->
     good_offset j <= good_offset k) /\
  (forall j row k msgs,
     cursor_run region_can_alloc (xlog_cursor_v11_open l) j ->
     eof_read j = false ->
     xlog_cursor_v11_next j = Some (row, k, msgs) ->
     match row with
     | Some r =>
         exists m,
           good_offset j <= m /\ marker_at (f_data (xl_f l)) m /\
           row_reader_v11 (mk_FILE (f_data (xl_f l)) (m + 4)) =
             (Row r, mk_FILE (f_data (xl_f l)) (good_offset k)) /\
           Z.of_nat (length r) =
             sizeof_header_v11 + len (decode_header (take 28 r)) /\
           0 < len (decode_header (take 28 r)) /\
           good_offset k = m + 4 + Z.of_nat (length r) /\
           good_offset k <= f_size (xl_f l) /\
           eof_read k = false
     | None =>
         good_offset k = good_offset j /\ eof_read k = false \/
         eof_marker_at (f_data (xl_f l)) (good_offset j) /\
         good_offset k = good_offset j + 4 /\ eof_read k = true
     end).
Proof.
  intros Hpos.
  assert (Hinv : cursor_inv (xlog_cursor_v11_open l)).
  { unfold cursor_inv, xlog_cursor_v11_open, cursor_file, ftello in *. cbn. lia. }
  split; [reflexivity|]. split; [|split].
  - intros j Hj _. apply (cursor_run_inv _ _ Hinv) in Hj as [[Hg Hp] _].
    apply xlog_cursor_v11_next_total. lia.
  - intros j k Hj Hk. apply (cursor_run_inv _ _ Hinv) in Hj as [Hj _].
    apply (cursor_run_inv _ _ Hj Hk).
  - intros j row k msgs Hj He Hn.
    apply (cursor_run_inv _ _ Hinv) in Hj as (Hj & Hd & _).
    change (f_data (cursor_file (xlog_cursor_v11_open l)))
      with (f_data (xl_f l)) in Hd.
    pose proof (xlog_cursor_v11_next_spec j row k msgs Hj Hn) as (Ho & _ & _).
    destruct Hj as [Hg Hp]. destruct row as [r|].
    + unfold Xlog.xlog_cursor_v11_next in Hn.
      apply next_restart_row in Hn as (m & Hm & Hmk & Hr & Hek);
        [|unfold restart_pos; cbn; fold (cursor_file j); lia].
      unfold restart_pos in Hm. cbn in Hm. fold (cursor_file j) in Hm, Hmk, Hr.
      rewrite Hd in Hmk, Hr.
      assert (H0 : 0 <= f_pos (mk_FILE (f_data (xl_f l)) (m + 4)))
        by (cbn [f_pos]; lia).
      pose proof (row_reader_cases _ H0) as Hc. rewrite Hr in Hc.
      destruct Hc as (Hlen & Hpos' & _ & _ & Hf & Hsz).
      cbn [f_pos f_data] in Hf, Hsz. injection Hf as Hgk.
      exists m. split; [lia|]. split; [exact Hmk|]. split; [exact Hr|].
      split; [exact Hlen|]. split; [exact Hpos'|]. split; [exact Hgk|].
      split; [exact Hsz|congruence].
    + inversion Ho as [i' H1 H2 H3|i' H1 H2 H3 H4|]; subst.
      * left. split; [exact H1|congruence].
      * right. rewrite Hd in H1. split; [exact H1|]. split; [exact H2|exact H3].
Qed.

Lemma next_restart_no_row fuel : forall i f mo msgs i' msgs',
  next_restart fuel i f mo msgs = Some (None, i', msgs') ->
  exists f' msgs0, cursor_eof i f' msgs0 = (None, i', msgs').
Proof.
  induction fuel as [|fuel IH]; intros i f mo msgs i' msgs'; [discriminate|].
  cbn [Xlog.next_restart].
  destruct (find_marker _ msgs) as [[f1 msgs0]|f2]; [intros [= <-]; eauto|].
  destruct (row_reader_v11 f2) as [[| |r] f3].
  - intros [= <-]. eauto.
  - apply IH.
  - discriminate.
Qed.

(** C5: with the file position at [good_offset + 4], the code after
    [eof:] reads the magic at [good_offset]: on [eof_marker_v11] it sets
    [eof_read] and moves [good_offset] past the marker, on
    [row_marker_v11] it says nothing, on anything else it logs that the
    eof marker is corrupt; it returns no row in each case. Every read of
    [xlog_cursor_v11_next] that falls short ends there, and every call
    that returns no row has gone through it. Reading back a written log
    to the end returns its rows and leaves [eof_read] set exactly when
    the writer sealed the file. *)
Theorem eof_disposition :
  (forall i f msgs,
     ftello f = good_offset i + 4 -> 0 <= good_offset i ->
     good_offset i + 4 <= f_size f ->
     let magic := le_decode (take 4 (drop (Z.to_nat (good_offset i)) (f_data f))) in
     let f' := mk_FILE (f_data f) (good_offset i + 4) in
     cursor_eof i f msgs =
     if magic =? eof_marker_v11 then
       (None,
        mk_cursor (mk_xlog f' (xl_rows (log i))) (row_count i)
                  (good_offset i + 4) true,
        msgs)
     else if magic =? row_marker_v11 then (None, with_file i f', msgs)
     else (None, with_file i f', msgs ++ [SayErrorEofMarkerCorrupt magic])) /\
  (forall i f1 msgs0,
     find_marker (cursor_file i) [] = inl (f1, msgs0) ->
     xlog_cursor_v11_next i = Some (cursor_eof i f1 msgs0)) /\
  (forall i f2 f3,
     find_marker (cursor_file i) [] = inr f2 ->
     row_reader_v11 f2 = (ROW_EOF, f3) ->
     xlog_cursor_v11_next i =
     Some (cursor_eof i f3 (found_msgs i (ftello f2 - 4)))) /\
  (forall i i' msgs,
     xlog_cursor_v11_next i = Some (None, i', msgs) ->
     exists f msgs0, cursor_eof i f msgs0 = (None, i', msgs)) /\
  (forall meta rows sealed n,
     Forall (row_readable region_can_alloc) rows ->
     exists msgs j,
       cursor_read region_can_alloc (S (length rows))
         (xlog_cursor_v11_open
            (mk_xlog (mk_FILE (written_log meta rows sealed)
                              (Z.of_nat (length meta))) n)) =
         Some (map row_bytes rows, msgs, j) /\
       (eof_read j = true <-> sealed = true) /\
       row_count j = Z.of_nat (length rows)).
Proof.
  split; [|split; [|split; [|split]]].
  - intros i f msgs Hp Hg Hsz. cbv zeta. unfold cursor_eof.
    rewrite Hp, Z.eqb_refl. unfold fread, fseeko, f_size in *.
    cbn [f_pos f_data].
    destruct (Z.leb_spec (good_offset i + 4) (Z.of_nat (length (f_data f)))); [|lia].
    cbn [andb Z.ltb Z.compare]. unfold ftello. cbn [f_pos].
    change (Z.to_nat 4) with 4%nat.
    destruct (_ =? eof_marker_v11); [reflexivity|].
    destruct (_ =? row_marker_v11); reflexivity.
  - intros i f1 msgs0 Hfm. unfold Xlog.xlog_cursor_v11_next.
    cbn [Xlog.next_restart]. change (0 <? 0) with false. cbv iota.
    fold (cursor_file i). rewrite Hfm. reflexivity.
  - intros i f2 f3 Hfm Hrr. unfold Xlog.xlog_cursor_v11_next.
    cbn [Xlog.next_restart]. change (0 <? 0) with false. cbv iota.
    fold (cursor_file i). rewrite Hfm, Hrr. reflexivity.
  - intros i i' msgs Hn. eapply next_restart_no_row. exact Hn.
  - intros meta rows sealed n Hok.
    destruct (cursor_read_written rows meta
                (xlog_cursor_v11_open
                   (mk_xlog (mk_FILE (written_log meta rows sealed)
                                     (Z.of_nat (length meta))) n)) sealed)
      as (msgs & j & Hr & Hj1 & Hj2 & _); try reflexivity; try exact Hok.
    exists msgs, j. split; [exact Hr|]. split.
    + rewrite Hj1. reflexivity.
    + rewrite Hj2. cbn. reflexivity.
Qed.

Lemma next_restart_reseek fuel i f mo msgs :
  0 < mo ->
  next_restart fuel i f mo msgs = next_restart fuel i (fseeko f (mo + 1)) 0 msgs.
Proof.
  intros Hmo. destruct fuel as [|fuel]; [reflexivity|].
  cbn [Xlog.next_restart]. change (0 <? 0) with false.
  destruct (Z.ltb_spec 0 mo); [reflexivity|lia].
Qed.

(** C6, amended: the scan of [xlog_cursor_v11_next] stops at the first
    marker at or after the read position; with no marker from there to
    the end of the file no row is returned; and with the cursor at
    [good_offset], [d] corrupted bytes before the next record and no
    marker starting inside them, the call returns that record, and warns
    of [d] skipped bytes when [d] is not zero. *)
Theorem resync_to_next_marker :
  (forall f0 msgs f2,
     0 <= f_pos f0 ->
     find_marker f0 msgs = inr f2 ->
     f_data f2 = f_data f0 /\
     marker_at (f_data f0) (ftello f2 - 4) /\
     f_pos f0 <= ftello f2 - 4 /\
     forall m, f_pos f0 <= m < ftello f2 - 4 -> ~ marker_at (f_data f0) m) /\
  (forall i,
     cursor_inv i ->
     (forall m, f_pos (cursor_file i) <= m -> ~ marker_at (f_data (cursor_file i)) m) ->
     exists i' msgs, xlog_cursor_v11_next i = Some (None, i', msgs)) /\
  (forall i pre junk r post,
     f_data (cursor_file i) = pre ++ junk ++ frame_row r ++ post ->
     f_pos (cursor_file i) = Z.of_nat (length pre) ->
     good_offset i = Z.of_nat (length pre) ->
     (forall m, Z.of_nat (length pre) <= m < Z.of_nat (length pre + length junk) ->
                ~ marker_at (f_data (cursor_file i)) m) ->
     row_readable region_can_alloc r ->
     exists i',
       xlog_cursor_v11_next i =
       Some (Some (row_bytes r), i',
             (if Z.of_nat (length junk) =? 0 then []
              else [SayWarnSkipped (Z.of_nat (length junk)) (good_offset i)]) ++
             [SayDebugMagicFound (Z.of_nat (length pre + length junk))]) /\
       good_offset i' = Z.of_nat (length pre + length junk + length (frame_row r)) /\
       row_count i' = row_count i + 1).
Proof.
  split; [|split].
  - intros f0 msgs f2 Hp Hfm. apply (find_marker_found f0 msgs f2 Hp Hfm).
  - intros i Hinv Hno. destruct Hinv as [Hg Hp].
    destruct (xlog_cursor_v11_next_total i ltac:(lia)) as [[[row i'] msgs] Hn].
    destruct row as [row|]; [|eauto]. exfalso.
    apply xlog_cursor_v11_next_spec in Hn as (Ho & _); [|split; assumption].
    inversion Ho as [| |row' m i'' H1 H2 H3 H4 H5 H6 H7]; subst.
    apply (Hno m H1 H2).
  - intros i pre junk r post Hd Hp Hg Hjunk (Hne & Hlt & Halloc).
    rewrite (next_skips_to_frame i pre junk r post Hd Hp Hg Hjunk Hne Hlt Halloc).
    assert (Hmsgs : found_msgs i (Z.of_nat (length pre + length junk)) =
                    (if Z.of_nat (length junk) =? 0 then []
                     else [SayWarnSkipped (Z.of_nat (length junk)) (good_offset i)]) ++
                    [SayDebugMagicFound (Z.of_nat (length pre + length junk))]).
    { unfold found_msgs. rewrite Hg.
      destruct (Z.eqb_spec (Z.of_nat (length pre)) (Z.of_nat (length pre + length junk))),
               (Z.eqb_spec (Z.of_nat (length junk)) 0); try lia; try reflexivity.
      do 3 f_equal. lia. }
    rewrite Hmsgs. eexists. split; [reflexivity|]. split; reflexivity.
Qed.

(** C4, amended: after the marker is found and the 28 header bytes are
    read, the cursor goes back to [restart:] only when the region has no
    memory for the row, and then scans again from the byte after the
    marker; a body read that falls short of [len] bytes ends the call
    with no row, [good_offset] and [eof_read] as they were and no new
    scan; and a header and body read in full are returned as a row with
    [good_offset] moved past them, whatever the checksums. *)
Theorem decode_failure_paths fuel i f mo msgs f2 m f1 :
  let f0 := if 0 <? mo then fseeko f (mo + 1) else f in
  let marker_offset := ftello f2 - 4 in
  let msgs1 := msgs ++ found_msgs i marker_offset in
  0 <= f_pos f0 -> good_offset i <= f_pos f0 ->
  find_marker f0 msgs = inr f2 ->
  fread sizeof_header_v11 f2 = (Some m, f1) ->
  (region_can_alloc (sizeof_header_v11 + len (decode_header m)) = false ->
   next_restart (S fuel) i f mo msgs =
   next_restart fuel i f1 marker_offset (msgs1 ++ [SayWarnFailedToReadRow]) /\
   (0 < marker_offset ->
    next_restart fuel i f1 marker_offset (msgs1 ++ [SayWarnFailedToReadRow]) =
    next_restart fuel i (fseeko f1 (marker_offset + 1)) 0
                 (msgs1 ++ [SayWarnFailedToReadRow]))) /\
  (region_can_alloc (sizeof_header_v11 + len (decode_header m)) = true ->
   forall f3,
     fread (len (decode_header m)) f1 = (None, f3) ->
     next_restart (S fuel) i f mo msgs = Some (None, with_file i f3, msgs1)) /\
  (region_can_alloc (sizeof_header_v11 + len (decode_header m)) = true ->
   forall body f3,
     fread (len (decode_header m)) f1 = (Some body, f3) ->
     next_restart (S fuel) i f mo msgs =
     Some (Some (m ++ body),
           mk_cursor (mk_xlog f3 (xl_rows (log i))) (row_count i + 1)
                     (ftello f3) (eof_read i),
           msgs1)).
Proof.
  intros f0 marker_offset msgs1 Hp Hg Hfm Hh.
  pose proof (find_marker_found f0 msgs f2 Hp Hfm) as (_ & _ & Hle & _).
  split; [|split].
  - intros Halloc. split.
    + cbn [Xlog.next_restart]. fold f0. rewrite Hfm.
      unfold Xlog.row_reader_v11. rewrite Hh, Halloc. reflexivity.
    + intros Hmo. apply next_restart_reseek. exact Hmo.
  - intros Halloc f3 Hb. cbn [Xlog.next_restart]. fold f0. rewrite Hfm.
    unfold Xlog.row_reader_v11. rewrite Hh, Halloc, Hb. cbn [negb].
    unfold cursor_eof.
    apply fread_some in Hh as (_ & _ & -> & _).
    apply fread_none in Hb as (_ & Hp3 & _). cbn [f_pos] in Hp3.
    destruct (Z.eqb_spec (ftello f3) (good_offset i + 4)) as [He|He];
      [unfold ftello, sizeof_header_v11 in *; lia|reflexivity].
  - intros Halloc body f3 Hb. cbn [Xlog.next_restart]. fold f0. rewrite Hfm.
    unfold Xlog.row_reader_v11. rewrite Hh, Halloc, Hb. reflexivity.
Qed.

(** C2, amended: [row_reader_v11] returns a row exactly when the 28
    header bytes are read, the region has memory for the row and the
    [len] body bytes are read; the two checksums it computes are compared
    with nothing. *)
Theorem row_reader_without_crc_check f r f2 :
  row_reader_v11 f = (Row r, f2) <->
  exists m f1 body,
    fread sizeof_header_v11 f = (Some m, f1) /\
    region_can_alloc (sizeof_header_v11 + len (decode_header m)) = true /\
    fread (len (decode_header m)) f1 = (Some body, f2) /\
    r = m ++ body.
Proof.
  unfold Xlog.row_reader_v11. split.
  - destruct (fread sizeof_header_v11 f) as [[m|] f1]; [|discriminate].
    destruct (region_can_alloc _) eqn:Ha; cbn [negb]; [|discriminate].
    destruct (fread (len (decode_header m)) f1) as [[body|] f3] eqn:Hb;
      [|discriminate].
    intros [= <- <-]. exists m, f1, body. auto.
  - intros (m & f1 & body & Hh & Ha & Hb & ->).
    rewrite Hh, Ha, Hb. reflexivity.
Qed.

End ReaderFacts.

(** C2: a record with two wrong checksums is returned as a good row. *)
Lemma row_reader_crc_counterexample :
  row_reader_v11 always_alloc (mk_FILE bad_crc_record 0) =
    (Row bad_crc_record, mk_FILE bad_crc_record 31) /\
  header_crc32c (decode_header (take 28 bad_crc_record)) <>
    header_crc (take 28 bad_crc_record) /\
  data_crc32c (decode_header (take 28 bad_crc_record)) <>
    data_crc (drop 28 bad_crc_record).
Proof.
  split; [vm_compute; reflexivity|]. split; vm_compute; discriminate.
Qed.

Lemma row_reader_without_crc_check_witness :
  row_reader_v11 always_alloc (mk_FILE bad_crc_record 0) =
  (Row bad_crc_record, mk_FILE bad_crc_record 31).
Proof.
  apply (proj2 (row_reader_without_crc_check always_alloc
                  (mk_FILE bad_crc_record 0) bad_crc_record
                  (mk_FILE bad_crc_record 31))).
  exists (take 28 bad_crc_record), (mk_FILE bad_crc_record 28),
         (drop 28 bad_crc_record).
  repeat split; vm_compute; reflexivity.
Defined.

(** C4: the body read falls short, the file is taken as ended, although
    a scan from the byte after the marker would find the next record. *)
Lemma short_body_counterexample :
  let i := xlog_cursor_v11_open short_body_log in
  let data := f_data (xl_f short_body_log) in
  find_marker (xl_f short_body_log) [] = inr (mk_FILE data 15) /\
  fread 28 (mk_FILE data 15) = (Some (take 28 (drop 15 data)), mk_FILE data 43) /\
  len (decode_header (take 28 (drop 15 data))) = 200 /\
  fread 200 (mk_FILE data 43) = (None, mk_FILE data 78) /\
  xlog_cursor_v11_next always_alloc i =
    Some (None, with_file i (mk_FILE data 78), [SayDebugMagicFound 11]) /\
  exists j msgs,
    next_restart always_alloc 64 i (mk_FILE data 78) 11 [] =
      Some (Some (row_bytes demo_r2), j, msgs).
Proof.
  cbv zeta. repeat split; try (vm_compute; reflexivity).
  eexists _, _. vm_compute. reflexivity.
Qed.

(** C6: the corrupted run holds the marker bytes; the cursor skips 2
    bytes, not 35, and returns a row made of corrupted bytes, whose
    stored header checksum is not the computed one, instead of the
    record that follows the run. *)
Lemma marker_in_junk_counterexample :
  length marker_junk = 35%nat /\
  exists bogus msgs j,
    cursor_read always_alloc 2 (xlog_cursor_v11_open marker_junk_log) =
      Some ([row_bytes demo_r1; bogus], msgs, j) /\
    bogus <> row_bytes demo_r2 /\
    header_crc32c (decode_header (take 28 bogus)) <> header_crc (take 28 bogus) /\
    In (SayWarnSkipped 2 48) msgs /\
    ~ In (SayWarnSkipped 35 48) msgs.
Proof.
  split; [reflexivity|]. eexists _, _, _.
  split; [vm_compute; reflexivity|].
  split; [vm_compute; discriminate|].
  split; [vm_compute; discriminate|].
  split; [vm_compute; auto|]. vm_compute.
  intros [H|[H|[H|[]]]]; discriminate.
Qed.

Lemma good_offset_monotone_witness :
  0 <= ftello (xl_f (demo_log true)) /\
  forall j k,
    cursor_run always_alloc (xlog_cursor_v11_open (demo_log true)) j ->
    cursor_run always_alloc j k ->
    good_offset j <= good_offset k.
Proof.
  split; [vm_compute; discriminate|].
  apply (proj1 (proj2 (proj2 (good_offset_monotone always_alloc (demo_log true)
                                ltac:(vm_compute; discriminate))))).
Defined.

Lemma demo_rows_readable :
  Forall (row_readable always_alloc) [demo_r1; demo_r2].
Proof.
  repeat constructor; try discriminate; vm_compute; reflexivity.
Qed.

Lemma eof_disposition_witness :
  exists msgs j,
    cursor_read always_alloc 3 (xlog_cursor_v11_open (demo_log true)) =
      Some (map row_bytes [demo_r1; demo_r2], msgs, j) /\
    (eof_read j = true <-> true = true) /\
    row_count j = 2.
Proof.
  apply (proj2 (proj2 (proj2 (proj2 (eof_disposition always_alloc))))
           demo_meta [demo_r1; demo_r2] true 0 demo_rows_readable).
Defined.

Lemma plain_junk_has_no_marker m :
  Z.of_nat (length (demo_meta ++ frame_row demo_r1)) <= m <
    Z.of_nat (length (demo_meta ++ frame_row demo_r1) + length plain_junk) ->
  ~ marker_at (f_data (cursor_file plain_junk_cursor)) m.
Proof.
  intros Hm (_ & _ & H).
  change (Z.of_nat (length (demo_meta ++ frame_row demo_r1))) with 48 in Hm.
  change (Z.of_nat (48 + length plain_junk)) with 51 in Hm.
  assert (Hc : m = 48 \/ m = 49 \/ m = 50) by (cbn in Hm; lia).
  destruct Hc as [Hc | [Hc | Hc]]; subst m; vm_compute in H; discriminate.
Qed.

Lemma resync_to_next_marker_witness :
  exists i',
    xlog_cursor_v11_next always_alloc plain_junk_cursor =
      Some (Some (row_bytes demo_r2), i',
            [SayWarnSkipped 3 48; SayDebugMagicFound 51]) /\
    good_offset i' = 86 /\ row_count i' = 2.
Proof.
  apply (proj2 (proj2 (resync_to_next_marker always_alloc))
           plain_junk_cursor (demo_meta ++ frame_row demo_r1) plain_junk
           demo_r2 []).
  - reflexivity.
  - reflexivity.
  - reflexivity.
  - exact plain_junk_has_no_marker.
  - repeat split; try discriminate; vm_compute; reflexivity.
Defined.

Lemma decode_failure_paths_witness :
  let i := xlog_cursor_v11_open short_body_log in
  let data := f_data (xl_f short_body_log) in
  next_restart always_alloc 1 i (xl_f short_body_log) 0 [] =
  Some (None, with_file i (mk_FILE data 78), [] ++ found_msgs i (15 - 4)).
Proof.
  cbv zeta.
  apply (proj1 (proj2 (decode_failure_paths always_alloc 0
                         (xlog_cursor_v11_open short_body_log)
                         (xl_f short_body_log) 0 []
                         (mk_FILE (f_data (xl_f short_body_log)) 15)
                         (take 28 (drop 15 (f_data (xl_f short_body_log))))
                         (mk_FILE (f_data (xl_f short_body_log)) 43)
                         ltac:(vm_compute; discriminate)
                         ltac:(vm_compute; discriminate)
                         ltac:(vm_compute; reflexivity)
                         ltac:(vm_compute; reflexivity)))).
  - reflexivity.
  - vm_compute. reflexivity.
Defined.

End XlogSpec.

(** ** Directory scan *)

Module XdirSpec.
Import Xdir.

(** The first scan of the directory of the recovery scenario: the two
    log files are registered in ascending order, [abc.xlog] is skipped
    with a warning, other extensions are passed over in silence. *)
Lemma xdir_v11_scan_first :
  xdir_v11_scan Xlog.always_alloc (xdir_v11_create_ "wal" XLOG)
    (Some ["."; ".."; "00000000000000000005.xlog"; "not-a-log.txt";
           "abc.xlog"; "00000000000000000001.xlog"]%string) =
  ScanDone (mk_xdir "wal" ".xlog" XLOG 432 (Some [1; 5]) 2) ["abc.xlog"%string].
Proof. vm_compute. reflexivity. Qed.

(** Once [sig] is set, no scan ends with the directory object updated:
    [free(derived)] has released it before the stores. *)
Lemma xdir_v11_scan_rescan realloc_can_alloc d listing d' warnings :
  sig d <> None ->
  xdir_v11_scan realloc_can_alloc d listing <> ScanDone d' warnings.
Proof.
  intros Hsig. unfold xdir_v11_scan. destruct listing as [entries|]; [|discriminate].
  destruct (scan_entries _ _ _ _ _ _ _) as [[e w]|[[s c] w]]; [discriminate|].
  destruct (sig d); [discriminate|congruence].
Qed.

(** C7: a second scan, of a directory whose first scan registered
    signatures 1 and 5, does not install the new list [7] in place of the
    old one: the directory object itself is freed, and the count and the
    array are stored into the freed object. An entry named [.xlog], whose
    prefix is empty, is registered with signature 0. *)
Theorem xdir_v11_scan_defects :
  xdir_v11_scan Xlog.always_alloc
    (mk_xdir "wal" ".xlog" XLOG 432 (Some [1; 5]) 2)
    (Some ["."; ".."; "00000000000000000007.xlog"]%string) =
  ScanFreedDir 1 (Some [7]) [] /\
  xdir_v11_scan Xlog.always_alloc (xdir_v11_create_ "wal" XLOG)
    (Some ["."; ".."; ".xlog"]%string) =
  ScanDone (mk_xdir "wal" ".xlog" XLOG 432 (Some [0]) 1) [].
Proof. split; vm_compute; reflexivity. Qed.

End XdirSpec.

(** ** The coordinator's protocol *)

Module TxnExtSpec.
Import Txn TxnSpec TxnExt.

Ltac norm_world :=
  cbv beta iota delta [set_in_txn set_gc add_event set_refs set_engine set_wal
                       in_txn gc engine refs wal wal_mode trace fst snd];
  try reflexivity;
  try (apply (f_equal (pair _)); f_equal; rewrite <- ?app_assoc; reflexivity).

Ltac world_of H w :=
  match type of H with _ = (_, ?W) => set (w := W) in * end.

Section Facts.
Context {tuple : Type} `{EqDecision tuple} `{Collaborators tuple}.
Local Abbreviation world := (world tuple).
Local Abbreviation txn := (txn tuple).

Lemma txn_add_redo_row (w : world) p t rq :
  gc w !! p = Some (ObjTxn t) ->
  exists g',
    txn_add_redo p rq w =
    (Ok tt, mk_world (in_txn w) g' (engine w) (refs w) (wal w) (wal_mode w)
                     (trace w)) /\
    g' !! p = Some (ObjTxn (with_row t (redo_row_of (wal_mode w) rq))) /\
    length g' = (length (gc w) +
                 match req_header rq, wal_mode w with
                 | None, WAL_NONE => 0
                 | None, _ => 1
                 | Some _, _ => 0
                 end)%nat.
Proof.
  destruct w as [cur g e r wl wm tr].
  cbn [in_txn gc engine refs wal wal_mode trace]. intros Hgc.
  pose proof (lookup_lt_Some _ _ _ Hgc) as Hlt.
  unfold txn_add_redo. rewrite (assign_ok _ p t) by exact Hgc.
  unfold bind at 1. unfold gets. cbn [wal_mode set_gc gc].
  assert (Hg1 : <[p:=ObjTxn (with_row t (req_header rq))]> g !! p =
                Some (ObjTxn (with_row t (req_header rq))))
    by (apply list_lookup_insert_eq; exact Hlt).
  assert (Halloc : forall row0,
    exists g',
      bind (region_alloc0 (ObjRow row0))
        (fun _ => bind (load p)
           (fun t0 => store p (mk_txn (old_tuple t0) (new_tuple t0) (txn_space t0)
                                      (Some row0) (on_commit t0) (on_rollback t0))))
        (set_gc (<[p:=ObjTxn (with_row t (req_header rq))]> g)
                (mk_world cur g e r wl wm tr)) =
      (Ok tt, mk_world cur g' e r wl wm tr) /\
      g' !! p = Some (ObjTxn (with_row t (Some row0))) /\
      length g' = (length g + 1)%nat).
  { intros row0. unfold bind at 1. unfold region_alloc0. cbn [gc set_gc].
    erewrite (assign_last_ok _ p)
      by (cbn [gc set_gc];
          rewrite lookup_app_l by (rewrite length_insert; exact Hlt);
          exact Hg1).
    eexists. split; [norm_world|]. cbn [set_gc gc]. split.
    - cbn [old_tuple new_tuple txn_space on_commit on_rollback with_row].
      apply list_lookup_insert_eq. rewrite length_app, length_insert. lia.
    - rewrite length_insert, length_app, length_insert. reflexivity. }
  unfold redo_row_of.
  destruct (req_header rq) as [h|] eqn:Hh.
  - destruct wm; (eexists; split; [unfold ret; norm_world|];
                  split; [exact Hg1|rewrite length_insert; lia]).
  - destruct wm; cbn [is_wal_none];
      try (eexists; split; [unfold ret; norm_world|];
           split; [exact Hg1|rewrite length_insert; lia]);
      apply Halloc.
Qed.

(** X1: [txn_add_redo] always succeeds and touches nothing but the
    fiber region: [txn->row] becomes the request's own header when it has
    one, stays [NULL] when it has none and the WAL is off, and is a fresh
    row built from the request's type and encoded body otherwise; so
    after it the row is present unless the WAL mode is [WAL_NONE]. *)
Theorem txn_add_redo_sets_row (w : world) p t rq :
  gc w !! p = Some (ObjTxn t) ->
  exists w',
    txn_add_redo p rq w = (Ok tt, w') /\
    gc w' !! p = Some (ObjTxn (with_row t (redo_row_of (wal_mode w) rq))) /\
    (is_wal_none (wal_mode w) || is_some (redo_row_of (wal_mode w) rq) = true) /\
    (forall h, req_header rq = Some h -> redo_row_of (wal_mode w) rq = Some h) /\
    (req_header rq = None -> wal_mode w <> WAL_NONE ->
     redo_row_of (wal_mode w) rq =
       Some (mk_row (req_type rq) (Z.of_nat (length (req_encoded rq)))
                    (req_encoded rq))) /\
    in_txn w' = in_txn w /\ engine w' = engine w /\ refs w' = refs w /\
    wal w' = wal w /\ trace w' = trace w.
Proof.
  intros Hgc. destruct (txn_add_redo_row w p t rq Hgc) as (g' & Heq & Hg' & _).
  eexists. split; [exact Heq|]. cbn [gc in_txn engine refs wal trace].
  split; [exact Hg'|]. split.
  - unfold redo_row_of. destruct (req_header rq), (wal_mode w); reflexivity.
  - split; [|split; [|repeat split]].
    + intros h Hh. unfold redo_row_of. rewrite Hh. reflexivity.
    + intros Hh Hm. unfold redo_row_of. rewrite Hh.
      destruct (wal_mode w); [congruence|reflexivity|reflexivity].
Qed.

Lemma quiet_triggers l p :
  forallb (fun e : event tuple =>
             negb (is_wal_write e || is_port_add e || is_engine_finish e))
          (trigger_events l p) = true.
Proof. induction l; simpl; auto. Qed.

Lemma holds_refs (r : tuple -> Z) (d new : option tuple) x :
  match d with
  | Some o =>
      <[o := match new with
             | Some n => <[n := r n + 1]> r
             | None => r
             end o + -1]>
        (match new with
         | Some n => <[n := r n + 1]> r
         | None => r
         end)
  | None => match new with
            | Some n => <[n := r n + 1]> r
            | None => r
            end
  end x = r x + holds new x - holds d x.
Proof.
  unfold holds. destruct d as [o|], new as [n|];
    repeat match goal with
           | |- context [decide (?a = ?b)] => destruct (decide (a = b)); subst
           end;
    rewrite ?fn_lookup_insert, ?fn_lookup_insert_ne by congruence;
    rewrite ?fn_lookup_insert, ?fn_lookup_insert_ne by congruence;
    try lia; congruence.
Qed.

(** X2: when [space_replace] throws inside [txn_replace], nothing of
    the replace is recorded in the transaction: no tuple reference is
    taken, the transaction stays current, and the rollback that follows
    does not call the engine again; it only frees the region and clears
    the current transaction. *)
Theorem txn_replace_failure_isolated (w : world) s old new mode e' err :
  in_txn w = None ->
  is_some old || is_some new = true ->
  space_replace (engine w) s old new mode = (e', inl err) ->
  exists p w1 w2 w3,
    txn_begin w = (Ok p, w1) /\
    txn_replace p s old new mode w1 = (Raise err, w2) /\
    gc w2 = gc w1 /\ refs w2 = refs w /\ in_txn w2 = Some p /\
    txn_rollback w2 = (Ok tt, w3) /\
    trace w3 = trace w ++ [EvSpaceReplace s old new mode; EvFiberGc] /\
    engine w3 = e' /\ refs w3 = refs w /\ in_txn w3 = None /\ gc w3 = [].
Proof.
  intros Hcur Hnn Hsr.
  pose proof (txn_begin_ok w Hcur) as Hb. world_of Hb w1.
  assert (Hg1 : gc w1 !! length (gc w) = Some (ObjTxn zero_txn))
    by (apply list_lookup_middle; reflexivity).
  pose proof (txn_replace_raise w1 (length (gc w)) s old new mode e' err
                Hnn Hsr) as Hr. world_of Hr w2.
  pose proof (txn_rollback_unchanged w2 (length (gc w)) zero_txn
                eq_refl Hg1 eq_refl) as Hk. world_of Hk w3.
  exists (length (gc w)), w1, w2, w3.
  split; [exact Hb|]. split; [exact Hr|]. repeat (split; [reflexivity|]).
  split; [exact Hk|]. split; [|repeat split].
  unfold w3, w2, w1. cbn [trace]. rewrite <- app_assoc. reflexivity.
Qed.

(** X3: the assertions of [txn_replace], [txn_commit] and [txn_finish]
    come before every effect: a replace with neither tuple, a commit or
    a finish of a transaction that is not the current one, and a commit
    of a change to a logged space whose redo row was never set while the
    WAL is on, all stop with the world as it was. *)
Theorem txn_assertions_before_effects :
  (forall (w : world) p s mode,
     txn_replace p s None None mode w = (AssertFailed A_old_or_new, w)) /\
  (forall (w : world) p pt,
     in_txn w <> Some p ->
     txn_commit p pt w = (AssertFailed A_txn_is_current, w) /\
     txn_finish p w = (AssertFailed A_txn_is_current, w)) /\
  (forall (w : world) p pt t s,
     in_txn w = Some p -> gc w !! p = Some (ObjTxn t) ->
     txn_changed t = true -> txn_space t = Some s ->
     space_temporary s = false ->
     wal_mode w <> WAL_NONE -> txn_row t = None ->
     txn_commit p pt w = (AssertFailed A_row_present, w)).
Proof.
  split; [|split].
  - intros w p s mode. apply txn_replace_assert. reflexivity.
  - intros w p pt Hne.
    assert (Hp : ptr_eqb p (in_txn w) = false).
    { unfold ptr_eqb. destruct (in_txn w) as [q|]; [|reflexivity].
      destruct (Nat.eqb_spec p q); [congruence|reflexivity]. }
    split.
    + unfold txn_commit. unfold bind at 1. unfold gets. unfold bind at 1.
      unfold assert. rewrite Hp. reflexivity.
    + unfold txn_finish. unfold bind at 1. unfold gets. unfold bind at 1.
      unfold assert. rewrite Hp. reflexivity.
  - intros w p pt t s Hcur Hgc Hch Hs Htmp Hm Hrow.
    unfold txn_commit. unfold bind at 1. unfold gets.
    unfold bind at 1. unfold assert, ptr_eqb. rewrite Hcur, Nat.eqb_refl.
    unfold bind at 1. rewrite (load_ok _ _ _ Hgc).
    unfold bind at 1. rewrite Hch, Hs. unfold bind at 1.
    unfold space_is_temporary, ret. rewrite Htmp. cbn [negb when].
    unfold bind at 1. unfold wal_step. unfold bind at 1. unfold gets.
    unfold bind at 1. unfold assert. rewrite Hrow.
    destruct (wal_mode w); [congruence|reflexivity|reflexivity].
Qed.

(** X4: one whole transaction. From an idle fiber, [txn_begin],
    a [txn_replace] the engine accepts, [txn_add_redo] and [txn_commit]
    all succeed when the log write (made only for a space that is not
    temporary) returns 0; the fiber is idle again with an empty region,
    the reference counts are up by one for the new tuple and down by one
    for the displaced one, the trace is the replace, the reference, the
    [on_replace] triggers, the log write, the tuple sent to the port and
    the finish, and the next [txn_begin] succeeds. *)
Theorem txn_commit_cycle (w : world) s old new mode e' d rq pt :
  let t := ready_txn (wal_mode w) s d new rq in
  in_txn w = None ->
  is_some old || is_some new = true ->
  space_replace (engine w) s old new mode = (e', inr d) ->
  (commit_logged t = true -> snd (wal_write (wal w) (txn_row t)) = 0) ->
  exists p w1 w2 w3 w4,
    txn_begin w = (Ok p, w1) /\
    txn_replace p s old new mode w1 = (Ok tt, w2) /\
    txn_add_redo p rq w2 = (Ok tt, w3) /\
    txn_commit p pt w3 = (Ok tt, w4) /\
    in_txn w4 = None /\ gc w4 = [] /\
    engine w4 = engine_txn_finish e' t /\
    wal w4 = (if commit_logged t then fst (wal_write (wal w) (txn_row t))
              else wal w) /\
    (forall x, refs w4 x = refs w x + holds new x - holds d x) /\
    trace w4 =
      trace w ++
      EvSpaceReplace s old new mode ::
      match new with Some n => [EvTupleRef n 1] | None => [] end ++
      replace_triggers s p ++
      (if commit_logged t then wal_events w t else []) ++
      port_events pt t ++ finish_events t /\
    fst (txn_begin w4) = Ok 0%nat.
Proof.
  intros t Hcur Hnn Hsr Hres.
  pose proof (txn_begin_ok w Hcur) as Hb. world_of Hb w1.
  set (p := length (gc w)) in *.
  assert (Hg1 : gc w1 !! p = Some (ObjTxn zero_txn))
    by (apply list_lookup_middle; reflexivity).
  pose proof (txn_replace_ok w1 p zero_txn s old new mode e' d Hg1 Hnn Hsr) as Hr.
  world_of Hr w2.
  assert (Hg2 : gc w2 !! p = Some (ObjTxn (replaced_txn zero_txn s d new))).
  { apply list_lookup_insert_eq. unfold w1. cbn [gc].
    rewrite length_app. simpl. unfold p. lia. }
  destruct (txn_add_redo_row w2 p _ rq Hg2) as (g3 & Ha & Hg3 & _).
  world_of Ha w3. change (wal_mode w2) with (wal_mode w) in Hg3.
  fold (ready_txn (wal_mode w) s d new rq) in Hg3. fold t in Hg3.
  assert (Hrow : commit_logged t = true ->
                 is_wal_none (wal_mode w3) || is_some (txn_row t) = true).
  { intros _. unfold t, ready_txn, with_row, redo_row_of. cbn [txn_row wal_mode w3].
    destruct (req_header rq), (wal_mode w); reflexivity. }
  pose proof (txn_commit_cases w3 p pt t eq_refl Hg3 (fun _ => eq_refl) Hrow) as Hc.
  change (wal w3) with (wal w) in Hc.
  assert (Hwe : wal_events w3 t = wal_events w t) by reflexivity.
  rewrite Hwe in Hc.
  assert (Hoc : trigger_events (on_commit t) p = ([] : list (event tuple)))
    by reflexivity.
  rewrite Hoc in Hc. cbn [app] in Hc.
  assert (Hfe : finished_engine w3 t = engine_txn_finish e' t) by reflexivity.
  assert (Hfr : forall x, finished_refs w3 t x = refs w x + holds new x - holds d x).
  { intros x. unfold finished_refs, t, ready_txn, with_row. cbn [old_tuple replaced_txn].
    unfold w3, w2, w1. cbn [refs]. apply holds_refs. }
  destruct (commit_logged t) eqn:Hlog.
  - rewrite (Hres eq_refl) in Hc. cbn [Z.eqb] in Hc. world_of Hc w4.
    exists p, w1, w2, w3, w4.
    split; [exact Hb|]. split; [exact Hr|]. split; [exact Ha|].
    split; [exact Hc|]. split; [reflexivity|]. split; [reflexivity|].
    split; [exact Hfe|]. split; [reflexivity|]. split; [exact Hfr|].
    split; [|reflexivity].
    unfold w4, w3, w2, w1. cbn [trace]. rewrite <- !app_assoc. cbn [app].
    rewrite <- ?app_assoc. reflexivity.
  - world_of Hc w4.
    exists p, w1, w2, w3, w4.
    split; [exact Hb|]. split; [exact Hr|]. split; [exact Ha|].
    split; [exact Hc|]. split; [reflexivity|]. split; [reflexivity|].
    split; [exact Hfe|]. split; [reflexivity|]. split; [exact Hfr|].
    split; [|reflexivity].
    unfold w4, w3, w2, w1. cbn [trace]. rewrite <- !app_assoc. cbn [app].
    rewrite <- ?app_assoc. reflexivity.
Qed.

Lemma txn_rollback_raise (w : world) p t s e' err :
  in_txn w = Some p -> gc w !! p = Some (ObjTxn t) ->
  txn_changed t = true -> txn_space t = Some s ->
  space_replace (engine w) s (new_tuple t) (old_tuple t) DUP_INSERT = (e', inl err) ->
  txn_rollback w =
  (Raise err,
   mk_world (Some p) (gc w) e' (refs w) (wal w) (wal_mode w)
            (trace w ++ [EvSpaceReplace s (new_tuple t) (old_tuple t) DUP_INSERT])).
Proof.
  destruct w as [cur g e r wl wm tr].
  cbn [in_txn gc engine refs wal wal_mode trace]. intros -> Hgc Hch Hs Hsr.
  unfold txn_rollback. unfold bind at 1. unfold gets. cbn [in_txn].
  unfold bind at 1. unfold load. cbn [gc]. rewrite Hgc, Hch, Hs.
  cbn [when]. unfold bind at 1. unfold bind at 1.
  unfold call_space_replace. cbn [engine]. rewrite Hsr. norm_world.
Qed.

Lemma txn_rollback_fault (w : world) p :
  in_txn w = Some p ->
  match gc w !! p with
  | Some (ObjTxn t) => txn_changed t = true /\ txn_space t = None
  | _ => True
  end ->
  txn_rollback w = (Fault, w).
Proof.
  intros Hcur Hgc.
  unfold txn_rollback. unfold bind at 1. unfold gets. rewrite Hcur.
  unfold bind at 1. unfold load.
  destruct (gc w !! p) as [[t|r]|]; try reflexivity.
  destruct Hgc as [Hch Hs]. rewrite Hch, Hs. reflexivity.
Qed.

(** X5: whatever the state, [txn_rollback] leaves the log and the WAL
    mode alone, and what it adds to the trace holds no log write, no
    tuple sent to a port and no engine finish. *)
Theorem txn_rollback_is_quiet (w : world) :
  wal (snd (txn_rollback w)) = wal w /\
  wal_mode (snd (txn_rollback w)) = wal_mode w /\
  exists added,
    trace (snd (txn_rollback w)) = trace w ++ added /\
    forallb (fun e => negb (is_wal_write e || is_port_add e || is_engine_finish e))
            added = true.
Proof.
  assert (Hsame : forall r, txn_rollback w = (r, w) ->
    wal (snd (txn_rollback w)) = wal w /\
    wal_mode (snd (txn_rollback w)) = wal_mode w /\
    exists added,
      trace (snd (txn_rollback w)) = trace w ++ added /\
      forallb (fun e => negb (is_wal_write e || is_port_add e || is_engine_finish e))
              added = true).
  { intros r ->. cbn [snd]. repeat split. exists []. rewrite app_nil_r. auto. }
  destruct (in_txn w) as [p|] eqn:Hcur;
    [|apply (Hsame _ (txn_rollback_idle w Hcur))].
  destruct (gc w !! p) as [[t|r]|] eqn:Hgc;
    [|apply (Hsame Fault), (txn_rollback_fault w p Hcur); rewrite Hgc; exact I
     |apply (Hsame Fault), (txn_rollback_fault w p Hcur); rewrite Hgc; exact I].
  destruct (txn_changed t) eqn:Hch.
  - destruct (txn_space t) as [s|] eqn:Hs;
      [|apply (Hsame Fault), (txn_rollback_fault w p Hcur); rewrite Hgc; auto].
    destruct (space_replace (engine w) s (new_tuple t) (old_tuple t) DUP_INSERT)
      as [e' [err|d]] eqn:Hsr.
    + rewrite (txn_rollback_raise w p t s e' err Hcur Hgc Hch Hs Hsr).
      cbn [snd wal wal_mode trace]. repeat split. eexists. split; reflexivity.
    + rewrite (txn_rollback_changed w p t s e' d Hcur Hgc Hch Hs Hsr).
      cbn [snd wal wal_mode trace]. repeat split. eexists. split; [reflexivity|].
      rewrite forallb_app. apply andb_true_iff. split; [|reflexivity].
      unfold rollback_events. rewrite Hs.
      pose proof (quiet_triggers (on_rollback t) p) as Hq.
      remember (fun e : event tuple =>
                  negb (is_wal_write e || is_port_add e || is_engine_finish e))
        as F eqn:HF.
      change (F (EvSpaceReplace s (new_tuple t) (old_tuple t) DUP_INSERT) &&
              forallb F (trigger_events (on_rollback t) p ++
                         match new_tuple t with
                         | Some n => [EvTupleRef n (-1)]
                         | None => []
                         end) = true).
      rewrite forallb_app, Hq. subst F. destruct (new_tuple t); reflexivity.
  - rewrite (txn_rollback_unchanged w p t Hcur Hgc Hch).
    cbn [snd wal wal_mode trace]. repeat split. eexists. split; reflexivity.
Qed.

End Facts.

Lemma txn_add_redo_sets_row_witness :
  exists w',
    txn_add_redo 0%nat demo_request (demo_world false) = (Ok tt, w') /\
    gc w' !! 0%nat =
      Some (ObjTxn (with_row demo_txn (redo_row_of WAL_WRITE demo_request))).
Proof.
  destruct (txn_add_redo_sets_row (demo_world false) 0%nat demo_txn demo_request
              eq_refl) as (w' & H1 & H2 & _).
  exists w'. split; [exact H1|exact H2].
Defined.

Lemma txn_replace_failure_isolated_witness :
  exists p w1 w2 w3,
    txn_begin (slot_world false WAL_WRITE) = (Ok p, w1) /\
    txn_replace p plain_space None (Some 5%nat) DUP_REPLACE w1 =
      (Raise (ER_ENGINE 4), w2) /\
    txn_rollback w2 = (Ok tt, w3) /\
    engine w3 = None /\ in_txn w3 = None.
Proof.
  destruct (txn_replace_failure_isolated (slot_world false WAL_WRITE) plain_space
              None (Some 5%nat) DUP_REPLACE None (ER_ENGINE 4)
              eq_refl eq_refl eq_refl)
    as (p & w1 & w2 & w3 & H1 & H2 & _ & _ & _ & H3 & _ & H4 & _ & H5 & _).
  exists p, w1, w2, w3. repeat split; assumption.
Defined.

Lemma txn_assertions_before_effects_witness :
  txn_commit 0%nat 9%nat failing_w2 = (AssertFailed A_row_present, failing_w2).
Proof.
  apply (proj2 (proj2 txn_assertions_before_effects) failing_w2 0%nat 9%nat
               (replaced_txn zero_txn plain_space None (Some 5%nat)) plain_space);
    vm_compute; first [reflexivity | discriminate].
Defined.

Lemma txn_commit_cycle_witness :
  exists p w1 w2 w3 w4,
    txn_begin (slot_world false WAL_WRITE) = (Ok p, w1) /\
    txn_replace p plain_space None (Some 5%nat) DUP_INSERT w1 = (Ok tt, w2) /\
    txn_add_redo p demo_request w2 = (Ok tt, w3) /\
    txn_commit p 9%nat w3 = (Ok tt, w4) /\
    in_txn w4 = None /\ gc w4 = [] /\ refs w4 5%nat = 1.
Proof.
  destruct (txn_commit_cycle (slot_world false WAL_WRITE) plain_space None
              (Some 5%nat) DUP_INSERT (Some 5%nat) None demo_request 9%nat
              eq_refl eq_refl eq_refl (fun _ => eq_refl))
    as (p & w1 & w2 & w3 & w4 & H1 & H2 & H3 & H4 & H5 & H6 & _ & _ & H7 & _).
  exists p, w1, w2, w3, w4.
  split; [exact H1|]. split; [exact H2|]. split; [exact H3|]. split; [exact H4|].
  split; [exact H5|]. split; [exact H6|]. rewrite H7. reflexivity.
Defined.
End TxnExtSpec.

(** ** The cursor on damaged and growing files *)

Module XlogExtSpec.
Import Xlog XlogSpec XlogExt.

Lemma fread_short size f :
  0 < size -> f_size f < f_pos f + size ->
  fread size f = (None, mk_FILE (f_data f) (Z.max (f_pos f) (f_size f))).
Proof.
  intros Hs Hlt. unfold fread.
  destruct (Z.ltb_spec 0 size); [|lia].
  destruct (Z.leb_spec (f_pos f + size) (f_size f)); [lia|].
  destruct (Z.eqb_spec size 0); [lia|]. reflexivity.
Qed.

Section ReaderFacts.
Variable region_can_alloc : Z -> bool.
Local Abbreviation row_reader_v11 := (row_reader_v11 region_can_alloc).
Local Abbreviation next_restart := (next_restart region_can_alloc).
Local Abbreviation xlog_cursor_v11_next := (xlog_cursor_v11_next region_can_alloc).

(** The scan from a position with the first marker at [M]. *)
Lemma find_marker_first f msgs M :
  0 <= f_pos f -> f_pos f <= M ->
  marker_at (f_data f) M ->
  (forall m, f_pos f <= m < M -> ~ marker_at (f_data f) m) ->
  find_marker f msgs = inr (mk_FILE (f_data f) (M + 4)).
Proof.
  intros Hp Hle Hm Hno.
  destruct (find_marker f msgs) as [[f1 msgs0]|f2] eqn:Hfm.
  - apply find_marker_eof in Hfm as (_ & _ & Hnone); [|exact Hp].
    exfalso. apply (Hnone M Hle Hm).
  - apply find_marker_found in Hfm as (Hd2 & Hma & Hle2 & Hfirst); [|exact Hp].
    f_equal. rewrite (file_eta f2), Hd2. f_equal.
    destruct (Z.lt_trichotomy (f_pos f2 - 4) M) as [Hlt|[Heq|Hgt]]; [|lia|].
    + exfalso. apply (Hno (f_pos f2 - 4)); [lia|exact Hma].
    + exfalso. apply (Hfirst M); [lia|exact Hm].
Qed.

Lemma row_reader_v11_rowlen_agrees f rowlen :
  0 <= f_pos f ->
  row_reader_v11_rowlen region_can_alloc f rowlen =
  match row_reader_v11 f with
  | (Row r, f') => (Row r, rowlen_v11 (decode_header (take 28 r)), f')
  | (res, f') => (res, rowlen, f')
  end.
Proof.
  intros Hpos.
  unfold row_reader_v11_rowlen, Xlog.row_reader_v11, sizeof_header_v11.
  destruct (fread 28 f) as [[m|] f1] eqn:Hh; [|reflexivity].
  apply fread_some in Hh as (_ & Hsz & _ & Hm).
  assert (Hlm : length m = 28%nat).
  { subst m. rewrite length_take, length_drop. unfold f_size in Hsz. lia. }
  destruct (region_can_alloc _); cbn [negb]; [|reflexivity].
  destruct (fread (len (decode_header m)) f1) as [[body|] f2]; [|reflexivity].
  rewrite take_app_length' by (symmetry; exact Hlm). reflexivity.
Qed.

(** X6: what [row_reader_v11] returns and what it leaves in [*rowlen]
    are decided by the file size and the allocator alone. A row is the 28
    header bytes and the [len] body bytes as they lie in the file, [len]
    being positive, and the stream ends right after it; [*rowlen] is then
    [len + 28] as a [uint32_t] holds it, which is the number of bytes of
    the row when [len < 2^32 - 28] and that number less [2^32]
    otherwise. [NULL] means the header was read and the region refused
    the row, the stream being left after the header; [ROW_EOF] means the
    header was short, or [len] is zero, or the body was short; in both
    cases [*rowlen] is left as it was. *)
Theorem row_reader_v11_shape f rowlen :
  0 <= f_pos f ->
  match row_reader_v11_rowlen region_can_alloc f rowlen with
  | (Row r, rowlen', f') =>
      row_reader_v11 f = (Row r, f') /\
      Z.of_nat (length r) = 28 + len (decode_header (take 28 r)) /\
      0 < len (decode_header (take 28 r)) < 2 ^ 32 /\
      rowlen' = (len (decode_header (take 28 r)) + 28) mod 2 ^ 32 /\
      (len (decode_header (take 28 r)) < 2 ^ 32 - 28 ->
       rowlen' = Z.of_nat (length r)) /\
      (2 ^ 32 - 28 <= len (decode_header (take 28 r)) ->
       rowlen' = Z.of_nat (length r) - 2 ^ 32) /\
      region_can_alloc (28 + len (decode_header (take 28 r))) = true /\
      r = take (length r) (drop (Z.to_nat (f_pos f)) (f_data f)) /\
      f' = mk_FILE (f_data f) (f_pos f + Z.of_nat (length r)) /\
      f_pos f' <= f_size f
  | (ROW_NULL, rowlen', f') =>
      row_reader_v11 f = (ROW_NULL, f') /\ rowlen' = rowlen /\
      f_pos f + 28 <= f_size f /\
      region_can_alloc
        (28 + len (decode_header
                     (take 28 (drop (Z.to_nat (f_pos f)) (f_data f))))) = false /\
      f' = mk_FILE (f_data f) (f_pos f + 28)
  | (ROW_EOF, rowlen', f') =>
      row_reader_v11 f = (ROW_EOF, f') /\ rowlen' = rowlen /\
      f_data f' = f_data f /\
      (f_size f < f_pos f + 28 /\ f_pos f' = Z.max (f_pos f) (f_size f) \/
       f_pos f + 28 <= f_size f /\
       let n := len (decode_header
                       (take 28 (drop (Z.to_nat (f_pos f)) (f_data f)))) in
       (n = 0 /\ f_pos f' = f_pos f + 28 \/
        0 < n /\ f_size f < f_pos f + 28 + n /\ f_pos f' = f_size f))
  end.
Proof.
  intros Hpos. rewrite row_reader_v11_rowlen_agrees by exact Hpos.
  pose proof (row_reader_cases region_can_alloc f Hpos) as Hc.
  destruct (row_reader_v11 f) as [[| |r] f'].
  - split; [reflexivity|]. split; [reflexivity|exact Hc].
  - split; [reflexivity|]. split; [reflexivity|exact Hc].
  - destruct Hc as (Hlen & Hn & Ha & Hr & Hf & Hsz).
    pose proof (le_decode_range (take 4 (drop 20 (take 28 r)))) as Hrange.
    assert (Hlt : len (decode_header (take 28 r)) < 2 ^ 32).
    { unfold decode_header, len.
      assert (length (take 4 (drop 20 (take 28 r))) <= 4)%nat
        by (rewrite length_take; lia).
      assert (256 ^ Z.of_nat (length (take 4 (drop 20 (take 28 r)))) <= 256 ^ 4)
        by (apply Z.pow_le_mono_r; lia).
      change (256 ^ 4) with (2 ^ 32) in *. lia. }
    unfold rowlen_v11, sizeof_header_v11.
    split; [reflexivity|]. split; [exact Hlen|]. split; [lia|].
    split; [reflexivity|]. split; [|split].
    + intros Hs. rewrite Z.mod_small by lia. lia.
    + intros Hs.
      replace (len (decode_header (take 28 r)) + 28)
        with (len (decode_header (take 28 r)) + 28 - 2 ^ 32 + 1 * 2 ^ 32) by lia.
      rewrite Z_mod_plus_full, Z.mod_small by lia. lia.
    + split; [exact Ha|]. split; [exact Hr|]. split; [exact Hf|exact Hsz].
Qed.


Lemma marker_at_app pre rest :
  marker_at (pre ++ le_encode 4 row_marker_v11 ++ rest) (Z.of_nat (length pre)).
Proof.
  unfold marker_at. rewrite !length_app, length_le_encode.
  split; [lia|]. split; [lia|].
  rewrite Nat2Z.id, drop_app_length.
  rewrite (take_app_length' (le_encode 4 row_marker_v11)) by reflexivity.
  reflexivity.
Qed.

Lemma fread_zero f : fread 0 f = (None, f).
Proof. reflexivity. Qed.

(** X7: a record whose header announces an empty body is not
    returned: [fread] of zero bytes yields 0, so the cursor returns no
    row, keeps [good_offset] at the record's marker and leaves the stream
    after the header, 32 bytes further on. *)
Theorem empty_body_stops_cursor i pre hdr post :
  f_data (cursor_file i) = pre ++ le_encode 4 row_marker_v11 ++ hdr ++ post ->
  f_pos (cursor_file i) = Z.of_nat (length pre) ->
  good_offset i = Z.of_nat (length pre) ->
  length hdr = 28%nat ->
  len (decode_header hdr) = 0 ->
  region_can_alloc 28 = true ->
  xlog_cursor_v11_next i =
  Some (None,
        with_file i (mk_FILE (f_data (cursor_file i)) (good_offset i + 32)),
        [SayDebugMagicFound (good_offset i)]).
Proof.
  intros Hd Hp Hg Hl Hlen Ha.
  unfold Xlog.xlog_cursor_v11_next. cbn [Xlog.next_restart].
  change (0 <? 0) with false. cbv iota. fold (cursor_file i).
  rewrite (find_marker_first (cursor_file i) [] (Z.of_nat (length pre))).
  2: rewrite Hp; lia. 2: rewrite Hp; lia.
  2: { rewrite Hd. apply marker_at_app. }
  2: { rewrite Hp. intros m Hm. lia. }
  unfold Xlog.row_reader_v11, sizeof_header_v11.
  pose proof (fread_at (pre ++ le_encode 4 row_marker_v11) hdr post) as Hr.
  rewrite Hl in Hr. change (Z.of_nat 28) with 28 in Hr.
  rewrite <- app_assoc, length_app, length_le_encode in Hr.
  rewrite Hd. replace (Z.of_nat (length pre) + 4) with (Z.of_nat (length pre + 4)) by lia.
  rewrite Hr by (intros ->; discriminate).
  rewrite Hlen. change (28 + 0) with 28. rewrite Ha. cbn [negb].
  rewrite fread_zero. unfold cursor_eof, ftello. cbn [f_pos].
  destruct (Z.eqb_spec (Z.of_nat (length pre + 4 + 28)) (good_offset i + 4)); [lia|].
  unfold found_msgs. replace (Z.of_nat (length pre + 4) - 4) with (good_offset i) by lia.
  rewrite Z.eqb_refl. cbn [app].
  replace (good_offset i + 32) with (Z.of_nat (length pre + 4 + 28)) by lia.
  reflexivity.
Qed.

Lemma cursor_eof_sealed i f msgs row i' msgs' :
  cursor_eof i f msgs = (row, i', msgs') ->
  eof_read i = false -> eof_read i' = true ->
  0 <= good_offset i ->
  f_pos f = good_offset i + 4 /\
  eof_marker_at (f_data f) (good_offset i) /\
  row = None /\ msgs' = msgs /\
  i' = mk_cursor (mk_xlog (mk_FILE (f_data f) (good_offset i + 4)) (xl_rows (log i)))
                 (row_count i) (good_offset i + 4) true.
Proof.
  intros H He He' Hg. unfold cursor_eof, ftello in H.
  destruct (Z.eqb_spec (f_pos f) (good_offset i + 4)) as [Hp|Hp].
  - destruct (fread 4 (fseeko f (good_offset i))) as [[mg|] f2] eqn:Hr.
    + apply fread_some in Hr as (_ & Hsz & -> & Hmg).
      unfold fseeko, f_size in *. cbn [f_pos f_data] in *.
      destruct (Z.eqb_spec (le_decode mg) eof_marker_v11) as [Hm|Hm].
      * injection H as <- <- <-. split; [exact Hp|].
        split; [|repeat split].
        unfold eof_marker_at. subst mg. repeat split; [lia|lia|exact Hm].
      * destruct (negb _); injection H as <- <- <-; cbn in He'; congruence.
    + injection H as <- <- <-. cbn in He'. congruence.
  - injection H as <- <- <-. cbn in He'. congruence.
Qed.

Lemma next_restart_sealed fuel : forall i f mo msgs row i' msgs',
  f_data f = f_data (cursor_file i) ->
  0 <= good_offset i -> good_offset i <= restart_pos f mo ->
  eof_read i = false ->
  next_restart fuel i f mo msgs = Some (row, i', msgs') ->
  eof_read i' = true ->
  row = None /\
  eof_marker_at (f_data (cursor_file i)) (good_offset i) /\
  good_offset i + 4 = f_size (cursor_file i) /\
  i' = mk_cursor (mk_xlog (mk_FILE (f_data (cursor_file i)) (f_size (cursor_file i)))
                          (xl_rows (log i)))
                 (row_count i) (f_size (cursor_file i)) true.
Proof.
  induction fuel as [|fuel IH]; intros i f mo msgs row i' msgs' Hd Hg Hle He H He';
    [discriminate|].
  cbn [Xlog.next_restart] in H.
  set (f0 := if 0 <? mo then fseeko f (mo + 1) else f) in *.
  assert (Hf0 : f_data f0 = f_data f /\ f_pos f0 = restart_pos f mo).
  { unfold f0, restart_pos. destruct (0 <? mo); split; reflexivity. }
  destruct Hf0 as [Hd0 Hp0].
  assert (Hsize : forall g, f_data g = f_data f -> f_size g = f_size (cursor_file i)).
  { intros g Hgd. unfold f_size. rewrite Hgd, Hd. reflexivity. }
  destruct (find_marker f0 msgs) as [[f1 msgs0]|f2] eqn:Hfm.
  - apply find_marker_eof in Hfm as (Hd1 & Hp1 & _); [|lia].
    injection H as H.
    apply cursor_eof_sealed in H as (Hp & Hm & -> & _ & ->); try assumption.
    rewrite Hd1, Hd0, Hd in Hm |- *.
    assert (Hsz : good_offset i + 4 = f_size (cursor_file i)).
    { destruct Hm as (_ & Hm & _). rewrite (Hsize f0 Hd0) in Hp1.
      unfold f_size in *. lia. }
    rewrite <- Hsz. split; [reflexivity|]. split; [exact Hm|]. split; reflexivity.
  - apply find_marker_found in Hfm as (Hd2 & Hma & Hle2 & _); [|lia].
    pose proof (row_reader_cases region_can_alloc f2 ltac:(lia)) as Hrr.
    destruct (row_reader_v11 f2) as [[| |r] f3] eqn:Hrow.
    + destruct Hrr as (Hd3 & Hcase). injection H as H.
      apply cursor_eof_sealed in H as (Hp & Hm & -> & _ & ->); try assumption.
      rewrite Hd3, Hd2, Hd0, Hd in Hm |- *.
      assert (Hsz : good_offset i + 4 = f_size (cursor_file i)).
      { destruct Hm as (_ & Hm & _).
        rewrite (Hsize f2 ltac:(congruence)) in Hcase.
        unfold f_size in *. cbv zeta in Hcase.
        destruct Hcase as [[? ?]|[? [[? ?]|(? & ? & ?)]]]; lia. }
      rewrite <- Hsz. split; [reflexivity|]. split; [exact Hm|]. split; reflexivity.
    + destruct Hrr as (Hsz & _ & ->).
      eapply IH in H; try eassumption.
      * cbn [f_data]. congruence.
      * unfold restart_pos, ftello. destruct (Z.ltb_spec 0 (f_pos f2 - 4)); cbn [f_pos]; lia.
    + injection H as <- <- <-. cbn [eof_read] in He'. congruence.
Qed.

(** X8: the cursor sets [eof_read] only on a call that returns no row
    and finds the EOF marker as the last four bytes of the file, right at
    [good_offset]; [good_offset] and the stream position are then the
    file size. An EOF marker followed by anything never ends the log. *)
Theorem eof_read_only_at_file_end i row i' msgs :
  cursor_inv i -> eof_read i = false ->
  xlog_cursor_v11_next i = Some (row, i', msgs) ->
  eof_read i' = true ->
  row = None /\
  eof_marker_at (f_data (cursor_file i)) (good_offset i) /\
  good_offset i + 4 = f_size (cursor_file i) /\
  good_offset i' = f_size (cursor_file i) /\
  ftello (cursor_file i') = f_size (cursor_file i) /\
  row_count i' = row_count i.
Proof.
  intros Hinv He H He'. unfold Xlog.xlog_cursor_v11_next in H.
  apply next_restart_sealed in H as (-> & Hm & Hsz & ->); try assumption.
  - repeat split; try assumption; apply Hm.
  - reflexivity.
  - apply Hinv.
  - unfold restart_pos. cbn. apply Hinv.
Qed.


Lemma cursor_eof_at_row_marker i f msgs :
  f_data f = f_data (cursor_file i) ->
  marker_at (f_data (cursor_file i)) (good_offset i) ->
  exists f', cursor_eof i f msgs = (None, with_file i f', msgs) /\
             f_data f' = f_data (cursor_file i).
Proof.
  intros Hd (H0 & Hsz & Hm). unfold cursor_eof, ftello.
  destruct (f_pos f =? good_offset i + 4).
  - unfold fread, fseeko, f_size. cbn [f_pos f_data]. rewrite Hd.
    destruct (Z.leb_spec (good_offset i + 4) (Z.of_nat (length (f_data (cursor_file i)))));
      [|lia].
    cbn [andb Z.ltb Z.compare]. change (Z.to_nat 4) with 4%nat. rewrite Hm.
    change (row_marker_v11 =? eof_marker_v11) with false.
    rewrite Z.eqb_refl. cbn [negb]. eexists. split; reflexivity.
  - exists f. split; [reflexivity|exact Hd].
Qed.

Lemma frame_prefix_header pre r k :
  (32 <= k)%nat ->
  take 28 (drop (Z.to_nat (Z.of_nat (length pre) + 4))
                (pre ++ take k (frame_row r))) = frame_header r.
Proof.
  intros Hk. unfold frame_row.
  rewrite take_app_ge by (rewrite length_le_encode; lia).
  rewrite length_le_encode.
  rewrite take_app_ge by (rewrite length_frame_header; lia).
  rewrite length_frame_header.
  replace (Z.to_nat (Z.of_nat (length pre) + 4))
    with (length (pre ++ le_encode 4 row_marker_v11))
    by (rewrite length_app, length_le_encode; lia).
  rewrite (app_assoc pre), drop_app_length.
  rewrite take_app_length' by (rewrite length_frame_header; reflexivity).
  reflexivity.
Qed.

(** X9: a record cut short, by a crash or because it is still being
    written. With only the first [k] bytes of a record at [good_offset],
    the cursor returns no row, logs nothing above debug level and keeps
    its counters; [xlog_cursor_v11_close] rewinds the stream to
    [good_offset], and a cursor opened on the log once the rest of the
    record has been appended returns that record. *)
Theorem partial_record_then_completed i pre r k post :
  f_data (cursor_file i) = pre ++ take k (frame_row r) ->
  (k < length (frame_row r))%nat ->
  f_pos (cursor_file i) = Z.of_nat (length pre) ->
  good_offset i = Z.of_nat (length pre) ->
  row_readable region_can_alloc r ->
  exists i' msgs,
    xlog_cursor_v11_next i = Some (None, i', msgs) /\
    forallb is_debug msgs = true /\
    good_offset i' = good_offset i /\ eof_read i' = eof_read i /\
    row_count i' = row_count i /\
    xl_f (xlog_cursor_v11_close i') =
      mk_FILE (f_data (cursor_file i)) (good_offset i) /\
    exists j msgs',
      xlog_cursor_v11_next
        (xlog_cursor_v11_open
           (grown (xlog_cursor_v11_close i') (drop k (frame_row r) ++ post))) =
        Some (Some (row_bytes r), j, msgs') /\
      forallb is_debug msgs' = true /\
      good_offset j = good_offset i + Z.of_nat (length (frame_row r)).
Proof.
  intros Hd Hk Hp Hg (Hne & Hlt & Halloc).
  assert (Hfirst : exists f' msgs,
            xlog_cursor_v11_next i = Some (None, with_file i f', msgs) /\
            forallb is_debug msgs = true /\
            f_data f' = f_data (cursor_file i)).
  { unfold Xlog.xlog_cursor_v11_next. cbn [Xlog.next_restart].
    change (0 <? 0) with false. cbv iota. fold (cursor_file i).
    assert (Hsize : f_size (cursor_file i) = Z.of_nat (length pre) + Z.of_nat k).
    { unfold f_size. rewrite Hd, length_app, length_take. lia. }
    destruct (Nat.lt_ge_cases k 4) as [Hk4|Hk4].
    - unfold find_marker. rewrite fread_short by lia.
      unfold cursor_eof, ftello. cbn [f_pos].
      destruct (Z.eqb_spec (Z.max (f_pos (cursor_file i)) (f_size (cursor_file i)))
                           (good_offset i + 4)); [lia|].
      eexists _, []. split; [reflexivity|]. split; reflexivity.
    - assert (Hm : marker_at (f_data (cursor_file i)) (Z.of_nat (length pre))).
      { rewrite Hd. unfold frame_row.
        rewrite take_app_ge by (rewrite length_le_encode; lia).
        apply marker_at_app. }
      rewrite (find_marker_first (cursor_file i) [] (Z.of_nat (length pre)));
        [|lia|lia|exact Hm|intros; lia].
      unfold ftello. cbn [f_pos app].
      replace (Z.of_nat (length pre) + 4 - 4) with (good_offset i) by lia.
      unfold found_msgs. rewrite Z.eqb_refl. cbn [app].
      set (f2 := mk_FILE (f_data (cursor_file i)) (Z.of_nat (length pre) + 4)).
      pose proof (row_reader_cases region_can_alloc f2 ltac:(cbn; lia)) as Hrr.
      assert (Hhdr : (32 <= k)%nat ->
                take 28 (drop (Z.to_nat (f_pos f2)) (f_data f2)) = frame_header r).
      { intros Hk32. unfold f2. cbn [f_pos f_data]. rewrite Hd.
        apply frame_prefix_header. exact Hk32. }
      assert (Hsz2 : f_size f2 = Z.of_nat (length pre) + Z.of_nat k) by exact Hsize.
      rewrite length_frame_row in Hk.
      destruct (row_reader_v11 f2) as [[| |r0] f3].
      + destruct Hrr as (Hd3 & _).
        destruct (cursor_eof_at_row_marker i f3 [SayDebugMagicFound (good_offset i)])
          as (f' & -> & Hd'); [exact Hd3|rewrite Hg; exact Hm|].
        exists f'. eexists. split; [reflexivity|]. split; [reflexivity|exact Hd'].
      + exfalso. destruct Hrr as (Hsz & Hfalse & _). cbn [f_pos f2] in Hsz.
        rewrite Hhdr in Hfalse by lia.
        rewrite frame_header_len in Hfalse by exact Hlt. congruence.
      + exfalso. destruct Hrr as (Hlen & Hpos & _ & Hr0 & -> & Hend).
        cbn [f_pos] in Hend. change (f_pos f2) with (Z.of_nat (length pre) + 4) in Hend.
        assert (Htake : take 28 r0 = frame_header r).
        { rewrite Hr0, take_take. rewrite Nat.min_l by lia. apply Hhdr. lia. }
        rewrite Htake, frame_header_len in Hlen by exact Hlt. lia. }
  destruct Hfirst as (f' & msgs & Hn & Hdbg & Hd').
  exists (with_file i f'), msgs. split; [exact Hn|]. split; [exact Hdbg|].
  split; [reflexivity|]. split; [reflexivity|]. split; [reflexivity|].
  unfold xlog_cursor_v11_close, with_file, fseeko. cbn [log xl_f good_offset xl_rows row_count].
  rewrite Hd'. split; [reflexivity|].
  set (i2 := xlog_cursor_v11_open _).
  assert (Hd2 : f_data (cursor_file i2) = pre ++ [] ++ frame_row r ++ post).
  { unfold i2, grown, xlog_cursor_v11_open. cbn. rewrite Hd, <- app_assoc.
    f_equal. rewrite app_assoc, take_drop. reflexivity. }
  pose proof (next_skips_to_frame region_can_alloc i2 pre [] r post Hd2 Hg Hg
                ltac:(cbn [length]; intros; lia) Hne Hlt Halloc) as Hn2.
  rewrite Hn2. eexists _, _. split; [reflexivity|].
  split.
  - unfold found_msgs. change (good_offset i2) with (good_offset i).
    rewrite Hg. cbn [length]. rewrite Nat.add_0_r, Z.eqb_refl. reflexivity.
  - cbn [good_offset length]. rewrite Hg. lia.
Qed.

Lemma cursor_eof_rows i f msgs :
  xl_rows (log (snd (fst (cursor_eof i f msgs)))) = xl_rows (log i) /\
  row_count (snd (fst (cursor_eof i f msgs))) = row_count i /\
  fst (fst (cursor_eof i f msgs)) = None.
Proof.
  unfold cursor_eof. destruct (_ =? _); [|repeat split].
  destruct (fread _ _) as [[mg|] f2]; [|repeat split].
  destruct (_ =? _); [repeat split|]. destruct (negb _); repeat split.
Qed.

Lemma next_restart_rows fuel : forall i f mo msgs row i' msgs',
  next_restart fuel i f mo msgs = Some (row, i', msgs') ->
  xl_rows (log i') = xl_rows (log i) /\
  row_count i' = row_count i + (match row with Some _ => 1 | None => 0 end).
Proof.
  induction fuel as [|fuel IH]; intros i f mo msgs row i' msgs' H; [discriminate|].
  cbn [Xlog.next_restart] in H.
  destruct (find_marker _ msgs) as [[f1 msgs0]|f2].
  - injection H as H. pose proof (cursor_eof_rows i f1 msgs0) as (Hr & Hc & Hn).
    rewrite H in Hr, Hc, Hn. cbn [fst snd] in *. subst row. split; [exact Hr|lia].
  - destruct (row_reader_v11 f2) as [[| |r] f3].
    + injection H as H.
      match type of H with cursor_eof i ?F ?M = _ =>
        pose proof (cursor_eof_rows i F M) as (Hr & Hc & Hn) end.
      rewrite H in Hr, Hc, Hn. cbn [fst snd] in *. subst row. split; [exact Hr|lia].
    + apply IH in H. exact H.
    + injection H as <- <- <-. split; reflexivity.
Qed.

Lemma cursor_read_rows n : forall i rows msgs j,
  cursor_read region_can_alloc n i = Some (rows, msgs, j) ->
  xl_rows (log j) = xl_rows (log i) /\
  row_count j = row_count i + Z.of_nat (length rows) /\
  (length rows <= n)%nat.
Proof.
  induction n as [|n IH]; intros i rows msgs j H; cbn [cursor_read] in H.
  - injection H as <- <- <-. cbn [length]. repeat split; lia.
  - destruct (Xlog.xlog_cursor_v11_next region_can_alloc i)
      as [[[[row|] i'] ms]|] eqn:Hn; [| |discriminate].
    + destruct (cursor_read region_can_alloc n i') as [[[rs ms'] j']|] eqn:Hr;
        [|discriminate].
      injection H as <- <- <-.
      apply IH in Hr as (Hr1 & Hr2 & Hr3).
      apply next_restart_rows in Hn as (Hn1 & Hn2).
      cbn [length]. repeat split; [congruence|lia|lia].
    + injection H as <- <- <-.
      apply next_restart_rows in Hn as (Hn1 & Hn2).
      cbn [length]. repeat split; [congruence|lia|lia].
Qed.

(** X10: what one cursor leaves, the next picks up. A cursor that has
    read the rows of an unsealed log and is closed leaves the stream at
    the end of the last row and the rows counted in the log; after more
    rows have been appended, a cursor opened on the same log returns
    exactly the new rows, and the log's count is the total. *)
Theorem cursor_resumes_where_closed meta rows1 rows2 sealed n :
  Forall (row_readable region_can_alloc) (rows1 ++ rows2) ->
  exists msgs1 j,
    cursor_read region_can_alloc (S (length rows1))
      (xlog_cursor_v11_open
         (mk_xlog (mk_FILE (written_log meta rows1 false)
                           (Z.of_nat (length meta))) n)) =
      Some (map row_bytes rows1, msgs1, j) /\
    eof_read j = false /\
    let l := xlog_cursor_v11_close j in
    xl_rows l = n + Z.of_nat (length rows1) /\
    ftello (xl_f l) = Z.of_nat (length (written_log meta rows1 false)) /\
    exists msgs2 k,
      cursor_read region_can_alloc (S (length rows2))
        (xlog_cursor_v11_open
           (grown l (concat (map frame_row rows2) ++ seal sealed))) =
        Some (map row_bytes rows2, msgs2, k) /\
      eof_read k = sealed /\
      xl_rows (xlog_cursor_v11_close k) =
        n + Z.of_nat (length rows1) + Z.of_nat (length rows2) /\
      f_data (xl_f (xlog_cursor_v11_close k)) =
        written_log meta (rows1 ++ rows2) sealed.
Proof.
  intros Hok. apply Forall_app in Hok as [Hok1 Hok2].
  set (i := xlog_cursor_v11_open _).
  destruct (cursor_read_written region_can_alloc rows1 meta i false)
    as (msgs1 & j & Hr & He & Hc & Hg & Hd); try reflexivity; [exact Hok1|].
  exists msgs1, j. split; [exact Hr|]. split; [exact He|].
  cbv zeta. split; [|split].
  - unfold xlog_cursor_v11_close. cbn [xl_rows].
    apply cursor_read_rows in Hr as (Hr1 & Hr2 & _). rewrite Hr1, Hr2. cbn. lia.
  - unfold xlog_cursor_v11_close, ftello, fseeko. cbn [xl_f f_pos]. rewrite Hg.
    reflexivity.
  - set (l := xlog_cursor_v11_close j).
    set (i2 := xlog_cursor_v11_open _).
    destruct (cursor_read_written region_can_alloc rows2
                (written_log meta rows1 false) i2 sealed)
      as (msgs2 & k & Hr2 & He2 & Hc2 & Hg2 & Hd2).
    + unfold i2, grown, l, xlog_cursor_v11_open, xlog_cursor_v11_close.
      cbn. fold (cursor_file j). rewrite Hd. reflexivity.
    + unfold i2, grown, l, xlog_cursor_v11_open, xlog_cursor_v11_close.
      cbn. rewrite Hg. reflexivity.
    + unfold i2, grown, l, xlog_cursor_v11_open, xlog_cursor_v11_close.
      cbn. rewrite Hg. reflexivity.
    + reflexivity.
    + exact Hok2.
    + exists msgs2, k. split; [exact Hr2|]. split; [exact He2|].
      pose proof Hr as Hr'.
      apply cursor_read_rows in Hr' as (Hr1 & Hr1' & _).
      apply cursor_read_rows in Hr2 as (Hr3 & Hr4 & _).
      rewrite !length_map in *.
      unfold xlog_cursor_v11_close at 1 2. cbn [xl_rows xl_f fseeko f_data].
      fold (cursor_file k). rewrite Hd2, Hr3, Hc2. split.
      * unfold i2, grown, l, xlog_cursor_v11_open, xlog_cursor_v11_close.
        cbn [log xl_rows row_count]. rewrite Hr1, Hc. cbn. lia.
      * unfold i2, grown, l, xlog_cursor_v11_open, xlog_cursor_v11_close.
        cbn. fold (cursor_file j). rewrite Hd. cbn.
        unfold written_log, seal. rewrite map_app, concat_app, <- !app_assoc.
        reflexivity.
Qed.


Lemma row_reader_refused pre r post :
  Z.of_nat (length (r_body r)) < 2 ^ 32 ->
  region_can_alloc (28 + Z.of_nat (length (r_body r))) = false ->
  row_reader_v11
    (mk_FILE (pre ++ frame_row r ++ post) (Z.of_nat (length pre) + 4)) =
  (ROW_NULL, mk_FILE (pre ++ frame_row r ++ post) (Z.of_nat (length pre) + 32)).
Proof.
  intros Hlt Halloc. unfold Xlog.row_reader_v11, sizeof_header_v11.
  unfold frame_row at 1 2. rewrite <- !app_assoc.
  replace (pre ++ le_encode 4 row_marker_v11 ++ frame_header r ++ r_body r ++ post)
    with ((pre ++ le_encode 4 row_marker_v11) ++ frame_header r ++ r_body r ++ post)
    by (rewrite <- app_assoc; reflexivity).
  replace (Z.of_nat (length pre) + 4)
    with (Z.of_nat (length (pre ++ le_encode 4 row_marker_v11)))
    by (rewrite length_app, length_le_encode; lia).
  change 28 with (Z.of_nat 28) at 1. rewrite <- (length_frame_header r) at 1.
  rewrite fread_at by (intros E; apply (f_equal length) in E;
                       rewrite length_frame_header in E; discriminate).
  rewrite frame_header_len, Halloc by exact Hlt. cbn [negb].
  do 2 f_equal. rewrite !length_app, length_frame_header, length_le_encode. lia.
Qed.

(** A pass through [restart:] from a position with [junk] before the
    next frame and no marker starting inside [junk]. *)
Lemma next_restart_to_frame fuel i f msgs pre junk r post :
  f_data f = pre ++ junk ++ frame_row r ++ post ->
  f_pos f = Z.of_nat (length pre) ->
  (forall m, Z.of_nat (length pre) <= m < Z.of_nat (length pre + length junk) ->
             ~ marker_at (f_data f) m) ->
  row_readable region_can_alloc r ->
  next_restart (S fuel) i f 0 msgs =
  Some (Some (row_bytes r),
        mk_cursor
          (mk_xlog (mk_FILE (f_data f)
                            (Z.of_nat (length pre + length junk +
                                       length (frame_row r))))
                   (xl_rows (log i)))
          (row_count i + 1)
          (Z.of_nat (length pre + length junk + length (frame_row r)))
          (eof_read i),
        msgs ++ found_msgs i (Z.of_nat (length pre + length junk))).
Proof.
  intros Hd Hp Hjunk (Hne & Hlt & Halloc).
  cbn [Xlog.next_restart]. change (0 <? 0) with false. cbv iota.
  assert (Hm : marker_at (f_data f) (Z.of_nat (length pre + length junk))).
  { rewrite Hd, app_assoc, <- length_app. apply marker_at_frame. }
  rewrite (find_marker_first f msgs (Z.of_nat (length pre + length junk)));
    [|lia|lia|exact Hm|rewrite Hp; exact Hjunk].
  rewrite Hd.
  replace (pre ++ junk ++ frame_row r ++ post)
    with ((pre ++ junk) ++ frame_row r ++ post) by (rewrite <- app_assoc; reflexivity).
  rewrite <- length_app, row_reader_frame by assumption.
  unfold ftello. cbn [f_pos].
  replace (Z.of_nat (length (pre ++ junk)) + 4 - 4)
    with (Z.of_nat (length (pre ++ junk))) by lia.
  rewrite <- Nat2Z.inj_add. rewrite <- !length_app. reflexivity.
Qed.

Lemma next_restart_null_step fuel i f msgs f2 f3 :
  find_marker f msgs = inr f2 ->
  row_reader_v11 f2 = (ROW_NULL, f3) ->
  next_restart (S fuel) i f 0 msgs =
  next_restart fuel i f3 (ftello f2 - 4)
               ((msgs ++ found_msgs i (ftello f2 - 4)) ++ [SayWarnFailedToReadRow]).
Proof.
  intros Hfm Hrr. cbn [Xlog.next_restart]. change (0 <? 0) with false.
  cbv iota. rewrite Hfm, Hrr. reflexivity.
Qed.

Lemma refused_row_next i pre r1 r2 post :
  f_data (cursor_file i) = pre ++ frame_row r1 ++ frame_row r2 ++ post ->
  f_pos (cursor_file i) = Z.of_nat (length pre) ->
  good_offset i = Z.of_nat (length pre) ->
  pre <> [] ->
  Z.of_nat (length (r_body r1)) < 2 ^ 32 ->
  region_can_alloc (28 + Z.of_nat (length (r_body r1))) = false ->
  (forall m, Z.of_nat (length pre) < m < Z.of_nat (length pre + length (frame_row r1)) ->
             ~ marker_at (f_data (cursor_file i)) m) ->
  row_readable region_can_alloc r2 ->
  xlog_cursor_v11_next i =
  Some (Some (row_bytes r2),
        mk_cursor
          (mk_xlog (mk_FILE (f_data (cursor_file i))
                            (Z.of_nat (length pre + length (frame_row r1) +
                                       length (frame_row r2))))
                   (xl_rows (log i)))
          (row_count i + 1)
          (Z.of_nat (length pre + length (frame_row r1) + length (frame_row r2)))
          (eof_read i),
        [SayDebugMagicFound (Z.of_nat (length pre)); SayWarnFailedToReadRow;
         SayWarnSkipped (Z.of_nat (length (frame_row r1))) (Z.of_nat (length pre));
         SayDebugMagicFound (Z.of_nat (length pre + length (frame_row r1)))]).
Proof.
  intros Hd Hp Hg Hpre Hlt Halloc Hno Hr2.
  assert (Hfuel : exists fuel, length (f_data (cursor_file i)) = S fuel).
  { rewrite Hd, length_app. destruct pre as [|c pre']; [contradiction|].
    cbn [length]. eexists. reflexivity. }
  destruct Hfuel as [fuel Hfuel].
  assert (Hpos : 0 < Z.of_nat (length pre))
    by (destruct pre; [contradiction|cbn; lia]).
  assert (Hfm : find_marker (cursor_file i) [] =
                inr (mk_FILE (f_data (cursor_file i)) (Z.of_nat (length pre) + 4))).
  { apply find_marker_first; [lia|lia| |intros; lia].
    rewrite Hd. apply marker_at_frame. }
  assert (Hrr : row_reader_v11
                  (mk_FILE (f_data (cursor_file i)) (Z.of_nat (length pre) + 4)) =
                (ROW_NULL,
                 mk_FILE (f_data (cursor_file i)) (Z.of_nat (length pre) + 32))).
  { rewrite Hd. apply row_reader_refused; assumption. }
  assert (Hsplit : exists b tail, frame_row r1 = b :: tail).
  { destruct (frame_row r1) as [|b tail] eqn:Hfr; [|eexists _, _; reflexivity].
    pose proof (length_frame_row r1) as Hl. rewrite Hfr in Hl. discriminate. }
  destruct Hsplit as (b & tail & Hfr).
  assert (Hlen1 : length (frame_row r1) = S (length tail))
    by (rewrite Hfr; reflexivity).
  assert (Hd' : f_data (cursor_file i) =
                (pre ++ [b]) ++ tail ++ frame_row r2 ++ post).
  { rewrite Hd, Hfr, <- !app_assoc. reflexivity. }
  assert (Hl' : length (pre ++ [b]) = S (length pre))
    by (rewrite length_app; cbn [length]; lia).
  pose proof (next_restart_to_frame fuel i
                (mk_FILE (f_data (cursor_file i)) (Z.of_nat (length pre) + 1))
                [SayDebugMagicFound (Z.of_nat (length pre)); SayWarnFailedToReadRow]
                (pre ++ [b]) tail r2 post Hd') as Hnext.
  rewrite Hl' in Hnext. cbn [f_pos f_data] in Hnext.
  assert (Hnext' := Hnext ltac:(lia)
                      ltac:(intros m Hm; apply Hno; lia) Hr2).
  clear Hnext.
  unfold Xlog.xlog_cursor_v11_next. fold (cursor_file i). rewrite Hfuel.
  rewrite (next_restart_null_step (S fuel) i (cursor_file i) [] _ _ Hfm Hrr).
  unfold ftello. cbn [f_pos].
  replace (Z.of_nat (length pre) + 4 - 4) with (Z.of_nat (length pre)) by lia.
  rewrite next_restart_reseek by exact Hpos.
  assert (Hmsg : ([] ++ found_msgs i (Z.of_nat (length pre))) ++
                 [SayWarnFailedToReadRow] =
                 [SayDebugMagicFound (Z.of_nat (length pre)); SayWarnFailedToReadRow]).
  { unfold found_msgs. rewrite Hg, Z.eqb_refl. reflexivity. }
  rewrite Hmsg. unfold fseeko. cbn [f_data]. rewrite Hnext'.
  assert (Hmsg2 : found_msgs i (Z.of_nat (S (length pre) + length tail)) =
                  [SayWarnSkipped (Z.of_nat (length (frame_row r1)))
                                  (Z.of_nat (length pre));
                   SayDebugMagicFound
                     (Z.of_nat (length pre + length (frame_row r1)))]).
  { unfold found_msgs. rewrite Hg, Hlen1.
    destruct (Z.eqb_spec (Z.of_nat (length pre))
                         (Z.of_nat (S (length pre) + length tail))); [lia|].
    cbn [app]. f_equal; [f_equal; lia|]. do 2 f_equal. lia. }
  rewrite Hmsg2, Hlen1.
  replace (S (length pre) + length tail + length (frame_row r2))%nat
    with (length pre + S (length tail) + length (frame_row r2))%nat by lia.
  reflexivity.
Qed.

(** X20: a row too big for the region is skipped. When the region
    refuses the row at [good_offset], the cursor warns, seeks to the byte
    after that row's marker, and, no marker starting inside the refused
    row, returns the row that follows it, with a second warning for the
    bytes skipped; [good_offset] moves past both rows and [row_count]
    grows by one. *)
Theorem refused_row_is_skipped i pre r1 r2 post :
  f_data (cursor_file i) = pre ++ frame_row r1 ++ frame_row r2 ++ post ->
  f_pos (cursor_file i) = Z.of_nat (length pre) ->
  good_offset i = Z.of_nat (length pre) ->
  pre <> [] ->
  Z.of_nat (length (r_body r1)) < 2 ^ 32 ->
  region_can_alloc (28 + Z.of_nat (length (r_body r1))) = false ->
  (forall m, Z.of_nat (length pre) < m < Z.of_nat (length pre + length (frame_row r1)) ->
             ~ marker_at (f_data (cursor_file i)) m) ->
  row_readable region_can_alloc r2 ->
  exists i',
    xlog_cursor_v11_next i =
    Some (Some (row_bytes r2), i',
          [SayDebugMagicFound (good_offset i); SayWarnFailedToReadRow;
           SayWarnSkipped (Z.of_nat (length (frame_row r1))) (good_offset i);
           SayDebugMagicFound (good_offset i + Z.of_nat (length (frame_row r1)))]) /\
    good_offset i' =
      good_offset i + Z.of_nat (length (frame_row r1) + length (frame_row r2)) /\
    ftello (cursor_file i') = good_offset i' /\
    row_count i' = row_count i + 1 /\ eof_read i' = eof_read i.
Proof.
  intros Hd Hp Hg Hpre Hlt Halloc Hno Hr2.
  rewrite (refused_row_next i pre r1 r2 post) by assumption.
  rewrite Hg. eexists. split; [|split; [|split; [|split]]].
  - rewrite <- Nat2Z.inj_add. reflexivity.
  - cbn [good_offset]. lia.
  - reflexivity.
  - reflexivity.
  - reflexivity.
Qed.

(** X11: the cursor's accounting. After any number of calls,
    [row_count] has grown by the number of rows returned, the log's own
    count is untouched until [xlog_cursor_v11_close] adds [row_count] to
    it, [good_offset] has advanced by at least the bytes of the returned
    rows and their markers and is not past the end of the file unless it
    started there, and closing leaves the stream at [good_offset]. *)
Theorem cursor_read_accounting n : forall i rows msgs j,
  cursor_inv i ->
  cursor_read region_can_alloc n i = Some (rows, msgs, j) ->
  (length rows <= n)%nat /\
  row_count j = row_count i + Z.of_nat (length rows) /\
  xl_rows (xlog_cursor_v11_close j) =
    xl_rows (log i) + row_count i + Z.of_nat (length rows) /\
  f_data (cursor_file j) = f_data (cursor_file i) /\
  good_offset i + framed_size rows <= good_offset j /\
  good_offset j <= Z.max (good_offset i) (f_size (cursor_file i)) /\
  ftello (xl_f (xlog_cursor_v11_close j)) = good_offset j.
Proof.
  intros i rows msgs j Hinv H.
  pose proof (cursor_read_rows _ _ _ _ _ H) as (Hr1 & Hr2 & Hr3).
  split; [exact Hr3|]. split; [exact Hr2|].
  split; [unfold xlog_cursor_v11_close; cbn [xl_rows]; lia|].
  cut (f_data (cursor_file j) = f_data (cursor_file i) /\
       good_offset i + framed_size rows <= good_offset j /\
       good_offset j <= Z.max (good_offset i) (f_size (cursor_file i))).
  { intros (? & ? & ?). repeat split; assumption. }
  clear Hr1 Hr2 Hr3. revert i rows msgs j Hinv H.
  induction n as [|n IH]; intros i rows msgs j Hinv H; cbn [cursor_read] in H.
  - injection H as <- <- <-. cbn. repeat split; lia.
  - destruct (xlog_cursor_v11_next i) as [[[[row|] i'] ms]|] eqn:Hn; [| |discriminate].
    + destruct (cursor_read region_can_alloc n i') as [[[rs ms'] j']|] eqn:Hr;
        [|discriminate].
      injection H as <- <- <-.
      apply xlog_cursor_v11_next_spec in Hn as (Hout & Hd & Hinv'); [|exact Hinv].
      apply IH in Hr as (Hd' & Hsum & Hmax); [|exact Hinv'].
      inversion Hout as [| |row0 m i0 Hstart Hm Hrow Hg Hend Hc He]; subst.
      split; [congruence|]. cbn [framed_size fold_right]. fold (framed_size rs).
      destruct Hinv as [? ?]. unfold f_size in *. rewrite Hd in Hmax.
      split; lia.
    + injection H as <- <- <-.
      apply xlog_cursor_v11_next_spec in Hn as (Hout & Hd & Hinv'); [|exact Hinv].
      split; [exact Hd|]. cbn [framed_size fold_right].
      inversion Hout as [i0 Hg|i0 Hm Hg|]; subst.
      * lia.
      * destruct Hm as (_ & Hm & _). unfold f_size. lia.
Qed.

End ReaderFacts.

Lemma row_reader_v11_shape_witness :
  snd (fst (row_reader_v11_rowlen always_alloc (mk_FILE bad_crc_record 0) 0)) =
  Z.of_nat (length bad_crc_record).
Proof.
  pose proof (row_reader_v11_shape always_alloc (mk_FILE bad_crc_record 0) 0
                (Z.le_refl 0)) as H.
  vm_compute in H. vm_compute. exact (proj1 (proj2 (proj2 (proj2 H)))).
Defined.

(** The stored length wraps: a header announcing [2^32 - 1] body bytes
    leaves 27 in [*rowlen]. *)
Lemma rowlen_v11_wraps : rowlen_v11 (mk_header 0 0 0 0xFFFFFFFF 0) = 27.
Proof. reflexivity. Qed.

Lemma empty_body_header_len :
  length (empty_body_header 5 77) = 28%nat /\
  len (decode_header (empty_body_header 5 77)) = 0.
Proof. split; vm_compute; reflexivity. Qed.

Lemma empty_body_stops_cursor_witness :
  xlog_cursor_v11_next always_alloc empty_body_cursor =
  Some (None,
        with_file empty_body_cursor
          (mk_FILE (f_data (cursor_file empty_body_cursor)) (11 + 32)),
        [SayDebugMagicFound 11]).
Proof.
  apply (empty_body_stops_cursor always_alloc empty_body_cursor demo_meta
           (empty_body_header 5 77) (frame_row demo_r2)
           eq_refl eq_refl eq_refl (proj1 empty_body_header_len)
           (proj2 empty_body_header_len) eq_refl).
Defined.

Lemma sealed_empty_cursor_inv : cursor_inv sealed_empty_cursor.
Proof. split; vm_compute; discriminate. Qed.

Lemma eof_read_only_at_file_end_witness :
  exists i',
    xlog_cursor_v11_next always_alloc sealed_empty_cursor =
      Some (None, i', [SayDebugEofLookingForMagic]) /\
    good_offset i' = f_size (cursor_file sealed_empty_cursor).
Proof.
  exists (mk_cursor (mk_xlog (mk_FILE (demo_meta ++ seal true) 15) 0) 0 15 true).
  assert (Hn : xlog_cursor_v11_next always_alloc sealed_empty_cursor =
               Some (None,
                     mk_cursor (mk_xlog (mk_FILE (demo_meta ++ seal true) 15) 0)
                               0 15 true, [SayDebugEofLookingForMagic]))
    by (vm_compute; reflexivity).
  split; [exact Hn|].
  apply (eof_read_only_at_file_end always_alloc sealed_empty_cursor None _
           [SayDebugEofLookingForMagic]
           sealed_empty_cursor_inv eq_refl Hn eq_refl).
Defined.

Lemma demo_r1_readable : row_readable always_alloc demo_r1.
Proof.
  split; [discriminate|]. split; [vm_compute; reflexivity|reflexivity].
Qed.

Lemma partial_record_then_completed_witness :
  exists i' msgs,
    xlog_cursor_v11_next always_alloc cut_cursor = Some (None, i', msgs) /\
    exists j msgs',
      xlog_cursor_v11_next always_alloc
        (xlog_cursor_v11_open
           (grown (xlog_cursor_v11_close i') (drop 10 (frame_row demo_r1) ++ []))) =
        Some (Some (row_bytes demo_r1), j, msgs').
Proof.
  destruct (partial_record_then_completed always_alloc cut_cursor demo_meta
              demo_r1 10 [] eq_refl ltac:(vm_compute; lia) eq_refl eq_refl
              demo_r1_readable)
    as (i' & msgs & H1 & _ & _ & _ & _ & _ & j & msgs' & H2 & _).
  exists i', msgs. split; [exact H1|]. exists j, msgs'. exact H2.
Defined.

Lemma cursor_resumes_where_closed_witness :
  exists msgs1 j,
    cursor_read always_alloc 2
      (xlog_cursor_v11_open
         (mk_xlog (mk_FILE (written_log demo_meta [demo_r1] false) 11) 0)) =
      Some ([row_bytes demo_r1], msgs1, j) /\
    exists msgs2 k,
      cursor_read always_alloc 2
        (xlog_cursor_v11_open
           (grown (xlog_cursor_v11_close j)
                  (concat (map frame_row [demo_r2]) ++ seal true))) =
        Some ([row_bytes demo_r2], msgs2, k) /\
      xl_rows (xlog_cursor_v11_close k) = 2.
Proof.
  destruct (cursor_resumes_where_closed always_alloc demo_meta [demo_r1] [demo_r2]
              true 0 demo_rows_readable)
    as (msgs1 & j & H1 & _ & _ & _ & msgs2 & k & H2 & _ & H3 & _).
  exists msgs1, j. split; [exact H1|]. exists msgs2, k. split; [exact H2|exact H3].
Defined.

Lemma demo_cursor_inv : cursor_inv (xlog_cursor_v11_open (demo_log true)).
Proof. split; vm_compute; discriminate. Qed.

Lemma cursor_read_accounting_witness :
  exists rows msgs j,
    cursor_read always_alloc 3 (xlog_cursor_v11_open (demo_log true)) =
      Some (rows, msgs, j) /\
    row_count j = 0 + Z.of_nat (length rows) /\
    11 + framed_size rows <= good_offset j.
Proof.
  destruct (cursor_read always_alloc 3 (xlog_cursor_v11_open (demo_log true)))
    as [[[rows msgs] j]|] eqn:E; [|vm_compute in E; discriminate].
  exists rows, msgs, j. split; [reflexivity|].
  destruct (cursor_read_accounting always_alloc 3 _ rows msgs j demo_cursor_inv E)
    as (_ & H1 & _ & _ & H2 & _).
  split; [exact H1|exact H2].
Defined.

Lemma lxor_range a b n :
  0 <= n -> 0 <= a < 2 ^ n -> 0 <= b < 2 ^ n -> 0 <= Z.lxor a b < 2 ^ n.
Proof.
  intros Hn Ha Hb. split; [apply Z.lxor_nonneg; lia|].
  destruct (Z.eq_dec (Z.lxor a b) 0) as [->|Hnz]; [lia|].
  assert (0 < Z.lxor a b) by (pose proof (proj2 (Z.lxor_nonneg a b)); lia).
  assert (0 < n).
  { destruct (Z.eq_dec n 0) as [->|]; [|lia]. exfalso. apply Hnz.
    replace a with 0 by lia. replace b with 0 by lia. reflexivity. }
  apply Z.log2_lt_pow2; [lia|].
  pose proof (Z.log2_lxor a b ltac:(lia) ltac:(lia)) as Hl.
  assert (Hla : Z.log2 a < n).
  { destruct (Z.eq_dec a 0) as [->|]; [cbn; lia|]. apply Z.log2_lt_pow2; lia. }
  assert (Hlb : Z.log2 b < n).
  { destruct (Z.eq_dec b 0) as [->|]; [cbn; lia|]. apply Z.log2_lt_pow2; lia. }
  lia.
Qed.

Lemma crc32c_bit_range c : 0 <= c < 2 ^ 32 -> 0 <= crc32c_bit c < 2 ^ 32.
Proof.
  intros Hc. unfold crc32c_bit.
  assert (Hs : 0 <= Z.shiftr c 1 < 2 ^ 32).
  { rewrite Z.shiftr_div_pow2 by lia. change (2 ^ 1) with 2.
    split; [apply Z.div_pos; lia|].
    apply Z.div_lt_upper_bound; lia. }
  destruct (Z.testbit c 0); [|exact Hs].
  apply lxor_range; [lia|exact Hs|]. cbv. split; [discriminate|reflexivity].
Qed.

Lemma crc32c_byte_range crc b :
  0 <= crc < 2 ^ 32 -> 0 <= crc32c_byte crc b < 2 ^ 32.
Proof.
  intros Hc. unfold crc32c_byte.
  assert (H0 : 0 <= Z.lxor crc (byte_val b) < 2 ^ 32).
  { apply lxor_range; [lia|exact Hc|]. pose proof (byte_val_range b). lia. }
  cbn [Nat.iter nat_rect]. do 8 apply crc32c_bit_range. exact H0.
Qed.

Lemma crc32_calc_range buf : forall crc,
  0 <= crc < 2 ^ 32 -> 0 <= crc32_calc crc buf < 2 ^ 32.
Proof.
  unfold crc32_calc. induction buf as [|b buf IH]; intros crc Hc; cbn [fold_left].
  - exact Hc.
  - apply IH, crc32c_byte_range, Hc.
Qed.

Lemma row_bytes_decoded r :
  - 2 ^ 63 <= r_lsn r < 2 ^ 63 ->
  0 <= r_tm r < 2 ^ 64 ->
  Z.of_nat (length (r_body r)) < 2 ^ 32 ->
  let row := row_bytes r in
  let h := decode_header (take 28 row) in
  lsn h = r_lsn r /\ tm h = r_tm r /\
  len h = Z.of_nat (length (r_body r)) /\
  drop 28 row = r_body r /\
  Z.of_nat (length row) = sizeof_header_v11 + len h /\
  header_crc32c h = header_crc (take 28 row) /\
  data_crc32c h = data_crc (drop 28 row).
Proof.
  intros Hlsn Htm Hlen. cbv zeta. unfold row_bytes.
  rewrite take_app_length' by (rewrite length_frame_header; reflexivity).
  rewrite drop_app_length' by (rewrite length_frame_header; reflexivity).
  rewrite length_app, length_frame_header, frame_header_len by exact Hlen.
  unfold decode_header, frame_header, header_crc, data_crc, offsetof_lsn,
    sizeof_header_v11. cbn [lsn tm len header_crc32c data_crc32c].
  set (crc_h := crc32_calc 0 _). set (crc_d := crc32_calc 0 (r_body r)).
  rewrite (take_app_length' (le_encode 4 crc_h)) by reflexivity.
  rewrite (drop_app_length' (le_encode 4 crc_h)) by reflexivity.
  rewrite (take_app_length' (le_encode 8 (r_lsn r))) by reflexivity.
  change 12%nat with (4 + 8)%nat. rewrite <- (drop_drop _ 8 4).
  rewrite (drop_app_length' (le_encode 4 crc_h)) by reflexivity.
  rewrite (drop_app_length' (le_encode 8 (r_lsn r))) by reflexivity.
  rewrite (take_app_length' (le_encode 8 (r_tm r))) by reflexivity.
  change 24%nat with (4 + 8 + 8 + 4)%nat.
  rewrite <- (drop_drop _ 4 (4 + 8 + 8)), <- (drop_drop _ 8 (4 + 8)),
    <- (drop_drop _ 8 4).
  rewrite (drop_app_length' (le_encode 4 crc_h)) by reflexivity.
  rewrite (drop_app_length' (le_encode 8 (r_lsn r))) by reflexivity.
  rewrite (drop_app_length' (le_encode 8 (r_tm r))) by reflexivity.
  rewrite (drop_app_length' (le_encode 4 _)) by reflexivity.
  rewrite firstn_all2 by (rewrite length_le_encode; lia).
  rewrite !le_decode_encode.
  pose proof (crc32_calc_range (r_body r) 0 ltac:(lia)) as Hd. fold crc_d in Hd.
  assert (Hh : 0 <= crc_h < 2 ^ 32) by (apply crc32_calc_range; lia).
  change (256 ^ Z.of_nat 4) with (2 ^ 32). change (256 ^ Z.of_nat 8) with (2 ^ 64).
  rewrite !(Z.mod_small _ (2 ^ 32)) by lia.
  rewrite (Z.mod_small (r_tm r)) by lia.
  repeat split; try lia.
  unfold to_int64.
  destruct (Z.ltb_spec (r_lsn r mod 2 ^ 64) (2 ^ 63)) as [Hlt|Hge].
  - destruct (Z.lt_ge_cases (r_lsn r) 0) as [Hneg|Hpos].
    + rewrite <- (Z.mod_add _ 1) in Hlt by lia. rewrite Z.mod_small in Hlt; lia.
    + apply Z.mod_small. lia.
  - destruct (Z.lt_ge_cases (r_lsn r) 0) as [Hneg|Hpos].
    + rewrite <- (Z.mod_add _ 1) by lia. rewrite Z.mod_small; lia.
    + rewrite Z.mod_small in Hge; lia.
Qed.

(** X12: the fields of [struct header_v11] as the reader decodes them
    from a row laid out as the format says: the LSN (a signed 64-bit
    value), the time stamp, the body length and the body come back as
    written, and the two checksums the reader computes equal the stored
    ones. The length the reader stores in [*rowlen] is the row's length
    modulo [2^32]: the row's length itself when the body is shorter than
    [2^32 - 28] bytes. *)
Theorem written_row_fields r :
  - 2 ^ 63 <= r_lsn r < 2 ^ 63 ->
  0 <= r_tm r < 2 ^ 64 ->
  Z.of_nat (length (r_body r)) < 2 ^ 32 ->
  let row := row_bytes r in
  let h := decode_header (take 28 row) in
  lsn h = r_lsn r /\ tm h = r_tm r /\
  len h = Z.of_nat (length (r_body r)) /\
  drop 28 row = r_body r /\
  rowlen_v11 h = Z.of_nat (length row) mod 2 ^ 32 /\
  (Z.of_nat (length (r_body r)) < 2 ^ 32 - 28 ->
   rowlen_v11 h = Z.of_nat (length row)) /\
  header_crc32c h = header_crc (take 28 row) /\
  data_crc32c h = data_crc (drop 28 row).
Proof.
  intros Hlsn Htm Hlen.
  destruct (row_bytes_decoded r Hlsn Htm Hlen)
    as (H1 & H2 & H3 & H4 & H5 & H6 & H7).
  cbv zeta in *. unfold rowlen_v11.
  split; [exact H1|]. split; [exact H2|]. split; [exact H3|].
  split; [exact H4|]. split; [rewrite H5; f_equal; lia|].
  split; [|split; [exact H6|exact H7]].
  intros Hs. rewrite H5, H3. unfold sizeof_header_v11.
  rewrite Z.mod_small; lia.
Qed.

Lemma marker_free_spec data lo n :
  marker_free data lo n = true ->
  forall m, Z.of_nat lo <= m < Z.of_nat (lo + n) -> ~ marker_at data m.
Proof.
  intros H m Hm (H0 & _ & Hdec). unfold marker_free in H.
  rewrite forallb_forall in H. specialize (H (Z.to_nat m)).
  unfold marker_here in H. rewrite Hdec, Z.eqb_refl in H.
  assert (Hin : In (Z.to_nat m) (seq lo n)) by (apply in_seq; lia).
  specialize (H Hin). discriminate.
Qed.

Lemma refused_row_is_skipped_witness :
  exists i',
    xlog_cursor_v11_next small_alloc (xlog_cursor_v11_open (demo_log false)) =
    Some (Some (row_bytes demo_r2), i',
          [SayDebugMagicFound 11; SayWarnFailedToReadRow;
           SayWarnSkipped 37 11; SayDebugMagicFound 48]) /\
    good_offset i' = 83.
Proof.
  destruct (refused_row_is_skipped small_alloc
              (xlog_cursor_v11_open (demo_log false)) demo_meta demo_r1 demo_r2 []
              eq_refl eq_refl eq_refl ltac:(discriminate) eq_refl eq_refl)
    as (i' & H1 & H2 & _).
  - intros m Hm. apply (marker_free_spec _ 12 36); [vm_compute; reflexivity|].
    change (Z.of_nat (length demo_meta)) with 11 in Hm.
    change (Z.of_nat (length demo_meta + length (frame_row demo_r1))) with 48 in Hm.
    change (Z.of_nat 12) with 12. change (Z.of_nat (12 + 36)) with 48. lia.
  - split; [discriminate|]. split; [vm_compute; reflexivity|reflexivity].
  - exists i'. split; [exact H1|]. rewrite H2. reflexivity.
Defined.

Lemma written_row_fields_witness :
  lsn (decode_header (take 28 (row_bytes demo_r1))) = 5 /\
  tm (decode_header (take 28 (row_bytes demo_r1))) = 77.
Proof.
  destruct (written_row_fields demo_r1 ltac:(cbn; lia) ltac:(cbn; lia)
              ltac:(cbn; lia)) as (H1 & H2 & _).
  split; [exact H1|exact H2].
Defined.

End XlogExtSpec.

(** ** The file header *)

Module XlogMetaSpec.
Import Xlog Xdir XlogSpec XlogMeta.

Lemma bytes_eqb_eq a : forall b, bytes_eqb a b = true <-> a = b.
Proof.
  induction a as [|x a IH]; intros [|y b]; cbn; try (split; congruence).
  rewrite andb_true_iff, IH. split.
  - intros [H ->]. apply Byte.byte_dec_bl in H. congruence.
  - intros [= -> ->]. split; [apply Byte.byte_dec_lb|]; reflexivity.
Qed.

Lemma byte_eqb_neq (x y : byte) : x <> y -> Byte.eqb x y = false.
Proof.
  intros H. destruct (Byte.eqb x y) eqn:E; [|reflexivity].
  apply Byte.byte_dec_bl in E. contradiction.
Qed.

Lemma gets_line_body n body rest :
  x0a ∉ body -> (length body < n)%nat ->
  gets_line n (body ++ x0a :: rest) = body ++ [x0a].
Proof.
  revert n. induction body as [|c body IH]; intros n Hnot Hlen.
  - destruct n; [cbn in Hlen; lia|]. reflexivity.
  - destruct n; [cbn in Hlen; lia|]. cbn [gets_line app].
    apply not_elem_of_cons in Hnot as [Hc Hnot].
    rewrite byte_eqb_neq by congruence.
    f_equal. apply IH; [exact Hnot|cbn in Hlen; lia].
Qed.

Lemma gets_line_full n body rest :
  x0a ∉ body -> (n <= length body)%nat ->
  gets_line n (body ++ rest) = take n body.
Proof.
  revert n. induction body as [|c body IH]; intros n Hnot Hlen.
  - cbn in Hlen. replace n with 0%nat by lia. reflexivity.
  - destruct n; [reflexivity|]. cbn [gets_line app take].
    apply not_elem_of_cons in Hnot as [Hc Hnot].
    rewrite byte_eqb_neq by congruence.
    f_equal. apply IH; [exact Hnot|cbn in Hlen; lia].
Qed.

(** What [gets_line] returns is the start of its input; it ends at the
    first newline. *)
Lemma gets_line_prefix n : forall l,
  exists rest, l = gets_line n l ++ rest /\
    (gets_line n l = [] -> n = 0%nat \/ l = []) /\
    (forall a b, gets_line n l = a ++ x0a :: b -> b = []).
Proof.
  induction n as [|n IH]; intros l.
  - exists l. cbn. split; [reflexivity|]. split; [auto|]. intros [|] ?; discriminate.
  - destruct l as [|c l].
    + exists []. cbn. split; [reflexivity|]. split; [auto|]. intros [|] ?; discriminate.
    + cbn [gets_line]. destruct (Byte.eqb c x0a) eqn:E.
      * exists l. split; [reflexivity|]. split; [discriminate|].
        intros [|a0 a] b; cbn; intros [= ]; [congruence|].
        destruct a; discriminate.
      * destruct (IH l) as (rest & Hl & _ & Hnl).
        exists rest. split; [cbn; congruence|]. split; [discriminate|].
        intros [|a0 a] b; cbn; intros [= ].
        -- subst c. discriminate.
        -- eapply Hnl. eassumption.
Qed.

Lemma length_gets_line n l : (length (gets_line n l) <= n)%nat.
Proof.
  revert l. induction n as [|n IH]; intros [|c l]; cbn; try lia.
  destruct (Byte.eqb c x0a); cbn; [lia|]. specialize (IH l). lia.
Qed.

Lemma c_str_prefix buf : exists rest, buf = c_str buf ++ rest.
Proof.
  induction buf as [|c buf [rest IH]]; [exists []; reflexivity|].
  cbn [c_str]. destruct (Byte.eqb c x00); [eexists; reflexivity|].
  exists rest. cbn. congruence.
Qed.

Lemma c_str_id l : x00 ∉ l -> c_str l = l.
Proof.
  induction l as [|c l IH]; intros H; [reflexivity|].
  apply not_elem_of_cons in H as [Hc H]. cbn [c_str].
  rewrite byte_eqb_neq by congruence. f_equal. apply IH, H.
Qed.

(** A line [fgets] stored that compares equal to a literal ending in a
    newline is that literal. *)
Lemma line_is_literal n l lit0 :
  let lit := lit0 ++ [x0a] in
  x00 ∉ lit ->
  strcmp_eq (gets_line n l) lit = true \/ strcmp_eq lit (gets_line n l) = true ->
  gets_line n l = lit.
Proof.
  intros lit Hnul H.
  assert (Heq : c_str (gets_line n l) = lit).
  { unfold strcmp_eq in H. rewrite (c_str_id lit Hnul) in H.
    destruct H as [H|H]; apply bytes_eqb_eq in H; congruence. }
  destruct (c_str_prefix (gets_line n l)) as [rest Hrest].
  rewrite Heq in Hrest. unfold lit in Hrest. rewrite <- app_assoc in Hrest.
  destruct (gets_line_prefix n l) as (_ & _ & _ & Hnl).
  apply Hnl in Hrest as Hr. subst rest. rewrite Hrest. reflexivity.
Qed.


Lemma newline_unique (body lit0 rest : list byte) :
  x0a ∉ body -> body ++ [x0a] = lit0 ++ x0a :: rest -> body = lit0 /\ rest = [].
Proof.
  revert lit0. induction body as [|c body IH]; intros lit0 Hnot H.
  - destruct lit0 as [|d lit0]; cbn in H.
    + injection H as <-. split; reflexivity.
    + injection H as _ H. destruct lit0; discriminate.
  - apply not_elem_of_cons in Hnot as [Hc Hnot].
    destruct lit0 as [|d lit0]; cbn in H.
    + injection H as H _. congruence.
    + injection H as -> H. destruct (IH lit0 Hnot H) as [-> ->].
      split; reflexivity.
Qed.

Lemma body_not_literal body lit0 :
  x0a ∉ body -> body <> lit0 -> x00 ∉ lit0 ->
  strcmp_eq (body ++ [x0a]) (lit0 ++ [x0a]) = false.
Proof.
  intros Hnot Hne Hnul.
  destruct (strcmp_eq _ _) eqn:E; [|reflexivity]. exfalso.
  unfold strcmp_eq in E. apply bytes_eqb_eq in E.
  rewrite (c_str_id (lit0 ++ [x0a])) in E.
  2: { rewrite not_elem_of_app. split; [exact Hnul|].
       rewrite not_elem_of_cons. split; [discriminate|apply not_elem_of_nil]. }
  destruct (c_str_prefix (body ++ [x0a])) as [rest Hrest].
  rewrite E, <- app_assoc in Hrest.
  apply newline_unique in Hrest as [? _]; [contradiction|exact Hnot].
Qed.

Lemma fgets_data n f : f_data (snd (fgets n f)) = f_data f.
Proof. unfold fgets. destruct (gets_line _ _); reflexivity. Qed.

Lemma fgets_some n f line f' :
  0 <= f_pos f ->
  fgets n f = (Some line, f') ->
  line = gets_line (n - 1) (drop (Z.to_nat (f_pos f)) (f_data f)) /\
  line <> [] /\
  f' = mk_FILE (f_data f) (f_pos f + Z.of_nat (length line)) /\
  take (length line) (drop (Z.to_nat (f_pos f)) (f_data f)) = line /\
  f_pos f' <= f_size f.
Proof.
  intros Hp H. unfold fgets in H.
  destruct (gets_line_prefix (n - 1) (drop (Z.to_nat (f_pos f)) (f_data f)))
    as (rest & Hrest & _).
  destruct (gets_line _ _) as [|c l] eqn:E; [discriminate|].
  injection H as <- <-. split; [reflexivity|]. split; [discriminate|].
  split; [reflexivity|]. split.
  - rewrite Hrest at 1. rewrite take_app_length. reflexivity.
  - cbn [f_pos]. unfold f_size.
    assert (Hl : length (drop (Z.to_nat (f_pos f)) (f_data f)) =
                 (length (c :: l) + length rest)%nat).
    { rewrite Hrest at 1. apply length_app. }
    rewrite length_drop in Hl. cbn [length] in *. lia.
Qed.

Lemma fgets_line n pre body rest :
  x0a ∉ body -> (length body < n - 1)%nat ->
  fgets n (mk_FILE (pre ++ body ++ x0a :: rest) (Z.of_nat (length pre))) =
  (Some (body ++ [x0a]),
   mk_FILE (pre ++ body ++ x0a :: rest)
           (Z.of_nat (length pre + length (body ++ [x0a])))).
Proof.
  intros Hnot Hlen. unfold fgets. cbn [f_pos f_data].
  rewrite Nat2Z.id, drop_app_length, gets_line_body by assumption.
  destruct (body ++ [x0a]) eqn:E; [destruct body; discriminate|].
  rewrite Nat2Z.inj_add. reflexivity.
Qed.

Lemma skip_meta_lines_kv kv : forall fuel pre blank rest,
  Forall meta_body kv -> blank_line blank ->
  (length kv < fuel)%nat ->
  let data := pre ++ concat (map (fun b => b ++ [x0a]) kv) ++ blank ++ rest in
  skip_meta_lines fuel (mk_FILE data (Z.of_nat (length pre))) =
  Some (true,
        mk_FILE data
          (Z.of_nat (length pre +
                     length (concat (map (fun b => b ++ [x0a]) kv) ++ blank)))).
Proof.
  induction kv as [|b kv IH]; intros fuel pre blank rest Hkv Hblank Hfuel data;
    (destruct fuel as [|fuel]; [cbn in Hfuel; lia|]).
  - cbn [map concat app length] in *. unfold data. cbn [skip_meta_lines app].
    destruct Hblank as [-> | ->].
    + pose proof (fgets_line 256 pre [] rest (not_elem_of_nil _)
                    ltac:(cbn; lia)) as Hf.
      cbn [app] in Hf |- *. rewrite Hf. reflexivity.
    + assert (Hcr : x0a ∉ [x0d]).
      { rewrite not_elem_of_cons. split; [discriminate|apply not_elem_of_nil]. }
      pose proof (fgets_line 256 pre [x0d] rest Hcr ltac:(cbn; lia)) as Hf.
      cbn [app] in Hf |- *. rewrite Hf. reflexivity.
  - apply Forall_cons_iff in Hkv as [(Hnot & Hne & Hcr & Hlen) Hkv].
    unfold data. cbn [map concat skip_meta_lines]. rewrite <- !app_assoc.
    cbn [app]. rewrite (fgets_line 256 pre b) by (first [exact Hnot | cbn; lia]).
    pose proof (body_not_literal b [] Hnot Hne (not_elem_of_nil _)) as Hb1.
    assert (Hcrnul : x00 ∉ [x0d]).
    { rewrite not_elem_of_cons. split; [discriminate|apply not_elem_of_nil]. }
    pose proof (body_not_literal b [x0d] Hnot Hcr Hcrnul) as Hb2.
    cbn [app] in Hb1, Hb2. rewrite Hb1, Hb2. cbn [orb].
    specialize (IH fuel (pre ++ b ++ [x0a]) blank rest Hkv Hblank
                  ltac:(cbn in Hfuel; lia)).
    cbv zeta in IH. rewrite <- !app_assoc in IH. cbn [app] in IH.
    rewrite (length_app pre) in IH.
    rewrite IH. do 3 f_equal. rewrite !length_app. cbn [length].
    rewrite !length_app. cbn [length]. lia.
Qed.

Lemma fgets_line_at n data pos pre body rest :
  data = pre ++ body ++ x0a :: rest -> pos = Z.of_nat (length pre) ->
  x0a ∉ body -> (length body < n - 1)%nat ->
  fgets n (mk_FILE data pos) =
  (Some (body ++ [x0a]), mk_FILE data (pos + Z.of_nat (length body) + 1)).
Proof.
  intros -> -> Hnot Hlen. rewrite fgets_line by assumption.
  do 3 f_equal. rewrite length_app. cbn [length]. lia.
Qed.

Lemma skip_meta_lines_at kv fuel data pos pre blank rest :
  data = pre ++ concat (map (fun b => b ++ [x0a]) kv) ++ blank ++ rest ->
  pos = Z.of_nat (length pre) ->
  Forall meta_body kv -> blank_line blank ->
  (length kv < fuel)%nat ->
  skip_meta_lines fuel (mk_FILE data pos) =
  Some (true,
        mk_FILE data
          (pos + Z.of_nat (length (concat (map (fun b => b ++ [x0a]) kv) ++ blank)))).
Proof.
  intros -> -> Hkv Hblank Hfuel. rewrite skip_meta_lines_kv by assumption.
  do 3 f_equal. lia.
Qed.

Lemma length_filetype_line type : length (filetype_line type) = 5%nat.
Proof. destruct type; reflexivity. Qed.

Lemma length_kv_lines (kv : list (list byte)) :
  (length kv <= length (concat (map (fun b => b ++ [x0a]) kv)))%nat.
Proof.
  induction kv as [|b kv IH]; cbn [map concat length]; [lia|].
  rewrite !length_app. cbn [length]. lia.
Qed.

Lemma no_newline_4 a b c d : a <> x0a -> b <> x0a -> c <> x0a -> d <> x0a ->
  x0a ∉ [a; b; c; d].
Proof.
  intros. rewrite !not_elem_of_cons. repeat split; try congruence.
  apply not_elem_of_nil.
Qed.

Lemma read_meta_header type kv blank rest :
  Forall meta_body kv -> blank_line blank ->
  let data := meta_bytes type kv blank ++ rest in
  xlog_v11_read_meta type (mk_FILE data 0) =
  Some (inr (mk_meta type v11),
        mk_FILE data (Z.of_nat (length (meta_bytes type kv blank)))).
Proof.
  intros Hkv Hblank data.
  set (lines := concat (map (fun b => b ++ [x0a]) kv)).
  assert (Hf1 : exists ft0,
            (x0a ∉ ft0) /\ length ft0 = 4%nat /\ filetype_line type = ft0 ++ [x0a] /\
            data = [] ++ ft0 ++ x0a :: v11 ++ lines ++ blank ++ rest).
  { unfold data, meta_bytes. fold lines.
    destruct type; [exists [x53; x4e; x41; x50]|exists [x58; x4c; x4f; x47]];
      (split; [apply no_newline_4; discriminate|]);
      (split; [reflexivity|]); (split; [reflexivity|]);
      rewrite <- !app_assoc; reflexivity. }
  destruct Hf1 as (ft0 & Hft0 & Hftl & Hft & Hd1).
  assert (Hd2 : data = filetype_line type ++ [x30; x2e; x31; x31] ++
                       x0a :: lines ++ blank ++ rest).
  { rewrite Hd1, Hft, <- app_assoc. reflexivity. }
  assert (Hd3 : data = (filetype_line type ++ v11) ++ lines ++ blank ++ rest).
  { rewrite Hd2, <- app_assoc. reflexivity. }
  assert (Hlen : length data =
                 (10 + length lines + length blank + length rest)%nat).
  { rewrite Hd3, !length_app, length_filetype_line. unfold v11. cbn [length]. lia. }
  unfold xlog_v11_read_meta.
  rewrite (fgets_line_at 32 data 0 [] ft0 _ Hd1 eq_refl Hft0 ltac:(cbn; lia)).
  rewrite (fgets_line_at 32 data _ (filetype_line type) [x30; x2e; x31; x31] _ Hd2).
  2: rewrite length_filetype_line, Hftl; reflexivity.
  2: apply no_newline_4; discriminate.
  2: cbn; lia.
  change ([x30; x2e; x31; x31] ++ [x0a]) with v11.
  change (strcmp_eq v11 v11) with true. cbn [negb f_data]. rewrite <- Hft.
  rewrite (skip_meta_lines_at kv _ data _ (filetype_line type ++ v11) blank rest Hd3).
  2: rewrite length_app, length_filetype_line, Hftl; reflexivity.
  2: exact Hkv. 2: exact Hblank.
  2: { pose proof (length_kv_lines kv). fold lines in H. lia. }
  fold lines.
  replace (0 + Z.of_nat (length ft0) + 1 +
           Z.of_nat (length [x30; x2e; x31; x31]) + 1 +
           Z.of_nat (length (lines ++ blank)))
    with (Z.of_nat (length (meta_bytes type kv blank))).
  2: { unfold meta_bytes. fold lines.
       rewrite !length_app, length_filetype_line, Hftl. unfold v11. cbn [length]. lia. }
  destruct type; reflexivity.
Qed.


Lemma skip_meta_lines_true fuel : forall f f3,
  0 <= f_pos f ->
  skip_meta_lines fuel f = Some (true, f3) ->
  f_data f3 = f_data f /\
  exists blank,
    blank_line blank /\
    f_pos f + Z.of_nat (length blank) <= f_pos f3 <= f_size f /\
    take (length blank)
         (drop (Z.to_nat (f_pos f3) - length blank) (f_data f)) = blank.
Proof.
  induction fuel as [|fuel IH]; intros f f3 Hp H; [discriminate|].
  cbn [skip_meta_lines] in H.
  destruct (fgets 256 f) as [[buf|] f1] eqn:Hg; [|discriminate].
  apply fgets_some in Hg as (Hbuf & Hne & -> & Htake & Hsz); [|exact Hp].
  cbn [f_pos] in Hsz.
  destruct (strcmp_eq buf [x0a] || strcmp_eq buf [x0d; x0a]) eqn:E.
  - injection H as <-. cbn [f_data f_pos]. split; [reflexivity|].
    assert (Hblank : blank_line buf).
    { apply orb_true_iff in E as [E|E]; [left|right]; rewrite Hbuf in E |- *.
      - apply (line_is_literal _ _ []); [|left; exact E].
        cbn [app]. rewrite !not_elem_of_cons.
        repeat split; try discriminate. apply not_elem_of_nil.
      - apply (line_is_literal _ _ [x0d]); [|left; exact E].
        cbn [app]. rewrite !not_elem_of_cons.
        repeat split; try discriminate. apply not_elem_of_nil. }
    exists buf. split; [exact Hblank|]. split; [lia|].
    replace (Z.to_nat (f_pos f + Z.of_nat (length buf)) - length buf)%nat
      with (Z.to_nat (f_pos f)) by lia.
    exact Htake.
  - apply IH in H as (Hd & blank & Hb & Hpos & Htk); [|cbn; lia].
    cbn [f_data f_pos] in *. unfold f_size in *. cbn [f_data] in *.
    split; [exact Hd|]. exists blank. split; [exact Hb|]. split; [lia|exact Htk].
Qed.

Lemma skip_meta_lines_total fuel : forall f,
  0 <= f_pos f ->
  (Z.to_nat (f_size f - f_pos f) < fuel)%nat ->
  is_Some (skip_meta_lines fuel f).
Proof.
  induction fuel as [|fuel IH]; intros f Hp Hfuel; [lia|].
  cbn [skip_meta_lines].
  destruct (fgets 256 f) as [[buf|] f1] eqn:Hg; [|eexists; reflexivity].
  apply fgets_some in Hg as (_ & Hne & -> & _ & Hsz); [|exact Hp].
  destruct (_ || _); [eexists; reflexivity|].
  apply IH; cbn [f_pos f_data] in *; unfold f_size in *; cbn [f_data] in *.
  - lia.
  - destruct buf; [contradiction|]. cbn [length] in *. lia.
Qed.

Lemma v11_literal : x00 ∉ ([x30; x2e; x31; x31] ++ [x0a]).
Proof.
  cbn. rewrite !not_elem_of_cons. repeat split; try discriminate.
  apply not_elem_of_nil.
Qed.

Lemma filetype_literal type :
  exists ft0, filetype_line type = ft0 ++ [x0a] /\ (x00 ∉ ft0 ++ [x0a]).
Proof.
  destruct type; [exists [x53; x4e; x41; x50]|exists [x58; x4c; x4f; x47]];
    (split; [reflexivity|]); cbn; rewrite !not_elem_of_cons;
    repeat split; try discriminate; apply not_elem_of_nil.
Qed.

(** X14: [xlog_v11_read_meta] answers for every file, and returns 0
    only when the ten bytes at the stream position are the type line of
    the directory followed by ["0.11\n"]; the stream is then left, in the
    same file, just after a line read as ["\n"] or ["\r\n"]. A snapshot
    is never accepted in a log directory, nor a log in a snapshot
    directory. *)
Theorem xlog_v11_read_meta_sound type f :
  0 <= f_pos f ->
  is_Some (xlog_v11_read_meta type f) /\
  forall m f',
    xlog_v11_read_meta type f = Some (inr m, f') ->
    take 10 (drop (Z.to_nat (f_pos f)) (f_data f)) = filetype_line type ++ v11 /\
    meta_type m = type /\ meta_version m = v11 /\
    f_data f' = f_data f /\
    exists blank,
      blank_line blank /\
      f_pos f + 10 + Z.of_nat (length blank) <= f_pos f' <= f_size f /\
      take (length blank)
           (drop (Z.to_nat (f_pos f') - length blank) (f_data f)) = blank.
Proof.
  intros Hp. unfold xlog_v11_read_meta.
  destruct (fgets 32 f) as [[filetype|] f1] eqn:Hg1.
  2: { split; [eexists; reflexivity|]. intros m f' [=]. }
  apply fgets_some in Hg1 as (Hft & Hne1 & -> & Htake1 & Hsz1); [|exact Hp].
  destruct (fgets 32 _) as [[version|] f2] eqn:Hg2.
  2: { split; [eexists; reflexivity|]. intros m f' [=]. }
  apply fgets_some in Hg2 as (Hver & Hne2 & -> & Htake2 & Hsz2); [|cbn; lia].
  cbn [f_pos f_data] in *.
  destruct (strcmp_eq version v11) eqn:Ev; cbn [negb].
  2: { split; [eexists; reflexivity|]. intros m f' [=]. }
  assert (Hv : version = v11).
  { rewrite Hver in Ev |- *.
    apply (line_is_literal _ _ [x30; x2e; x31; x31]);
      [exact v11_literal|left; exact Ev]. }
  set (f2 := mk_FILE _ _).
  assert (Hf2 : 0 <= f_pos f2) by (cbn; lia).
  assert (Htot : is_Some (skip_meta_lines (S (length (f_data f2))) f2)).
  { apply skip_meta_lines_total; [exact Hf2|]. unfold f_size. lia. }
  assert (Hcheck : forall t,
            filetype = filetype_line type -> t = type ->
            is_Some (match skip_meta_lines (S (length (f_data f2))) f2 with
                     | None => None
                     | Some (false, f3) => Some (inl MetaFailedToRead, f3)
                     | Some (true, f3) => Some (inr (mk_meta t version), f3)
                     end) /\
            forall m f',
              match skip_meta_lines (S (length (f_data f2))) f2 with
              | None => None
              | Some (false, f3) => Some (inl MetaFailedToRead, f3)
              | Some (true, f3) => Some (inr (mk_meta t version), f3)
              end = Some (inr m, f') ->
              take 10 (drop (Z.to_nat (f_pos f)) (f_data f)) =
                filetype_line type ++ v11 /\
              meta_type m = type /\ meta_version m = v11 /\
              f_data f' = f_data f /\
              exists blank,
                blank_line blank /\
                f_pos f + 10 + Z.of_nat (length blank) <= f_pos f' <= f_size f /\
                take (length blank)
                     (drop (Z.to_nat (f_pos f') - length blank) (f_data f)) = blank).
  { intros t Hfte ->. destruct Htot as [[ok f3] Hs]. rewrite Hs.
    split; [destruct ok; eexists; reflexivity|].
    intros m f' H. destruct ok; [|discriminate]. injection H as <- <-.
    apply skip_meta_lines_true in Hs as (Hd & blank & Hb & Hpos & Htk);
      [|exact Hf2].
    assert (Hl1 : length filetype = 5%nat)
      by (rewrite Hfte; apply length_filetype_line).
    assert (Hl2 : length version = 5%nat) by (rewrite Hv; reflexivity).
    split.
    - change 10%nat with (5 + 5)%nat. rewrite <- take_take_drop.
      rewrite <- Hl1 at 1. rewrite Htake1, Hfte. f_equal.
      rewrite drop_drop, <- Hv, <- Htake2, Hl2. do 2 f_equal. lia.
    - split; [reflexivity|]. split; [exact Hv|]. split; [exact Hd|].
      exists blank. split; [exact Hb|]. unfold f2 in Hpos. cbn [f_pos] in Hpos.
      unfold f_size in *. cbn [f_data] in *. split; [lia|exact Htk]. }
  destruct (filetype_literal type) as (ft0 & Hft0 & Hnul).
  destruct (strcmp_eq xlog_filetype filetype &&
            match type with XLOG => true | SNAP => false end) eqn:E1.
  { apply andb_true_iff in E1 as [E1 Ety]. destruct type; [discriminate|].
    apply Hcheck; [|reflexivity]. rewrite Hft in E1 |- *.
    rewrite Hft0. apply (line_is_literal _ _ ft0); [exact Hnul|right].
    rewrite <- Hft0. exact E1. }
  destruct (strcmp_eq snap_filetype filetype &&
            match type with SNAP => true | XLOG => false end) eqn:E2.
  { apply andb_true_iff in E2 as [E2 Ety]. destruct type; [|discriminate].
    apply Hcheck; [|reflexivity]. rewrite Hft in E2 |- *.
    rewrite Hft0. apply (line_is_literal _ _ ft0); [exact Hnul|right].
    rewrite <- Hft0. exact E2. }
  split; [eexists; reflexivity|]. intros m f' [=].
Qed.

(** X13: [xlog_v11_read_meta] accepts every well-formed header. For a
    file that starts with the type line of the directory, the version
    line ["0.11\n"], any key/value lines that are not blank, hold no
    newline inside and fit the buffer, and a blank line (["\n"] or
    ["\r\n"]), it returns 0 with the type and the version, and leaves
    the stream just after the blank line, whatever follows. *)
Theorem xlog_v11_read_meta_accepts type kv blank rest :
  Forall meta_body kv -> blank_line blank ->
  let data := meta_bytes type kv blank ++ rest in
  xlog_v11_read_meta type (mk_FILE data 0) =
  Some (inr (mk_meta type v11),
        mk_FILE data (Z.of_nat (length (meta_bytes type kv blank)))).
Proof. exact (read_meta_header type kv blank rest). Qed.


Lemma fgets_chunk_at n data pos pre chunk rest :
  data = pre ++ chunk ++ rest -> pos = Z.of_nat (length pre) ->
  gets_line (n - 1) (chunk ++ rest) = chunk -> chunk <> [] ->
  fgets n (mk_FILE data pos) =
  (Some chunk, mk_FILE data (pos + Z.of_nat (length chunk))).
Proof.
  intros -> -> Hg Hne. unfold fgets. cbn [f_pos f_data].
  rewrite Nat2Z.id, drop_app_length, Hg.
  destruct chunk; [contradiction|reflexivity].
Qed.

Lemma no_newline_not_literal body lit0 :
  x0a ∉ body -> x00 ∉ lit0 ++ [x0a] ->
  strcmp_eq body (lit0 ++ [x0a]) = false.
Proof.
  intros Hnot Hnul.
  destruct (strcmp_eq _ _) eqn:E; [|reflexivity]. exfalso.
  unfold strcmp_eq in E. apply bytes_eqb_eq in E.
  rewrite (c_str_id _ Hnul) in E.
  destruct (c_str_prefix body) as [rest Hrest]. rewrite E in Hrest.
  apply Hnot. rewrite Hrest, <- app_assoc.
  apply elem_of_app. right. apply elem_of_cons. left. reflexivity.
Qed.

(** X15: a key/value line of exactly 255 characters ends the header.
    [fgets] stores the 255 characters without the newline, and the next
    [fgets] stores the newline alone, which the loop takes for the blank
    line: the call returns 0 with the stream right after that line,
    whatever the header goes on with. *)
Theorem full_buffer_line_ends_header type body rest :
  x0a ∉ body -> length body = 255%nat ->
  let data := filetype_line type ++ v11 ++ body ++ x0a :: rest in
  xlog_v11_read_meta type (mk_FILE data 0) =
  Some (inr (mk_meta type v11), mk_FILE data 266).
Proof.
  intros Hnot Hlen data.
  assert (Hf1 : exists ft0,
            (x0a ∉ ft0) /\ length ft0 = 4%nat /\ filetype_line type = ft0 ++ [x0a] /\
            data = [] ++ ft0 ++ x0a :: v11 ++ body ++ x0a :: rest).
  { unfold data.
    destruct type; [exists [x53; x4e; x41; x50]|exists [x58; x4c; x4f; x47]];
      (split; [apply no_newline_4; discriminate|]);
      (split; [reflexivity|]); (split; [reflexivity|]); reflexivity. }
  destruct Hf1 as (ft0 & Hft0 & Hftl & Hft & Hd1).
  assert (Hd2 : data = filetype_line type ++ [x30; x2e; x31; x31] ++
                       x0a :: body ++ x0a :: rest) by reflexivity.
  assert (Hd3 : data = (filetype_line type ++ v11) ++ body ++ x0a :: rest).
  { unfold data. rewrite <- app_assoc. reflexivity. }
  assert (Hd4 : data = ((filetype_line type ++ v11) ++ body) ++ [] ++ x0a :: rest).
  { rewrite Hd3, <- !app_assoc. reflexivity. }
  unfold xlog_v11_read_meta.
  rewrite (fgets_line_at 32 data 0 [] ft0 _ Hd1 eq_refl Hft0 ltac:(cbn; lia)).
  rewrite (fgets_line_at 32 data _ (filetype_line type) [x30; x2e; x31; x31] _ Hd2).
  2: rewrite length_filetype_line, Hftl; reflexivity.
  2: apply no_newline_4; discriminate.
  2: cbn; lia.
  change ([x30; x2e; x31; x31] ++ [x0a]) with v11.
  change (strcmp_eq v11 v11) with true. cbn [negb f_data]. rewrite <- Hft.
  rewrite Hftl. change (0 + Z.of_nat 4 + 1 + Z.of_nat (length [x30; x2e; x31; x31]) + 1)
    with 10.
  assert (Hskip : skip_meta_lines (S (length data)) (mk_FILE data 10) =
                  Some (true, mk_FILE data 266)).
  { assert (Hfuel : exists fuel, length data = S fuel).
    { destruct (length data) eqn:E; [|eexists; reflexivity].
      rewrite Hd3, !length_app in E. cbn [length] in E. lia. }
    destruct Hfuel as [fuel ->]. cbn [skip_meta_lines].
    rewrite (fgets_chunk_at 256 data 10 (filetype_line type ++ v11) body
               (x0a :: rest) Hd3).
    2: rewrite length_app, length_filetype_line; reflexivity.
    2: { rewrite gets_line_full by (first [exact Hnot | rewrite Hlen; cbn; lia]).
         apply firstn_all2. rewrite Hlen. cbn. lia. }
    2: { intros ->. discriminate. }
    assert (Hb1 : strcmp_eq body [x0a] = false).
    { apply (no_newline_not_literal body [] Hnot).
      cbn [app]. rewrite !not_elem_of_cons.
      repeat split; try discriminate. apply not_elem_of_nil. }
    assert (Hb2 : strcmp_eq body [x0d; x0a] = false).
    { apply (no_newline_not_literal body [x0d] Hnot).
      cbn [app]. rewrite !not_elem_of_cons.
      repeat split; try discriminate. apply not_elem_of_nil. }
    rewrite Hb1, Hb2. cbn [orb]. rewrite Hlen.
    rewrite (fgets_line_at 256 data _ ((filetype_line type ++ v11) ++ body) []
               rest Hd4).
    2: rewrite !length_app, length_filetype_line, Hlen; reflexivity.
    2: apply not_elem_of_nil.
    2: cbn; lia.
    reflexivity. }
  destruct type; cbn [andb]; rewrite Hskip; reflexivity.
Qed.

Section OpenAndRead.
Variable region_can_alloc : Z -> bool.

(** X16: from the opened stream to the rows. For a file made of a
    well-formed header and written rows, [xlog_v11_open_stream] returns
    a log with no rows counted whose stream stands at the first row; a
    cursor opened on it starts with [good_offset] at the end of the
    header and returns the rows in order, reports the end of the file
    exactly when the log is sealed, and closing it leaves the number of
    rows in the log and the stream at the end of the file. *)
Theorem xlog_v11_open_stream_reads_rows dir kv blank rows sealed name :
  Forall meta_body kv -> blank_line blank ->
  Forall (row_readable region_can_alloc) rows ->
  let meta := meta_bytes (dir_type dir) kv blank in
  exists l,
    xlog_v11_open_stream true dir
      (Some (mk_FILE (written_log meta rows sealed) 0)) name = Some (inr l) /\
    xl_dir l = dir /\ xl_rows (xl_base l) = 0 /\
    good_offset (xlog_cursor_v11_open (xl_base l)) = Z.of_nat (length meta) /\
    exists msgs j,
      cursor_read region_can_alloc (S (length rows))
                  (xlog_cursor_v11_open (xl_base l)) =
        Some (map row_bytes rows, msgs, j) /\
      eof_read j = sealed /\
      xl_rows (xlog_cursor_v11_close j) = Z.of_nat (length rows) /\
      ftello (xl_f (xlog_cursor_v11_close j)) =
        Z.of_nat (length (written_log meta rows sealed)).
Proof.
  intros Hkv Hblank Hrows meta. unfold xlog_v11_open_stream. cbn [negb].
  unfold written_log. fold meta.
  pose proof (read_meta_header (dir_type dir) kv blank
                (concat (map frame_row rows) ++ seal sealed) Hkv Hblank) as Hm.
  cbv zeta in Hm. fold meta in Hm. rewrite Hm.
  eexists. split; [reflexivity|]. cbn [xl_dir xl_base xl_rows].
  split; [reflexivity|]. split; [reflexivity|]. split; [reflexivity|].
  set (i := xlog_cursor_v11_open _).
  destruct (cursor_read_written region_can_alloc rows meta i sealed)
    as (msgs & j & Hr & He & Hc & Hg & Hd); try reflexivity; [exact Hrows|].
  exists msgs, j. split; [exact Hr|]. split; [exact He|].
  unfold xlog_cursor_v11_close, ftello, fseeko. cbn [xl_rows xl_f f_pos].
  rewrite Hc, Hg. split; [|reflexivity].
  apply (XlogExtSpec.cursor_read_rows region_can_alloc) in Hr as (Hx & _).
  rewrite Hx. cbn. lia.
Qed.

End OpenAndRead.

Lemma demo_kv_ok : Forall meta_body demo_kv.
Proof.
  apply Forall_cons_iff. split; [|apply Forall_nil_2].
  split; [|split; [discriminate|split; [discriminate|cbn; lia]]].
  rewrite !not_elem_of_cons. repeat split; try discriminate.
  apply not_elem_of_nil.
Qed.

Lemma long_line_no_newline : x0a ∉ long_line.
Proof.
  unfold long_line. intros H. apply elem_of_replicate in H as [H _].
  discriminate.
Qed.

Lemma xlog_v11_read_meta_accepts_witness :
  xlog_v11_read_meta XLOG
    (mk_FILE (meta_bytes XLOG demo_kv [x0a] ++ frame_row demo_r1) 0) =
  Some (inr (mk_meta XLOG v11),
        mk_FILE (meta_bytes XLOG demo_kv [x0a] ++ frame_row demo_r1) 15).
Proof.
  apply (xlog_v11_read_meta_accepts XLOG demo_kv [x0a] (frame_row demo_r1)
           demo_kv_ok (or_introl eq_refl)).
Defined.

Lemma xlog_v11_read_meta_sound_witness :
  is_Some (xlog_v11_read_meta SNAP (mk_FILE demo_meta 0)).
Proof.
  apply (proj1 (xlog_v11_read_meta_sound SNAP (mk_FILE demo_meta 0) (Z.le_refl 0))).
Defined.

Lemma full_buffer_line_ends_header_witness :
  xlog_v11_read_meta XLOG
    (mk_FILE (filetype_line XLOG ++ v11 ++ long_line ++ x0a :: demo_kv_rest) 0) =
  Some (inr (mk_meta XLOG v11),
        mk_FILE (filetype_line XLOG ++ v11 ++ long_line ++ x0a :: demo_kv_rest) 266).
Proof.
  apply (full_buffer_line_ends_header XLOG long_line demo_kv_rest
           long_line_no_newline eq_refl).
Defined.

Lemma xlog_v11_open_stream_reads_rows_witness :
  exists l msgs j,
    xlog_v11_open_stream true (xdir_v11_create_ "wal" XLOG)
      (Some (mk_FILE (written_log (meta_bytes XLOG demo_kv [x0a])
                                  [demo_r1; demo_r2] true) 0))
      "wal/00000000000000000005.xlog" = Some (inr l) /\
    cursor_read always_alloc 3 (xlog_cursor_v11_open (xl_base l)) =
      Some (map row_bytes [demo_r1; demo_r2], msgs, j) /\
    eof_read j = true.
Proof.
  destruct (xlog_v11_open_stream_reads_rows always_alloc
              (xdir_v11_create_ "wal" XLOG) demo_kv [x0a] [demo_r1; demo_r2] true
              "wal/00000000000000000005.xlog" demo_kv_ok (or_introl eq_refl)
              demo_rows_readable)
    as (l & H1 & _ & _ & _ & msgs & j & H2 & H3 & _).
  exists l, msgs, j. split; [exact H1|]. split; [exact H2|exact H3].
Defined.
End XlogMetaSpec.

(** ** The directory scan *)

Module XdirExtSpec.
Import Xdir XdirExt.

Lemma qsort_insert_perm x l : qsort_insert cmp_i64 x l ≡ₚ x :: l.
Proof.
  induction l as [|y l IH]; cbn [qsort_insert]; [reflexivity|].
  destruct (cmp_i64 x y <=? 0); [reflexivity|].
  rewrite IH. apply Permutation_swap.
Qed.

Lemma qsort_perm l : qsort cmp_i64 l ≡ₚ l.
Proof.
  unfold qsort. induction l as [|x l IH]; cbn [fold_right]; [reflexivity|].
  rewrite qsort_insert_perm, IH. reflexivity.
Qed.

Lemma cmp_i64_le x y : (cmp_i64 x y <=? 0) = (x <=? y).
Proof.
  unfold cmp_i64. destruct (Z.eqb_spec x y) as [->|Hne].
  - rewrite (Z.leb_refl y). reflexivity.
  - destruct (Z.gtb_spec x y); destruct (Z.leb_spec x y); try reflexivity; lia.
Qed.

Lemma qsort_insert_sorted x l :
  StronglySorted Z.le l -> StronglySorted Z.le (qsort_insert cmp_i64 x l).
Proof.
  induction 1 as [|y l Hs IH Hall]; cbn [qsort_insert].
  - repeat constructor.
  - rewrite cmp_i64_le. destruct (Z.leb_spec x y) as [Hle|Hgt].
    + constructor; [constructor; assumption|].
      constructor; [exact Hle|].
      apply Forall_forall. intros a Ha. rewrite Forall_forall in Hall.
      specialize (Hall a Ha). lia.
    + constructor; [exact IH|].
      rewrite (qsort_insert_perm x l). constructor; [lia|exact Hall].
Qed.

Lemma qsort_sorted l : StronglySorted Z.le (qsort cmp_i64 l).
Proof.
  unfold qsort. induction l as [|x l IH]; cbn [fold_right]; [constructor|].
  apply qsort_insert_sorted, IH.
Qed.

(** *** Decimal names *)

Local Abbreviation sou := DecimalString.NilEmpty.string_of_uint.

Lemma strchr_app_dot p r :
  strchr p "."%char = None ->
  strchr (p ++ String "."%char r) "."%char = Some (String.length p).
Proof.
  induction p as [|a p IH]; cbn [strchr String.append String.length]; [reflexivity|].
  destruct (Ascii.eqb a "."); [discriminate|].
  destruct (strchr p ".") eqn:E; [discriminate|].
  intros _. rewrite IH by reflexivity. reflexivity.
Qed.

Lemma strchr_append_none p q :
  strchr p "."%char = None -> strchr q "."%char = None ->
  strchr (p ++ q) "."%char = None.
Proof.
  induction p as [|a p IH]; cbn [strchr String.append]; [auto|].
  destruct (Ascii.eqb a "."); [discriminate|].
  destruct (strchr p ".") eqn:E; [discriminate|].
  intros _ Hq. rewrite IH by auto. reflexivity.
Qed.

Lemma strchr_zeros n : strchr (zeros n) "."%char = None.
Proof. induction n as [|n IH]; cbn; [reflexivity|]. rewrite IH. reflexivity. Qed.

Lemma strchr_uint d : strchr (sou d) "."%char = None.
Proof. induction d; cbn; try rewrite IHd; reflexivity. Qed.

Lemma str_from_length p s : str_from (String.length p) (p ++ s) = s.
Proof.
  induction p as [|a p IH]; cbn [String.length String.append str_from].
  - destruct s; reflexivity.
  - exact IH.
Qed.

Lemma length_append (p q : string) :
  String.length (p ++ q) = (String.length p + String.length q)%nat.
Proof. induction p as [|a p IH]; cbn; [reflexivity|]. rewrite IH. reflexivity. Qed.

Lemma append_assoc (p q r : string) : (p ++ (q ++ r) = (p ++ q) ++ r)%string.
Proof. induction p as [|a p IH]; cbn; [reflexivity|]. rewrite IH. reflexivity. Qed.

Lemma length_zeros n : String.length (zeros n) = n.
Proof. induction n as [|n IH]; cbn; [reflexivity|]. rewrite IH. reflexivity. Qed.

Lemma read_digits_zeros n s count :
  read_digits (zeros n ++ s) 0 count = read_digits s 0 (count + n).
Proof.
  revert count. induction n as [|n IH]; intros count; cbn [zeros String.append].
  - rewrite Nat.add_0_r. reflexivity.
  - cbn [read_digits]. change (digit_val "0") with (Some 0).
    cbv iota. change (10 * 0 + 0) with 0. rewrite IH. f_equal. lia.
Qed.

Lemma read_digits_uint_acc d : forall p count rest,
  read_digits (sou d ++ rest) (Z.pos p) count =
  read_digits rest (Z.pos (Pos.of_uint_acc d p))
              (count + String.length (sou d)).
Proof.
  induction d; intros p count rest;
    cbn [DecimalString.NilEmpty.string_of_uint String.append String.length
         Pos.of_uint_acc read_digits];
    try (rewrite Nat.add_0_r; reflexivity);
    match goal with
    | |- context [digit_val ?c] =>
        let v := eval vm_compute in (digit_val c) in
        change (digit_val c) with v; cbv iota
    end;
    match goal with
    | |- read_digits _ ?a _ = read_digits _ (Z.pos (Pos.of_uint_acc _ ?q)) _ =>
        replace a with (Z.pos q) by lia
    end;
    rewrite IHd; f_equal; lia.
Qed.

Lemma read_digits_uint d : forall count rest,
  read_digits (sou d ++ rest) 0 count =
  read_digits rest (Z.of_N (N.of_uint d)) (count + String.length (sou d)).
Proof.
  unfold N.of_uint.
  induction d; intros count rest;
    cbn [DecimalString.NilEmpty.string_of_uint String.append String.length
         Pos.of_uint read_digits];
    try (rewrite Nat.add_0_r; reflexivity);
    match goal with
    | |- context [digit_val ?c] =>
        let v := eval vm_compute in (digit_val c) in
        change (digit_val c) with v; cbv iota
    end.
  1: { change (10 * 0 + 0) with 0. rewrite IHd. f_equal. lia. }
  all: match goal with
       | |- read_digits _ ?a _ = read_digits _ (Z.of_N (N.pos (Pos.of_uint_acc _ ?q))) _ =>
           change a with (Z.pos q)
       end;
       rewrite read_digits_uint_acc; cbn [Z.of_N]; f_equal; lia.
Qed.

(** [strtoll] of a string that starts with neither white space nor a
    sign. *)
Lemma strtoll_unsigned s :
  match s with
  | String a _ => isspace a = false /\ a <> "-"%char /\ a <> "+"%char
  | EmptyString => True
  end ->
  strtoll s =
  (clamp_llong (fst (read_digits s 0 0)), snd (read_digits s 0 0)).
Proof.
  intros Hhead. unfold strtoll.
  assert (Hsp : skip_space s = (0%nat, s)).
  { destruct s as [|a s]; [reflexivity|]. cbn [skip_space].
    destruct Hhead as [-> _]. reflexivity. }
  rewrite Hsp.
  assert (Hsign : match s with
                  | String "-"%char r => (true, 1%nat, r)
                  | String "+"%char r => (false, 1%nat, r)
                  | _ => (false, 0%nat, s)
                  end = (false, 0%nat, s)).
  { destruct s as [|a s]; [reflexivity|]. destruct Hhead as (_ & Hm & Hp).
    destruct a as [[] [] [] [] [] [] [] []]; try reflexivity; congruence. }
  rewrite Hsign.
  destruct (read_digits s 0 0) as [v nd] eqn:E. cbn [fst snd].
  destruct nd as [|nd]; [|reflexivity].
  assert (Hv : v = 0).
  { clear - E. destruct s as [|a s]; cbn [read_digits] in E; [congruence|].
    destruct (digit_val a); [|congruence].
    exfalso. clear - E.
    assert (Hmono : forall s acc count v nd,
              read_digits s acc count = (v, nd) -> (count <= nd)%nat).
    { clear. induction s as [|a s IH]; intros acc count v nd; cbn [read_digits].
      - intros [= <- <-]. lia.
      - destruct (digit_val a); [|intros [= <- <-]; lia].
        intros H. apply IH in H. lia. }
    apply Hmono in E. lia. }
  rewrite Hv. reflexivity.
Qed.

Lemma name_head pad d r :
  match (zeros pad ++ sou d ++ String "."%char r)%string with
  | String a _ => isspace a = false /\ a <> "-"%char /\ a <> "+"%char
  | EmptyString => True
  end.
Proof.
  destruct pad as [|pad]; cbn [zeros String.append].
  - destruct d; cbn; repeat split; discriminate.
  - cbn. repeat split; discriminate.
Qed.

Lemma strtoll_name pad d r :
  strtoll (zeros pad ++ sou d ++ String "."%char r) =
  (clamp_llong (Z.of_N (N.of_uint d)), (pad + String.length (sou d))%nat).
Proof.
  rewrite strtoll_unsigned by apply name_head.
  rewrite read_digits_zeros, read_digits_uint. cbn [read_digits].
  change (digit_val ".") with (@None Z). reflexivity.
Qed.

Lemma classify_name pad n r :
  classify (String "."%char r) (signature_name pad n (String "."%char r)) =
  if Z.of_N n <? LLONG_MAX then Registered (Z.of_N n) else Warned.
Proof.
  unfold classify, signature_name.
  assert (Hdot : strchr (zeros pad ++ sou (N.to_uint n) ++ String "." r) "." =
                 Some (pad + String.length (sou (N.to_uint n)))%nat).
  { rewrite append_assoc, strchr_app_dot, length_append, length_zeros.
    - reflexivity.
    - apply strchr_append_none; [apply strchr_zeros|apply strchr_uint]. }
  rewrite Hdot.
  replace (pad + String.length (sou (N.to_uint n)))%nat
    with (String.length (zeros pad ++ sou (N.to_uint n)))
    by (rewrite length_append, length_zeros; reflexivity).
  rewrite append_assoc at 1. rewrite str_from_length.
  rewrite String.eqb_refl. cbn [negb].
  rewrite strtoll_name, DecimalN.Unsigned.of_to.
  rewrite length_append, length_zeros, Nat.eqb_refl. cbn [negb orb].
  unfold clamp_llong, LLONG_MAX, LLONG_MIN.
  pose proof (N2Z.is_nonneg n).
  destruct (Z.gtb_spec (Z.of_N n) (2 ^ 63 - 1)).
  - rewrite Z.eqb_refl. cbn [orb].
    destruct (Z.ltb_spec (Z.of_N n) (2 ^ 63 - 1)); [lia|reflexivity].
  - destruct (Z.ltb_spec (Z.of_N n) (- 2 ^ 63)); [lia|].
    destruct (Z.eqb_spec (Z.of_N n) (- 2 ^ 63)); [lia|].
    destruct (Z.eqb_spec (Z.of_N n) (2 ^ 63 - 1)); cbn [orb];
      destruct (Z.ltb_spec (Z.of_N n) (2 ^ 63 - 1)); try reflexivity; lia.
Qed.

Lemma strchr_append p s :
  strchr p "."%char = None ->
  strchr (p ++ s) "."%char =
  match strchr s "."%char with
  | Some k => Some (String.length p + k)%nat
  | None => None
  end.
Proof.
  induction p as [|a p IH]; cbn [strchr String.append String.length].
  - intros _. destruct (strchr s "."); reflexivity.
  - destruct (Ascii.eqb a "."); [discriminate|].
    destruct (strchr p ".") eqn:E; [discriminate|].
    intros _. rewrite IH by reflexivity. destruct (strchr s "."); reflexivity.
Qed.

Lemma strchr_all_space ws : all_space ws = true -> strchr ws "."%char = None.
Proof.
  induction ws as [|a ws IH]; cbn [all_space strchr]; [reflexivity|].
  intros H. apply andb_true_iff in H as [Ha Hws].
  destruct (Ascii.eqb_spec a "."); [subst a; discriminate|].
  rewrite IH by exact Hws. reflexivity.
Qed.

Lemma skip_space_all ws s :
  all_space ws = true ->
  match s with String a _ => isspace a = false | EmptyString => True end ->
  skip_space (ws ++ s) = (String.length ws, s).
Proof.
  intros Hws Hs. induction ws as [|a ws IH]; cbn [String.append String.length].
  - destruct s as [|a s]; [reflexivity|]. cbn [skip_space]. rewrite Hs. reflexivity.
  - cbn [all_space] in Hws. apply andb_true_iff in Hws as [Ha Hws].
    cbn [skip_space]. rewrite Ha, IH by exact Hws. reflexivity.
Qed.

Lemma length_uint_pos n :
  (0 < String.length (sou (N.to_uint n)))%nat.
Proof.
  destruct n as [|p]; [cbn; lia|]. cbn [N.to_uint].
  pose proof (DecimalPos.Unsigned.to_uint_nonnil p) as Hn.
  destruct (Pos.to_uint p); [contradiction|..];
    cbn [DecimalString.NilEmpty.string_of_uint String.length]; lia.
Qed.

Lemma strtoll_signed_name ws negative pad n r :
  all_space ws = true ->
  strtoll (signed_name ws negative pad n (String "."%char r)) =
  (clamp_llong (if negative then - Z.of_N n else Z.of_N n),
   (String.length ws + 1 + (pad + String.length (sou (N.to_uint n))))%nat).
Proof.
  intros Hws. unfold strtoll, signed_name.
  rewrite skip_space_all by (first [exact Hws | destruct negative; reflexivity]).
  assert (Hsign :
    match String (if negative then "-" else "+")%char
                 (zeros pad ++ sou (N.to_uint n) ++ String "." r) with
    | String "-"%char r0 => (true, 1%nat, r0)
    | String "+"%char r0 => (false, 1%nat, r0)
    | _ => (false, 0%nat,
            String (if negative then "-" else "+")%char
                   (zeros pad ++ sou (N.to_uint n) ++ String "." r))
    end = (negative, 1%nat, (zeros pad ++ sou (N.to_uint n) ++ String "." r)%string))
    by (destruct negative; reflexivity).
  rewrite Hsign.
  rewrite read_digits_zeros, read_digits_uint, DecimalN.Unsigned.of_to.
  cbn [read_digits]. change (digit_val ".") with (@None Z). cbv iota.
  pose proof (length_uint_pos n) as Hpos.
  destruct (0 + pad + String.length (sou (N.to_uint n)))%nat eqn:E; [lia|].
  rewrite <- E. f_equal; lia.
Qed.

Lemma classify_signed_name ws negative pad n r :
  all_space ws = true ->
  classify (String "."%char r) (signed_name ws negative pad n (String "."%char r)) =
  if Z.of_N n <? (if negative then 2 ^ 63 else LLONG_MAX)
  then Registered (if negative then - Z.of_N n else Z.of_N n)
  else Warned.
Proof.
  intros Hws. unfold classify.
  rewrite strtoll_signed_name by exact Hws.
  set (e := (String.length ws + 1 + (pad + String.length (sou (N.to_uint n))))%nat).
  assert (Hdot : strchr (signed_name ws negative pad n (String "." r)) "." = Some e).
  { unfold signed_name. rewrite strchr_append by (apply strchr_all_space, Hws).
    cbn [strchr]. assert (Hs : Ascii.eqb (if negative then "-" else "+")%char "." = false)
      by (destruct negative; reflexivity).
    rewrite Hs, append_assoc, strchr_app_dot, length_append, length_zeros.
    - unfold e. f_equal. lia.
    - apply strchr_append_none; [apply strchr_zeros|apply strchr_uint]. }
  rewrite Hdot.
  assert (Hfrom : str_from e (signed_name ws negative pad n (String "." r)) =
                  String "." r).
  { set (P := (ws ++ String (if negative then "-" else "+")%char
                            (zeros pad ++ sou (N.to_uint n)))%string).
    assert (Hname : signed_name ws negative pad n (String "." r) =
                    (P ++ String "." r)%string).
    { unfold signed_name, P. rewrite <- (append_assoc ws).
      cbn [String.append]. rewrite <- append_assoc. reflexivity. }
    assert (He : e = String.length P).
    { unfold P, e. rewrite length_append. cbn [String.length].
      rewrite length_append, length_zeros. lia. }
    rewrite Hname, He. apply str_from_length. }
  rewrite Hfrom, String.eqb_refl, Nat.eqb_refl. cbn [negb orb].
  unfold clamp_llong, LLONG_MAX, LLONG_MIN.
  pose proof (N2Z.is_nonneg n).
  destruct negative.
  - destruct (Z.gtb_spec (- Z.of_N n) (2 ^ 63 - 1)); [lia|].
    destruct (Z.ltb_spec (- Z.of_N n) (- 2 ^ 63)).
    + rewrite Z.eqb_refl, orb_true_r.
      destruct (Z.ltb_spec (Z.of_N n) (2 ^ 63)); [lia|reflexivity].
    + destruct (Z.eqb_spec (- Z.of_N n) (2 ^ 63 - 1)); [lia|].
      destruct (Z.eqb_spec (- Z.of_N n) (- 2 ^ 63));
        destruct (Z.ltb_spec (Z.of_N n) (2 ^ 63)); try reflexivity; lia.
  - destruct (Z.gtb_spec (Z.of_N n) (2 ^ 63 - 1)).
    + rewrite Z.eqb_refl. cbn [orb].
      destruct (Z.ltb_spec (Z.of_N n) (2 ^ 63 - 1)); [lia|reflexivity].
    + destruct (Z.ltb_spec (Z.of_N n) (- 2 ^ 63)); [lia|].
      destruct (Z.eqb_spec (Z.of_N n) (- 2 ^ 63)); [lia|].
      destruct (Z.eqb_spec (Z.of_N n) (2 ^ 63 - 1)); cbn [orb];
        destruct (Z.ltb_spec (Z.of_N n) (2 ^ 63 - 1)); try reflexivity; lia.
Qed.

Lemma filename_ext_dot dname type :
  exists r, filename_ext (xdir_v11_create_ dname type) = String "."%char r.
Proof. destruct type; eexists; reflexivity. Qed.

Section ScanFacts.
Variable realloc_can_alloc : Z -> bool.
Local Abbreviation scan_entries := (scan_entries realloc_can_alloc).
Local Abbreviation xdir_v11_scan := (xdir_v11_scan realloc_can_alloc).

Lemma extend_snoc signatures s acc :
  extend (Some (match signatures with Some a => a ++ [s] | None => [s] end)) acc =
  extend signatures (s :: acc).
Proof.
  unfold extend. destruct signatures as [a|]; cbn [default].
  - destruct acc; simpl; [reflexivity|]. rewrite <- app_assoc. reflexivity.
  - destruct acc; reflexivity.
Qed.

Lemma scan_entries_step ext d_name entries signatures s_count s_capacity warnings :
  scan_entries ext (d_name :: entries) signatures s_count s_capacity warnings =
  match classify ext d_name with
  | Ignored => scan_entries ext entries signatures s_count s_capacity warnings
  | Warned =>
      scan_entries ext entries signatures s_count s_capacity
                   (warnings ++ [d_name])
  | Registered signature =>
      let add cap :=
        scan_entries ext entries
          (Some (match signatures with
                 | Some a => a ++ [signature]
                 | None => [signature]
                 end))
          (s_count + 1) cap warnings in
      if s_count =? s_capacity then
        let cap := if s_capacity >? 0 then 2 * s_capacity else 16 in
        if realloc_can_alloc (8 * cap) then add cap
        else inl (ErrReallocSignatures, warnings)
      else add s_capacity
  end.
Proof.
  cbn [Xdir.scan_entries]. unfold classify.
  destruct (strchr d_name ".") as [e|]; [|reflexivity].
  destruct (negb (String.eqb (str_from e d_name) ext)); [reflexivity|].
  destruct (strtoll d_name) as [signature dot].
  destruct (negb (Nat.eqb e dot) || (signature =? LLONG_MAX)
            || (signature =? LLONG_MIN)); reflexivity.
Qed.

Lemma registered_cons ext d_name entries :
  registered ext (d_name :: entries) =
  match classify ext d_name with
  | Registered s => s :: registered ext entries
  | _ => registered ext entries
  end.
Proof. unfold registered. cbn. destruct (classify ext d_name); reflexivity. Qed.

Lemma warned_cons ext d_name entries :
  warned ext (d_name :: entries) =
  match classify ext d_name with
  | Warned => d_name :: warned ext entries
  | _ => warned ext entries
  end.
Proof. unfold warned. cbn. destruct (classify ext d_name); reflexivity. Qed.

Lemma scan_entries_spec ext entries : forall signatures s_count s_capacity warnings,
  (forall cap, 0 < cap -> realloc_can_alloc (8 * cap) = true) ->
  0 <= s_capacity ->
  scan_entries ext entries signatures s_count s_capacity warnings =
  inr (extend signatures (registered ext entries),
       s_count + Z.of_nat (length (registered ext entries)),
       warnings ++ warned ext entries).
Proof.
  induction entries as [|d_name entries IH];
    intros signatures s_count s_capacity warnings Hre Hcap.
  - cbn. rewrite Z.add_0_r, app_nil_r. reflexivity.
  - rewrite scan_entries_step, registered_cons, warned_cons.
    destruct (classify ext d_name) as [| |signature].
    + apply IH; assumption.
    + rewrite IH by assumption. rewrite <- app_assoc. reflexivity.
    + assert (Hadd : forall cap, 0 <= cap ->
                scan_entries ext entries
                  (Some (match signatures with
                         | Some a => a ++ [signature]
                         | None => [signature]
                         end)) (s_count + 1) cap warnings =
                inr (extend signatures (signature :: registered ext entries),
                     s_count + Z.of_nat (length (signature :: registered ext entries)),
                     warnings ++ warned ext entries)).
      { intros cap Hc. rewrite IH by assumption. rewrite extend_snoc.
        cbn [length]. do 3 f_equal. lia. }
      cbv zeta. destruct (s_count =? s_capacity); [|apply Hadd; exact Hcap].
      destruct (Z.gtb_spec s_capacity 0).
      * rewrite Hre by lia. apply Hadd. lia.
      * rewrite Hre by lia. apply Hadd. lia.
Qed.

(** X17: the first scan of a directory object, or the scan after
    [xdir_v11_destroy]. With memory for the array, [xdir_v11_scan]
    returns 0 whatever the listing holds; it installs the signatures of
    the registered entries sorted in ascending order, with repetitions
    kept and nothing else added, [NULL] when no entry is registered;
    [sig_count] is their number; and it warns about exactly the entries
    with the directory's extension whose name is not a number. *)
Theorem xdir_v11_scan_registers_sorted d entries :
  (forall cap, 0 < cap -> realloc_can_alloc (8 * cap) = true) ->
  sig d = None ->
  let found := registered (filename_ext d) entries in
  let sorted := qsort cmp_i64 found in
  xdir_v11_scan d (Some entries) =
    ScanDone (mk_xdir (dirname d) (filename_ext d) (dir_type d) (mode d)
                      (match found with [] => None | _ => Some sorted end)
                      (Z.of_nat (length found)))
             (warned (filename_ext d) entries) /\
  StronglySorted Z.le sorted /\ sorted ≡ₚ found /\
  (forall s, s ∈ sorted <->
             exists name, name ∈ entries /\
                          classify (filename_ext d) name = Registered s).
Proof.
  intros Hre Hsig found sorted. split; [|split; [|split]].
  - unfold Xdir.xdir_v11_scan.
    rewrite scan_entries_spec by (first [exact Hre | lia]).
    rewrite Hsig. fold found. unfold extend. cbn [default app Z.add].
    destruct found eqn:E; reflexivity.
  - apply qsort_sorted.
  - apply qsort_perm.
  - intros s. unfold sorted. rewrite (qsort_perm found). unfold found, registered.
    rewrite list_elem_of_omap. split.
    + intros (name & Hin & Hc). exists name. split; [exact Hin|].
      destruct (classify _ name); congruence.
    + intros (name & Hin & Hc). exists name. split; [exact Hin|].
      rewrite Hc. reflexivity.
Qed.

Lemma scan_entries_quiet ext entries : forall signatures s_count s_capacity warnings,
  registered ext entries = [] ->
  scan_entries ext entries signatures s_count s_capacity warnings =
  inr (signatures, s_count, warnings ++ warned ext entries).
Proof.
  induction entries as [|d_name entries IH];
    intros signatures s_count s_capacity warnings Hnone.
  - cbn. rewrite app_nil_r. reflexivity.
  - rewrite scan_entries_step, warned_cons. rewrite registered_cons in Hnone.
    destruct (classify ext d_name) as [| |signature]; [| |discriminate].
    + apply IH, Hnone.
    + rewrite IH by exact Hnone. rewrite <- app_assoc. reflexivity.
Qed.

Lemma scan_entries_refused ext before name after s : forall warnings,
  registered ext before = [] ->
  classify ext name = Registered s ->
  realloc_can_alloc 128 = false ->
  scan_entries ext (before ++ name :: after) None 0 0 warnings =
  inl (ErrReallocSignatures, warnings ++ warned ext before).
Proof.
  induction before as [|d_name before IH]; intros warnings Hnone Hc Hre.
  - cbn [app]. rewrite scan_entries_step, Hc. cbv zeta.
    change (0 =? 0) with true. change (0 >? 0) with false. cbv iota.
    change (8 * 16) with 128. rewrite Hre. cbn. rewrite app_nil_r. reflexivity.
  - cbn [app]. rewrite scan_entries_step, warned_cons.
    rewrite registered_cons in Hnone.
    destruct (classify ext d_name) as [| |signature]; [| |discriminate].
    + apply IH; assumption.
    + rewrite IH by assumption. rewrite <- app_assoc. reflexivity.
Qed.

(** X18: how the scan fails. When [opendir] fails the scan returns -1
    at once; a listing with no entry to register needs no memory and
    installs [NULL] and a count of 0; and when [realloc] refuses the
    first array of 16 signatures the scan returns -1 at the first entry
    to register, having warned only about the entries before it, and
    the directory object is not written. *)
Theorem xdir_v11_scan_failures d :
  xdir_v11_scan d None = ScanFailed ErrReadingDirectory [] /\
  (forall entries,
     registered (filename_ext d) entries = [] ->
     xdir_v11_scan d (Some entries) =
     match sig d with
     | None => ScanDone (mk_xdir (dirname d) (filename_ext d) (dir_type d)
                                 (mode d) None 0)
                        (warned (filename_ext d) entries)
     | Some _ => ScanFreedDir 0 None (warned (filename_ext d) entries)
     end) /\
  (forall before name after s,
     registered (filename_ext d) before = [] ->
     classify (filename_ext d) name = Registered s ->
     realloc_can_alloc 128 = false ->
     xdir_v11_scan d (Some (before ++ name :: after)) =
     ScanFailed ErrReallocSignatures (warned (filename_ext d) before)).
Proof.
  split; [reflexivity|]. split.
  - intros entries Hnone. unfold Xdir.xdir_v11_scan.
    rewrite scan_entries_quiet by exact Hnone. reflexivity.
  - intros before name after s Hnone Hc Hre. unfold Xdir.xdir_v11_scan.
    rewrite (scan_entries_refused _ _ _ _ s) by assumption. reflexivity.
Qed.


(** X19: names made of decimal digits. A name made of any number of
    zeros, the decimal digits of [n] and the directory's extension is
    registered with signature [n] when [n] is below [LLONG_MAX], so a
    listing of such names yields the sorted list of their numbers with
    no warning; from [LLONG_MAX] on, where [strtoll] saturates, the name
    is passed over with a warning. *)
Theorem xdir_v11_scan_decimal_names dname type :
  (forall cap, 0 < cap -> realloc_can_alloc (8 * cap) = true) ->
  let d := xdir_v11_create_ dname type in
  (forall files : list (nat * N),
     files <> [] ->
     Forall (fun pn => Z.of_N (snd pn) < LLONG_MAX) files ->
     xdir_v11_scan d
       (Some (map (fun pn => signature_name (fst pn) (snd pn) (filename_ext d))
                  files)) =
     ScanDone (mk_xdir (dirname d) (filename_ext d) type 432
                 (Some (qsort cmp_i64 (map (fun pn => Z.of_N (snd pn)) files)))
                 (Z.of_nat (length files)))
              []) /\
  (forall pad n,
     LLONG_MAX <= Z.of_N n ->
     xdir_v11_scan d (Some [signature_name pad n (filename_ext d)]) =
     ScanDone (mk_xdir (dirname d) (filename_ext d) type 432 None 0)
              [signature_name pad n (filename_ext d)]).
Proof.
  intros Hre d. destruct (filename_ext_dot dname type) as [r Hext].
  fold d in Hext. split.
  - intros files Hne Hall. unfold Xdir.xdir_v11_scan.
    rewrite scan_entries_spec by (first [exact Hre | lia]).
    assert (Hreg : registered (filename_ext d)
                     (map (fun pn => signature_name (fst pn) (snd pn) (filename_ext d))
                          files) =
                   map (fun pn => Z.of_N (snd pn)) files).
    { rewrite Hext. clear Hne. induction files as [|[pad n] files IH]; [reflexivity|].
      apply Forall_cons_iff in Hall as [Hn Hall]. cbn [map fst snd].
      rewrite registered_cons, classify_name.
      cbn [snd] in Hn. destruct (Z.ltb_spec (Z.of_N n) LLONG_MAX); [|lia].
      rewrite IH by exact Hall. reflexivity. }
    assert (Hwarn : warned (filename_ext d)
                      (map (fun pn => signature_name (fst pn) (snd pn) (filename_ext d))
                           files) = []).
    { rewrite Hext. clear Hne Hreg. induction files as [|[pad n] files IH]; [reflexivity|].
      apply Forall_cons_iff in Hall as [Hn Hall]. cbn [map fst snd].
      rewrite warned_cons, classify_name.
      cbn [snd] in Hn. destruct (Z.ltb_spec (Z.of_N n) LLONG_MAX); [|lia].
      apply IH, Hall. }
    rewrite Hreg, Hwarn, length_map. unfold extend.
    destruct files as [|pn files]; [contradiction|]. cbn [map].
    destruct type; reflexivity.
  - intros pad n Hn. unfold Xdir.xdir_v11_scan.
    rewrite Hext, scan_entries_step, classify_name.
    destruct (Z.ltb_spec (Z.of_N n) LLONG_MAX); [lia|].
    destruct type; reflexivity.
Qed.


(** X21: a sign and white space before the digits. [strtoll] skips
    leading white space and takes a sign, so a name made of white space,
    a sign, zeros, the decimal digits of [n] and the directory's
    extension is registered: with signature [n] after a plus sign when
    [n] is below [LLONG_MAX], with the negative signature [- n] after a
    minus sign when [n] is below 2^63; beyond, where [strtoll]
    saturates, it is passed over with a warning. *)
Theorem xdir_v11_scan_signed_names dname type ws negative pad n :
  realloc_can_alloc 128 = true ->
  all_space ws = true ->
  let d := xdir_v11_create_ dname type in
  let name := signed_name ws negative pad n (filename_ext d) in
  xdir_v11_scan d (Some [name]) =
  if Z.of_N n <? (if negative then 2 ^ 63 else LLONG_MAX)
  then ScanDone (mk_xdir (dirname d) (filename_ext d) type 432
                         (Some [if negative then - Z.of_N n else Z.of_N n]) 1) []
  else ScanDone (mk_xdir (dirname d) (filename_ext d) type 432 None 0) [name].
Proof.
  intros Hre Hws d name. destruct (filename_ext_dot dname type) as [r Hext].
  fold d in Hext. unfold name, Xdir.xdir_v11_scan.
  rewrite Hext, scan_entries_step, classify_signed_name by exact Hws.
  destruct (Z.of_N n <? (if negative then 2 ^ 63 else LLONG_MAX)).
  - cbv zeta. change (0 =? 0) with true. change (0 >? 0) with false. cbv iota.
    change (8 * 16) with 128. rewrite Hre. cbn [Xdir.scan_entries].
    destruct type; reflexivity.
  - cbn [Xdir.scan_entries app]. destruct type; reflexivity.
Qed.

(** X22: scanning again after [xdir_v11_destroy]. Once a scan has
    installed its result in the directory object, destroying the object
    and scanning again gives what a scan of the object as it was before
    the first scan gives: nothing of the first listing is left, and the
    scan does not end in the freed object. *)
Theorem xdir_v11_destroy_then_scan d0 listing1 d1 warnings1 listing2 :
  xdir_v11_scan d0 listing1 = ScanDone d1 warnings1 ->
  xdir_v11_scan (xdir_v11_destroy d1) listing2 = xdir_v11_scan d0 listing2 /\
  sig (xdir_v11_destroy d1) = None /\ sig_count (xdir_v11_destroy d1) = 0 /\
  forall count stored warnings,
    xdir_v11_scan (xdir_v11_destroy d1) listing2 <>
    ScanFreedDir count stored warnings.
Proof.
  intros H1.
  assert (Hd : sig d0 = None /\ dirname d1 = dirname d0 /\
               filename_ext d1 = filename_ext d0 /\ dir_type d1 = dir_type d0 /\
               mode d1 = mode d0).
  { unfold Xdir.xdir_v11_scan in H1. destruct listing1 as [entries|]; [|discriminate].
    destruct (scan_entries _ _ _ _ _ _) as [[e w]|[[sg c] w]]; [discriminate|].
    destruct (sig d0); [discriminate|]. injection H1 as <- _.
    repeat split. }
  destruct Hd as (Hsig & Hn & He & Ht & Hm).
  assert (Heq : xdir_v11_scan (xdir_v11_destroy d1) listing2 =
                xdir_v11_scan d0 listing2).
  { unfold Xdir.xdir_v11_scan, xdir_v11_destroy.
    cbn [filename_ext sig dirname dir_type mode]. rewrite Hsig, Hn, He, Ht, Hm.
    reflexivity. }
  split; [exact Heq|]. split; [reflexivity|]. split; [reflexivity|].
  intros count stored warnings. rewrite Heq. unfold Xdir.xdir_v11_scan.
  destruct listing2 as [entries|]; [|discriminate].
  destruct (scan_entries _ _ _ _ _ _) as [[e w]|[[sg c] w]]; [discriminate|].
  rewrite Hsig. discriminate.
Qed.

End ScanFacts.

Lemma always_alloc_ok cap : 0 < cap -> Xlog.always_alloc (8 * cap) = true.
Proof. reflexivity. Qed.

Lemma xdir_v11_scan_registers_sorted_witness :
  xdir_v11_scan Xlog.always_alloc (xdir_v11_create_ "wal" XLOG)
    (Some demo_listing) =
  ScanDone (mk_xdir "wal" ".xlog" XLOG 432 (Some [1; 5]) 2) ["abc.xlog"%string].
Proof.
  pose proof (proj1 (xdir_v11_scan_registers_sorted Xlog.always_alloc
                       (xdir_v11_create_ "wal" XLOG) demo_listing
                       always_alloc_ok eq_refl)) as H.
  rewrite H. vm_compute. reflexivity.
Defined.

Lemma xdir_v11_scan_failures_witness :
  xdir_v11_scan never_alloc (xdir_v11_create_ "wal" XLOG)
    (Some (["."%string; ".."%string; "abc.xlog"%string] ++
           ["00000000000000000005.xlog"%string])) =
  ScanFailed ErrReallocSignatures ["abc.xlog"%string].
Proof.
  pose proof (proj2 (proj2 (xdir_v11_scan_failures never_alloc
                              (xdir_v11_create_ "wal" XLOG)))
                ["."; ".."; "abc.xlog"]%string
                "00000000000000000005.xlog"%string [] 5
                ltac:(vm_compute; reflexivity) ltac:(vm_compute; reflexivity)
                eq_refl) as H.
  rewrite H. vm_compute. reflexivity.
Defined.

Lemma xdir_v11_scan_decimal_names_witness :
  xdir_v11_scan Xlog.always_alloc (xdir_v11_create_ "wal" XLOG)
    (Some [signature_name 19 12%N ".xlog"; signature_name 0 7%N ".xlog"]) =
  ScanDone (mk_xdir "wal" ".xlog" XLOG 432 (Some [7; 12]) 2) [].
Proof.
  pose proof (proj1 (xdir_v11_scan_decimal_names Xlog.always_alloc "wal" XLOG
                       always_alloc_ok)
                [(19%nat, 12%N); (0%nat, 7%N)]
                ltac:(discriminate)
                ltac:(repeat constructor)) as H.
  cbn [map fst snd] in H.
  change (filename_ext (xdir_v11_create_ "wal" XLOG)) with ".xlog"%string in H.
  rewrite H. vm_compute. reflexivity.
Defined.
Lemma xdir_v11_scan_signed_names_witness :
  xdir_v11_scan Xlog.always_alloc (xdir_v11_create_ "wal" XLOG)
    (Some [" -0042.xlog"%string]) =
  ScanDone (mk_xdir "wal" ".xlog" XLOG 432 (Some [-42]) 1) [].
Proof.
  pose proof (xdir_v11_scan_signed_names Xlog.always_alloc "wal" XLOG " " true 2
                42%N eq_refl eq_refl) as H.
  vm_compute in H. vm_compute. exact H.
Defined.

Lemma xdir_v11_destroy_then_scan_witness :
  xdir_v11_scan Xlog.always_alloc
    (xdir_v11_destroy (mk_xdir "wal" ".xlog" XLOG 432 (Some [1; 5]) 2))
    (Some ["00000000000000000007.xlog"%string]) =
  ScanDone (mk_xdir "wal" ".xlog" XLOG 432 (Some [7]) 1) [].
Proof.
  pose proof (proj1 (xdir_v11_destroy_then_scan Xlog.always_alloc
                       (xdir_v11_create "wal" XLOG []) (Some demo_listing)
                       (mk_xdir "wal" ".xlog" XLOG 432 (Some [1; 5]) 2)
                       ["abc.xlog"%string]
                       (Some ["00000000000000000007.xlog"%string])
                       ltac:(vm_compute; reflexivity))) as H.
  rewrite H. vm_compute. reflexivity.
Defined.

End XdirExtSpec.
